(** * POS-SRE: settlement engine, inventory ledger, coupons and rentals

    A shallow embedding of the reengineered point-of-sale application
    ([reengineered/app/models] and [reengineered/app/services]) and the
    properties of its settlement engine.

    Conventions of the embedding
    - Python [int] columns are [Z]; [Float] columns (prices, totals, fees)
      are exact rationals [Q], compared with [==]: binary rounding of the
      floats is not modelled. The amount given to [validate_coupon] is a
      [pyfloat]: the float of a request, which can be an infinity or nan.
    - An [Integer] column holds 64-bit values and a [datetime] ends with
      year 9999: the [OverflowError] beyond them is modelled where the
      ledger adds stock and where a rental is extended; the other
      writes are modelled for values within these ranges.
    - A [datetime] is a number of microseconds ([Z]) since
      1970-01-01 00:00:00; every [datetime.utcnow()] of one operation
      reads the same instant [now], which the operation takes as an
      argument.
    - A table is the list of its rows in storage order; [query.first()]
      is [find], [Model.query.get(pk)] is [find] on the primary key, and
      a mutated object is written back to every row carrying its primary
      key.
    - The SQLAlchemy session is the working copy of the database that an
      operation threads through its steps: [commit] publishes the copy,
      [rollback] returns to the database the operation started from.
    - An exception is a value of [exn]; [str(e)] is its [message].
    - Columns that no modelled operation reads (descriptions, names of
      customers, audit timestamps of items) are left out of the rows. *)

From Stdlib Require Import ZArith QArith Qminmax List String Bool Lia Lqa.
Import ListNotations.

Open Scope Z_scope.

(** ** Python values *)

(** Truthiness of an optional string ([if customer_phone:]). *)
Definition truthy_str (o : option string) : bool :=
  match o with
  | Some s => negb (String.eqb s EmptyString)
  | None => false
  end.

(** Truthiness of an optional integer ([if self.coupon_id:]). *)
Definition truthy_int (o : option Z) : bool :=
  match o with
  | Some z => negb (z =? 0)
  | None => false
  end.

(** [a < b], [a > b] and [a >= b] on floats. *)
Definition Qltb (a b : Q) : bool := negb (Qle_bool b a).
Definition Qgtb (a b : Q) : bool := Qltb b a.
Definition Qgeb (a b : Q) : bool := Qle_bool b a.

(** Python's [max(a, b)] and [min(a, b)]: the first argument wins ties. *)
Definition py_max (a b : Q) : Q := if Qltb a b then b else a.
Definition py_min (a b : Q) : Q := if Qltb b a then b else a.

(** A [float] argument that need not be a number, as a request can
    carry it: a number, an infinity or nan. *)
Inductive pyfloat : Type :=
| Fin (q : Q)
| PosInf
| NegInf
| NaN.

(** [x < m] and [x >= m] for such a float and a number [m]: every
    comparison with nan is false. *)
Definition float_ltb (x : pyfloat) (m : Q) : bool :=
  match x with
  | Fin q => Qltb q m
  | NegInf => true
  | PosInf | NaN => false
  end.

Definition float_geb (x : pyfloat) (m : Q) : bool :=
  match x with
  | Fin q => Qgeb q m
  | PosInf => true
  | NegInf | NaN => false
  end.

(** [x * k] for a number [k]. *)
Definition float_mul (x : pyfloat) (k : Q) : pyfloat :=
  match x with
  | Fin q => Fin (q * k)
  | PosInf => if Qgtb k 0 then PosInf else if Qltb k 0 then NegInf else NaN
  | NegInf => if Qgtb k 0 then NegInf else if Qltb k 0 then PosInf else NaN
  | NaN => NaN
  end.

(** Python's [min(d, x)] for a number [d]: [x] when [x < d], else [d]. *)
Definition float_min (d : Q) (x : pyfloat) : pyfloat :=
  if float_ltb x d then x else Fin d.

(** [str.upper()] on the ASCII letters. *)
Definition upper_ascii (c : Ascii.ascii) : Ascii.ascii :=
  let n := Ascii.nat_of_ascii c in
  if andb (Nat.leb 97 n) (Nat.leb n 122)
  then Ascii.ascii_of_nat (n - 32) else c.

Fixpoint upper (s : string) : string :=
  match s with
  | EmptyString => EmptyString
  | String c r => String (upper_ascii c) (upper r)
  end.

(** One day of a [timedelta], in microseconds. *)
Definition day : Z := 86400000000.

(** [timedelta.days] of the difference [a - b]. *)
Definition delta_days (a b : Z) : Z := (a - b) / day.

(** [datetime.min] and [datetime.max]: the first microsecond of year 1
    and the last of year 9999. Date arithmetic that leaves this range
    raises [OverflowError]. *)
Definition datetime_min : Z := -62135596800000000.
Definition datetime_max : Z := 253402300799999999.

(** The largest magnitude of the [days] of a [timedelta], and the range
    of the C [int] through which [timedelta] takes them. *)
Definition timedelta_max_days : Z := 999999999.
Definition fits_c_int (z : Z) : bool := (- 2 ^ 31 <=? z) && (z <=? 2 ^ 31 - 1).

(** The values an [Integer] column stores: a Python [int] outside the
    64-bit range raises [OverflowError] when the row is written. *)
Definition integer_min : Z := - 2 ^ 63.
Definition integer_max : Z := 2 ^ 63 - 1.
Definition fits_integer (z : Z) : bool := (integer_min <=? z) && (z <=? integer_max).

(** The next primary key of a table whose keys are [ids]. *)
Definition next_id (ids : list Z) : Z := 1 + fold_right Z.max 0 ids.

(** [query.order_by(key)]: ascending on [key]; rows with equal keys
    keep their storage order. *)
Fixpoint insert_by {A} (key : A -> Z) (x : A) (l : list A) : list A :=
  match l with
  | [] => [x]
  | y :: rest =>
      if key x <=? key y then x :: y :: rest else y :: insert_by key x rest
  end.

Definition order_by {A} (key : A -> Z) (l : list A) : list A :=
  fold_right (insert_by key) [] l.

(** SQL [SUM] of an amount over rows, [or 0.0] when there is none. *)
Definition sum_of {A} (f : A -> Q) (l : list A) : Q :=
  fold_right (fun r acc => (f r + acc)%Q) 0%Q l.

(** ** Exceptions *)

(** The text of an exception: one constructor per message of the source,
    its arguments being the values the f-string interpolates. *)
Inductive message : Type :=
| AmountCannotBeNegative            (* "Amount cannot be negative" *)
| InsufficientStock (available : Z) (* "Insufficient stock. Available: {quantity}" *)
| AmountMustBePositive              (* "Amount must be positive" *)
| ItemNotFound (item_id : string)   (* "Item {item_id} not found" *)
| InsufficientStockFor (name : string) (available : Z)
                                    (* "Insufficient stock for {name}. Available: {quantity}" *)
| NotAvailableForRental (name : string)
                                    (* "{name} is not available for rental" *)
| CustomerPhoneRequired             (* "Customer phone is required for rentals" *)
| CustomerNotFound                  (* "Customer not found" *)
| ReturnItemNotFound                (* "Item not found" *)
| NoActiveRental                    (* "No active rental found for this item" *)
| AlreadyReturned                   (* "Rental has already been returned" *)
| MustSpecifyDiscount               (* "Must specify either percentage or amount discount" *)
| BothDiscounts                     (* "Cannot have both percentage and amount discount" *)
| PercentOutOfRange                 (* "Discount percentage must be between 0 and 100" *)
| NegativeDiscountAmount            (* "Discount amount cannot be negative" *)
| CouponCodeExists (code : string)  (* "Coupon code {code} already exists" *)
| UniqueConstraint (column : string)
                                    (* the storage layer's report of a duplicate key *)
| IntegerTooLarge                   (* "Python int too large to convert to SQLite INTEGER" *)
| IntTooLargeForC                   (* "Python int too large to convert to C int" *)
| TimedeltaDaysOutOfRange (days : Z)
                                    (* "days={days}; must have magnitude <= 999999999" *)
| DateValueOutOfRange.              (* "date value out of range" *)

Inductive exn : Type :=
| ValueError (m : message)
| InventoryError (m : message)
| RentalError (m : message)
| CouponError (m : message)
| IntegrityError (m : message)
| OverflowError (m : message)
| TransactionError (m : message).

(** [str(e)]. *)
Definition str (e : exn) : message :=
  match e with
  | ValueError m | InventoryError m | RentalError m
  | CouponError m | IntegrityError m | OverflowError m | TransactionError m => m
  end.

(** ** Models *)

Module ItemType.
Definition SALE : string := "sale".
Definition RENTAL : string := "rental".
End ItemType.

Module Item.
Record t : Type := mk {
  id : Z;
  item_id : string;
  name : string;
  price : Q;
  quantity : Z;
  item_type : string;
  is_active : bool;
  low_stock_threshold : Z
}.

Definition set_quantity (self : t) (q : Z) : t :=
  mk (id self) (item_id self) (name self) (price self) q
     (item_type self) (is_active self) (low_stock_threshold self).

Definition is_in_stock (self : t) : bool := quantity self >? 0.

Definition is_low_stock (self : t) : bool :=
  quantity self <=? low_stock_threshold self.

Definition add_stock (self : t) (amount : Z) : exn + t :=
  if amount <? 0 then inl (ValueError AmountCannotBeNegative)
  else inr (set_quantity self (quantity self + amount)).

Definition remove_stock (self : t) (amount : Z) : exn + t :=
  if amount <? 0 then inl (ValueError AmountCannotBeNegative)
  else if amount >? quantity self
       then inl (ValueError (InsufficientStock (quantity self)))
       else inr (set_quantity self (quantity self - amount)).
End Item.

Module Customer.
Record t : Type := mk {
  id : Z;
  phone : string
}.
End Customer.

Module Coupon.
Record t : Type := mk {
  id : Z;
  code : string;
  discount_percent : Q;
  discount_amount : Q;
  minimum_purchase : Q;
  max_uses : option Z;
  times_used : Z;
  is_active : bool;
  expires_at : option Z
}.

(** [Coupon(code, ...)]: the code is upper-cased; the usage counter and
    the active flag take their column defaults when the row is
    inserted with primary key [pk]. *)
Definition init (pk : Z) (code : string) (discount_percent discount_amount : Q)
    (max_uses expires_at : option Z) (minimum_purchase : Q) : t :=
  mk pk (upper code) discount_percent discount_amount minimum_purchase
     max_uses 0 true expires_at.

Definition is_expired (self : t) (now : Z) : bool :=
  match expires_at self with
  | None => false
  | Some e => now >? e
  end.

Definition is_usage_exceeded (self : t) : bool :=
  match max_uses self with
  | None => false
  | Some m => times_used self >=? m
  end.

Definition is_valid (self : t) (now : Z) : bool :=
  is_active self && negb (is_expired self now) && negb (is_usage_exceeded self).

Definition can_apply_to_amount (self : t) (amount : Q) (now : Z) : bool :=
  is_valid self now && Qgeb amount (minimum_purchase self).

Definition calculate_discount (self : t) (amount : Q) (now : Z) : Q :=
  if negb (can_apply_to_amount self amount now) then 0%Q
  else if Qgtb (discount_percent self) 0
       then (amount * (discount_percent self / 100))%Q
       else if Qgtb (discount_amount self) 0
            then py_min (discount_amount self) amount
            else 0%Q.

Definition use (self : t) : t :=
  mk (id self) (code self) (discount_percent self) (discount_amount self)
     (minimum_purchase self) (max_uses self) (times_used self + 1)
     (is_active self) (expires_at self).
Definition deactivate (self : t) : t :=
  mk (id self) (code self) (discount_percent self) (discount_amount self)
     (minimum_purchase self) (max_uses self) (times_used self)
     false (expires_at self).

Definition activate (self : t) : t :=
  mk (id self) (code self) (discount_percent self) (discount_amount self)
     (minimum_purchase self) (max_uses self) (times_used self)
     true (expires_at self).

Definition remaining_uses (self : t) : option Z :=
  match max_uses self with
  | None => None
  | Some m => Some (Z.max 0 (m - times_used self))
  end.

(** [can_apply_to_amount] and [calculate_discount] at an amount that
    need not be a number. *)
Definition can_apply_to_float (self : t) (amount : pyfloat) (now : Z) : bool :=
  is_valid self now && float_geb amount (minimum_purchase self).

Definition calculate_discount_float (self : t) (amount : pyfloat) (now : Z)
  : pyfloat :=
  if negb (can_apply_to_float self amount now) then Fin 0
  else if Qgtb (discount_percent self) 0
       then float_mul amount (discount_percent self / 100)
       else if Qgtb (discount_amount self) 0
            then float_min (discount_amount self) amount
            else Fin 0.

End Coupon.

Module TransactionType.
Definition SALE : string := "sale".
Definition RENTAL : string := "rental".
Definition RETURN : string := "return".
End TransactionType.

Module PaymentMethod.
Definition CASH : string := "cash".
Definition CREDIT : string := "credit".
Definition DEBIT : string := "debit".
End PaymentMethod.

Module TransactionItem.
Record t : Type := mk {
  id : Z;
  transaction_id : Z;
  item_id : Z;
  quantity : Z;
  unit_price : Q
}.

Definition line_total (self : t) : Q :=
  (inject_Z (quantity self) * unit_price self)%Q.
End TransactionItem.

Module Transaction.
Record t : Type := mk {
  id : Z;
  transaction_number : string;
  transaction_type : string;
  employee_id : Z;
  customer_id : option Z;
  coupon_id : option Z;
  subtotal : Q;
  discount_amount : Q;
  tax_amount : Q;
  total : Q;
  payment_method : string;
  amount_tendered : Q;
  change_given : Q;
  created_at : Z
}.

(** [Transaction(...)] once inserted with primary key [pk] at time
    [now]: the financial columns take their defaults. *)
Definition init (pk : Z) (transaction_number transaction_type : string)
    (employee_id : Z) (customer_id : option Z) (payment_method : string)
    (now : Z) : t :=
  mk pk transaction_number transaction_type employee_id customer_id None
     0 0 0 0 payment_method 0 0 now.

Definition set_coupon_id (self : t) (c : option Z) : t :=
  mk (id self) (transaction_number self) (transaction_type self)
     (employee_id self) (customer_id self) c
     (subtotal self) (discount_amount self) (tax_amount self) (total self)
     (payment_method self) (amount_tendered self) (change_given self)
     (created_at self).

Definition set_totals (self : t) (sub disc tax tot : Q) : t :=
  mk (id self) (transaction_number self) (transaction_type self)
     (employee_id self) (customer_id self) (coupon_id self)
     sub disc tax tot
     (payment_method self) (amount_tendered self) (change_given self)
     (created_at self).

Definition set_payment (self : t) (tendered change : Q) : t :=
  mk (id self) (transaction_number self) (transaction_type self)
     (employee_id self) (customer_id self) (coupon_id self)
     (subtotal self) (discount_amount self) (tax_amount self) (total self)
     (payment_method self) tendered change
     (created_at self).

(** [sum(item.quantity * item.unit_price for item in ...)]: Python's
    [sum] adds from the left, starting at [0]. *)
Definition sum_lines (items : list TransactionItem.t) : Q :=
  fold_left (fun acc it => (acc + TransactionItem.line_total it)%Q) items 0%Q.

(** The default of the [tax_rate] argument of [calculate_totals]. *)
Definition default_tax_rate : Q := 0.08.

(** [calculate_totals(self, tax_rate)]. [items_all] is the result of
    [self.items.all()], [coupon_get] is [Coupon.query.get]. *)
Definition calculate_totals (self : t) (items_all : list TransactionItem.t)
    (coupon_get : Z -> option Coupon.t) (now : Z) (tax_rate : Q) : t :=
  let sub := sum_lines items_all in
  let disc :=
    if truthy_int (coupon_id self) then
      match coupon_id self with
      | Some cid =>
          match coupon_get cid with
          | Some coupon =>
              if Coupon.is_valid coupon now
              then (sub * (Coupon.discount_percent coupon / 100))%Q
              else discount_amount self
          | None => discount_amount self
          end
      | None => discount_amount self
      end
    else discount_amount self in
  let taxable_amount := (sub - disc)%Q in
  let tax := (taxable_amount * tax_rate)%Q in
  set_totals self sub disc tax (taxable_amount + tax)%Q.

Definition apply_payment (self : t) (tendered : Q) : t :=
  if String.eqb (payment_method self) PaymentMethod.CASH
  then set_payment self tendered (py_max 0 (tendered - total self))
  else set_payment self tendered (change_given self).

Definition is_sale (self : t) : bool :=
  String.eqb (transaction_type self) TransactionType.SALE.
Definition is_rental (self : t) : bool :=
  String.eqb (transaction_type self) TransactionType.RENTAL.
Definition is_return (self : t) : bool :=
  String.eqb (transaction_type self) TransactionType.RETURN.
End Transaction.

Module Rental.
Record t : Type := mk {
  id : Z;
  customer_id : Z;
  item_id : Z;
  transaction_id : option Z;
  quantity : Z;
  rental_price : Q;
  rental_date : Z;
  due_date : Z;
  returned : bool;
  return_date : option Z;
  late_fee : Q
}.

(** [Rental(...)] once inserted with primary key [pk] at time [now]:
    [due_date = utcnow() + timedelta(days=rental_days)]. *)
Definition init (pk customer_id item_id : Z) (rental_price : Q)
    (quantity rental_days : Z) (transaction_id : option Z) (now : Z) : t :=
  mk pk customer_id item_id transaction_id quantity rental_price
     now (now + rental_days * day) false None 0.

Definition set_return (self : t) (ret : bool) (date : option Z) (fee : Q) : t :=
  mk (id self) (customer_id self) (item_id self) (transaction_id self)
     (quantity self) (rental_price self) (rental_date self) (due_date self)
     ret date fee.

Definition is_overdue (self : t) (now : Z) : bool :=
  if returned self then false else now >? due_date self.

Definition days_overdue (self : t) (now : Z) : Z :=
  if negb (is_overdue self now) then 0
  else Z.max 0 (delta_days now (due_date self)).

Definition calculate_late_fee (self : t) (now : Z) (fee_per_day : Q) : Q :=
  (inject_Z (days_overdue self now) * fee_per_day * inject_Z (quantity self))%Q.

(** The default of the [fee_per_day] arguments. *)
Definition default_fee_per_day : Q := 2.

(** [process_return(self, fee_per_day)]. [item] is the object behind
    the relationship [self.item]; the result is the rental and the
    item after the call, and the late fee returned. The three
    assignments happen in the order of the source: the fee is
    computed on the rental already marked returned. *)
Definition process_return (self : t) (item : option Item.t) (now : Z)
    (fee_per_day : Q) : exn + (t * option Item.t * Q) :=
  let self1 := set_return self true (return_date self) (late_fee self) in
  let self2 := set_return self1 (returned self1) (Some now) (late_fee self1) in
  let self3 := set_return self2 (returned self2) (return_date self2)
                 (calculate_late_fee self2 now fee_per_day) in
  match item with
  | Some it =>
      match Item.add_stock it (quantity self3) with
      | inl e => inl e
      | inr it' => inr (self3, Some it', late_fee self3)
      end
  | None => inr (self3, None, late_fee self3)
  end.

(** [extend_rental(self, additional_days)]. [timedelta(days=...)] raises
    [OverflowError] for more than 999999999 days either way, and adding
    it to [due_date] raises [OverflowError] when the sum is not a
    [datetime]; [due_date] is then not assigned. *)
Definition extend_rental (self : t) (additional_days : Z) : exn + t :=
  if negb (returned self)
  then
    if negb (fits_c_int additional_days)
    then inl (OverflowError IntTooLargeForC)
    else if timedelta_max_days <? Z.abs additional_days
    then inl (OverflowError (TimedeltaDaysOutOfRange additional_days))
    else
      let due := due_date self + additional_days * day in
      if (due <? datetime_min) || (datetime_max <? due)
      then inl (OverflowError DateValueOutOfRange)
      else inr (mk (id self) (customer_id self) (item_id self) (transaction_id self)
                   (quantity self) (rental_price self) (rental_date self)
                   due
                   (returned self) (return_date self) (late_fee self))
  else inr self.

Definition days_remaining (self : t) (now : Z) : Z :=
  if returned self then 0
  else Z.max 0 (delta_days (due_date self) now).

Definition total_price (self : t) : Q :=
  (rental_price self * inject_Z (quantity self) + late_fee self)%Q.

End Rental.

(** ** The database and the unit of work *)

Record Db : Type := mkDb {
  items : list Item.t;
  customers : list Customer.t;
  coupons : list Coupon.t;
  transactions : list Transaction.t;
  transaction_items : list TransactionItem.t;
  rentals : list Rental.t
}.

(** A step of an operation: it reads and changes the working copy and
    either returns a value or raises. *)
Definition M (A : Type) : Type := Db -> exn + (A * Db).

Definition ret {A} (a : A) : M A := fun s => inr (a, s).

Definition raise {A} (e : exn) : M A := fun _ => inl e.

Definition bind {A B} (m : M A) (k : A -> M B) : M B :=
  fun s => match m s with
           | inl e => inl e
           | inr (a, s') => k a s'
           end.

Definition gets {A} (f : Db -> A) : M A := fun s => inr (f s, s).

Definition modify (f : Db -> Db) : M unit := fun s => inr (tt, f s).

(** A call of a model method that may raise. *)
Definition lift {A} (r : exn + A) : M A :=
  match r with
  | inl e => raise e
  | inr a => ret a
  end.

Declare Scope pos_scope.
Delimit Scope pos_scope with pos.
Notation "x <- m ;; k" := (bind m (fun x => k))
  (at level 61, m at next level, right associativity) : pos_scope.
Notation "m ;;; k" := (bind m (fun _ => k))
  (at level 61, right associativity) : pos_scope.
Open Scope pos_scope.

(** [for x in xs: body(x)]. *)
Fixpoint for_each {A} (body : A -> M unit) (xs : list A) : M unit :=
  match xs with
  | [] => ret tt
  | x :: rest => body x ;;; for_each body rest
  end.

(** [try: body; db.session.commit() except Exception as e:
    db.session.rollback(); raise TransactionError(str(e))]. *)
Definition atomically {A} (body : M A) (s : Db) : (exn + A) * Db :=
  match body s with
  | inl e => (inl (TransactionError (str e)), s)
  | inr (a, s') => (inr a, s')
  end.

(** *** Queries and writes *)

Definition Item_query_get (s : Db) (pk : Z) : option Item.t :=
  find (fun r => Item.id r =? pk) (items s).

Definition Coupon_query_get (s : Db) (pk : Z) : option Coupon.t :=
  find (fun r => Coupon.id r =? pk) (coupons s).

Definition Rental_query_get (s : Db) (pk : Z) : option Rental.t :=
  find (fun r => Rental.id r =? pk) (rentals s).

Definition Customer_by_phone (s : Db) (phone : string) : option Customer.t :=
  find (fun r => String.eqb (Customer.phone r) phone) (customers s).

(** [self.items.all()] of the transaction with primary key [tid]. *)
Definition Transaction_items_all (s : Db) (tid : Z) : list TransactionItem.t :=
  filter (fun r => TransactionItem.transaction_id r =? tid) (transaction_items s).

(** [Rental.query.filter_by(customer_id=, item_id=, returned=False).first()]. *)
Definition active_rental (s : Db) (cid iid : Z) : option Rental.t :=
  find (fun r => (Rental.customer_id r =? cid) && (Rental.item_id r =? iid)
                 && negb (Rental.returned r)) (rentals s).

Definition replace_row {A} (pk : A -> Z) (row : A) (table : list A) : list A :=
  map (fun r => if pk r =? pk row then row else r) table.

Definition save_item (it : Item.t) (s : Db) : Db :=
  mkDb (replace_row Item.id it (items s)) (customers s) (coupons s)
       (transactions s) (transaction_items s) (rentals s).

Definition save_coupon (c : Coupon.t) (s : Db) : Db :=
  mkDb (items s) (customers s) (replace_row Coupon.id c (coupons s))
       (transactions s) (transaction_items s) (rentals s).

Definition save_transaction (t : Transaction.t) (s : Db) : Db :=
  mkDb (items s) (customers s) (coupons s)
       (replace_row Transaction.id t (transactions s))
       (transaction_items s) (rentals s).

Definition save_rental (r : Rental.t) (s : Db) : Db :=
  mkDb (items s) (customers s) (coupons s) (transactions s)
       (transaction_items s) (replace_row Rental.id r (rentals s)).

(** [db.session.add(Customer(phone=phone))], inserted at the next flush. *)
Definition add_customer (phone : string) : M Customer.t :=
  fun s =>
    let c := Customer.mk (next_id (map Customer.id (customers s))) phone in
    inr (c, mkDb (items s) (customers s ++ [c]) (coupons s) (transactions s)
                 (transaction_items s) (rentals s)).

(** [db.session.add(Transaction(...))] and its insertion: the column
    [transaction_number] is unique. *)
Definition add_transaction (number type : string) (employee_id : Z)
    (customer_id : option Z) (payment_method : string) (now : Z) : M Transaction.t :=
  fun s =>
    if existsb (fun r => String.eqb (Transaction.transaction_number r) number)
               (transactions s)
    then inl (IntegrityError (UniqueConstraint "transaction_number"))
    else
      let t := Transaction.init (next_id (map Transaction.id (transactions s)))
                 number type employee_id customer_id payment_method now in
      inr (t, mkDb (items s) (customers s) (coupons s) (transactions s ++ [t])
                   (transaction_items s) (rentals s)).

(** [db.session.add(TransactionItem(...))]. *)
Definition add_transaction_item (tid iid quantity : Z) (unit_price : Q) : M unit :=
  fun s =>
    let ti := TransactionItem.mk
                (next_id (map TransactionItem.id (transaction_items s)))
                tid iid quantity unit_price in
    inr (tt, mkDb (items s) (customers s) (coupons s) (transactions s)
                  (transaction_items s ++ [ti]) (rentals s)).

(** [db.session.add(Rental(...))]. *)
Definition add_rental (customer_id item_id : Z) (rental_price : Q)
    (quantity rental_days : Z) (transaction_id : option Z) (now : Z) : M unit :=
  fun s =>
    let r := Rental.init (next_id (map Rental.id (rentals s)))
               customer_id item_id rental_price quantity rental_days
               transaction_id now in
    inr (tt, mkDb (items s) (customers s) (coupons s) (transactions s)
                  (transaction_items s) (rentals s ++ [r])).

(** [Customer.get_total_spent(self)]. *)
Definition Customer_get_total_spent (s : Db) (self : Customer.t) : Q :=
  sum_of Transaction.total
    (filter (fun t => match Transaction.customer_id t with
                      | Some c => c =? Customer.id self
                      | None => false
                      end) (transactions s)).

(** [Customer.get_active_rentals(self)]. *)
Definition Customer_get_active_rentals (s : Db) (self : Customer.t) : list Rental.t :=
  filter (fun r => negb (Rental.returned r))
    (filter (fun r => Rental.customer_id r =? Customer.id self) (rentals s)).

(** ** Services *)

Module InventoryService.
Definition get_item_by_id (s : Db) (item_id : string) : option Item.t :=
  find (fun r => String.eqb (Item.item_id r) item_id) (items s).

Definition get_item (s : Db) (pk : Z) : option Item.t := Item_query_get s pk.

(** [add_stock(item, amount)]: raises before any change, otherwise
    commits the new quantity. The commit writes the quantity to an
    [Integer] column: a quantity that does not fit raises
    [OverflowError], which nothing catches, and the row stays as it
    was. *)
Definition add_stock (item : Item.t) (amount : Z) (s : Db) : (exn + Item.t) * Db :=
  if amount <=? 0 then (inl (InventoryError AmountMustBePositive), s)
  else match Item.add_stock item amount with
       | inl e => (inl e, s)
       | inr item' =>
           if fits_integer (Item.quantity item')
           then (inr item', save_item item' s)
           else (inl (OverflowError IntegerTooLarge), s)
       end.

Definition remove_stock (item : Item.t) (amount : Z) (s : Db) : (exn + Item.t) * Db :=
  if amount <=? 0 then (inl (InventoryError AmountMustBePositive), s)
  else if amount >? Item.quantity item
       then (inl (InventoryError (InsufficientStock (Item.quantity item))), s)
       else match Item.remove_stock item amount with
            | inl e => (inl e, s)
            | inr item' => (inr item', save_item item' s)
            end.



Definition set_active (item : Item.t) (b : bool) : Item.t :=
  Item.mk (Item.id item) (Item.item_id item) (Item.name item) (Item.price item)
    (Item.quantity item) (Item.item_type item) b (Item.low_stock_threshold item).

Definition deactivate_item (item : Item.t) (s : Db) : Item.t * Db :=
  (set_active item false, save_item (set_active item false) s).

Definition activate_item (item : Item.t) (s : Db) : Item.t * Db :=
  (set_active item true, save_item (set_active item true) s).

(** [get_low_stock_items(threshold)]: [if threshold:] takes the branch
    of the override only for a threshold that is neither [None] nor 0. *)
Definition get_low_stock_items (threshold : option Z) (s : Db) : list Item.t :=
  if truthy_int threshold then
    match threshold with
    | Some th => filter (fun r => (Item.quantity r <=? th) && Item.is_active r) (items s)
    | None => []
    end
  else filter (fun r => (Item.quantity r <=? Item.low_stock_threshold r)
                        && Item.is_active r) (items s).

Definition get_out_of_stock_items (s : Db) : list Item.t :=
  filter (fun r => (Item.quantity r =? 0) && Item.is_active r) (items s).

Definition get_inventory_value (s : Db) : Q :=
  sum_of (fun r => (Item.price r * inject_Z (Item.quantity r))%Q)
    (filter Item.is_active (items s)).

End InventoryService.

Module CouponService.
Definition get_coupon_by_code (s : Db) (code : string) : option Coupon.t :=
  find (fun r => String.eqb (Coupon.code r) (upper code)) (coupons s).

(** The four checks that open [create_coupon], in their order. *)
Definition check_discounts (discount_percent discount_amount : Q) : option message :=
  if Qeq_bool discount_percent 0 && Qeq_bool discount_amount 0
  then Some MustSpecifyDiscount
  else if Qgtb discount_percent 0 && Qgtb discount_amount 0
  then Some BothDiscounts
  else if Qltb discount_percent 0 || Qgtb discount_percent 100
  then Some PercentOutOfRange
  else if Qltb discount_amount 0
  then Some NegativeDiscountAmount
  else None.

Definition create_coupon (code : string) (discount_percent discount_amount : Q)
    (max_uses expires_at : option Z) (minimum_purchase : Q) (s : Db)
  : (exn + Coupon.t) * Db :=
  match check_discounts discount_percent discount_amount with
  | Some m => (inl (CouponError m), s)
  | None =>
      match get_coupon_by_code s code with
      | Some _ => (inl (CouponError (CouponCodeExists code)), s)
      | None =>
          let c := Coupon.init (next_id (map Coupon.id (coupons s))) code
                     discount_percent discount_amount max_uses expires_at
                     minimum_purchase in
          (inr c, mkDb (items s) (customers s) (coupons s ++ [c])
                       (transactions s) (transaction_items s) (rentals s))
      end
  end.
(** The ['message'] of the dict [validate_coupon] returns. *)
Inductive verdict : Type :=
| CouponNotFound                       (* 'Coupon not found' *)
| CouponInactive                       (* 'Coupon is inactive' *)
| CouponExpired                        (* 'Coupon has expired' *)
| CouponUsageLimit                     (* 'Coupon usage limit reached' *)
| MinimumPurchaseRequired (minimum : Q)
                                       (* f'Minimum purchase of ${minimum:.2f} required' *)
| CouponValid (discount : pyfloat).    (* f'Coupon valid! Discount: ${discount:.2f}' *)

(** The dict [validate_coupon] returns; the keys ['coupon'] and
    ['discount'] are present in the valid case only. *)
Record validation : Type := mkValidation {
  valid : bool;
  message_of : verdict;
  coupon_of : option Coupon.t;
  discount_of : option pyfloat
}.

(** [validate_coupon(code, purchase_amount)]: the amount is the [float]
    of the request, which [float()] also parses from 'nan' and 'inf'. *)
Definition validate_coupon (code : string) (purchase_amount : pyfloat) (now : Z)
    (s : Db) : validation :=
  match get_coupon_by_code s code with
  | None => mkValidation false CouponNotFound None None
  | Some coupon =>
      if negb (Coupon.is_active coupon)
      then mkValidation false CouponInactive None None
      else if Coupon.is_expired coupon now
      then mkValidation false CouponExpired None None
      else if Coupon.is_usage_exceeded coupon
      then mkValidation false CouponUsageLimit None None
      else if float_ltb purchase_amount (Coupon.minimum_purchase coupon)
      then mkValidation false
             (MinimumPurchaseRequired (Coupon.minimum_purchase coupon)) None None
      else
        let discount := Coupon.calculate_discount_float coupon purchase_amount now in
        mkValidation true (CouponValid discount) (Some coupon) (Some discount)
  end.

Definition use_coupon (coupon : Coupon.t) (s : Db) : Coupon.t * Db :=
  (Coupon.use coupon, save_coupon (Coupon.use coupon) s).

Definition deactivate_coupon (coupon : Coupon.t) (s : Db) : Coupon.t * Db :=
  (Coupon.deactivate coupon, save_coupon (Coupon.deactivate coupon) s).

Definition activate_coupon (coupon : Coupon.t) (s : Db) : Coupon.t * Db :=
  (Coupon.activate coupon, save_coupon (Coupon.activate coupon) s).

(** [update_coupon(coupon, discount_percent, discount_amount, max_uses,
    expires_at)]: each argument that is not [None] is assigned. *)
Definition update_coupon (coupon : Coupon.t) (discount_percent discount_amount : option Q)
    (max_uses expires_at : option Z) (s : Db) : Coupon.t * Db :=
  let coupon' :=
    Coupon.mk (Coupon.id coupon) (Coupon.code coupon)
      (match discount_percent with Some p => p | None => Coupon.discount_percent coupon end)
      (match discount_amount with Some d => d | None => Coupon.discount_amount coupon end)
      (Coupon.minimum_purchase coupon)
      (match max_uses with Some m => Some m | None => Coupon.max_uses coupon end)
      (Coupon.times_used coupon) (Coupon.is_active coupon)
      (match expires_at with Some e => Some e | None => Coupon.expires_at coupon end) in
  (coupon', save_coupon coupon' s).

End CouponService.

Module RentalService.
(** [process_return(rental, late_fee_per_day)]. An exception leaves the
    session uncommitted: the database is the one before the call. *)
Definition process_return (rental : Rental.t) (late_fee_per_day : Q) (now : Z)
    (s : Db) : (exn + Q) * Db :=
  if Rental.returned rental
  then (inl (RentalError AlreadyReturned), s)
  else
    match Rental.process_return rental (Item_query_get s (Rental.item_id rental))
            now late_fee_per_day with
    | inl e => (inl e, s)
    | inr (rental', item', late_fee) =>
        let s1 := save_rental rental' s in
        let s2 := match item' with
                  | Some it => save_item it s1
                  | None => s1
                  end in
        (inr late_fee, s2)
    end.
(** [get_active_rentals(customer_phone)]. *)
Definition get_active_rentals (customer_phone : option string) (s : Db)
  : list Rental.t :=
  let query := filter (fun r => negb (Rental.returned r)) (rentals s) in
  if truthy_str customer_phone then
    match customer_phone with
    | Some phone =>
        match Customer_by_phone s phone with
        | Some customer =>
            order_by Rental.due_date
              (filter (fun r => Rental.customer_id r =? Customer.id customer) query)
        | None => []
        end
    | None => order_by Rental.due_date query
    end
  else order_by Rental.due_date query.

Definition get_overdue_rentals (now : Z) (s : Db) : list Rental.t :=
  order_by Rental.due_date
    (filter (fun r => negb (Rental.returned r) && (Rental.due_date r <? now))
       (rentals s)).

(** [get_due_soon_rentals(days)]. *)
Definition get_due_soon_rentals (days : Z) (now : Z) (s : Db) : list Rental.t :=
  let cutoff := now + days * day in
  order_by Rental.due_date
    (filter (fun r => negb (Rental.returned r) && (Rental.due_date r <=? cutoff)
                      && (Rental.due_date r >=? now))
       (rentals s)).

(** What [extend_rental] raises: a [RentalError] with one of its two
    messages, or the [OverflowError] of the date arithmetic of
    [rental.extend_rental], which it does not catch. *)
Inductive extend_error : Type :=
| CannotExtendReturned          (* RentalError("Cannot extend a returned rental") *)
| ExtensionDaysNotPositive      (* RentalError("Extension days must be positive") *)
| Uncaught (e : exn).

(** [extend_rental(rental, days)]: nothing is committed when
    [rental.extend_rental(days)] raises. *)
Definition extend_rental (rental : Rental.t) (days : Z) (s : Db)
  : (extend_error + Rental.t) * Db :=
  if Rental.returned rental then (inl CannotExtendReturned, s)
  else if days <=? 0 then (inl ExtensionDaysNotPositive, s)
  else
    match Rental.extend_rental rental days with
    | inl e => (inl (Uncaught e), s)
    | inr rental' => (inr rental', save_rental rental' s)
    end.

Definition check_customer_has_overdue (customer_phone : string) (now : Z) (s : Db)
  : bool :=
  match Customer_by_phone s customer_phone with
  | None => false
  | Some customer =>
      match find (fun r => (Rental.customer_id r =? Customer.id customer)
                           && negb (Rental.returned r)
                           && (Rental.due_date r <? now)) (rentals s) with
      | Some _ => true
      | None => false
      end
  end.

(** The dict [get_rental_stats] returns. *)
Record rental_stats : Type := mkRentalStats {
  active_rentals : nat;
  overdue_rentals : nat;
  returned_rentals : nat;
  total_late_fees_collected : Q;
  pending_late_fees : Q
}.

Definition get_rental_stats (now : Z) (s : Db) : rental_stats :=
  mkRentalStats
    (List.length (filter (fun r => negb (Rental.returned r)) (rentals s)))
    (List.length (get_overdue_rentals now s))
    (List.length (filter Rental.returned (rentals s)))
    (sum_of Rental.late_fee (filter Rental.returned (rentals s)))
    (fold_left (fun acc r =>
                  (acc + Rental.calculate_late_fee r now Rental.default_fee_per_day)%Q)
       (get_overdue_rentals now s) 0%Q).

End RentalService.

(** A cart line: the dict with keys ['item_id'] and ['quantity']. *)
Module CartLine.
Record t : Type := mk {
  item_id : string;
  quantity : Z
}.
End CartLine.

(** The dict returned by [TransactionService.process_return]. *)
Module ReturnResult.
Record t : Type := mk {
  rental : Rental.t;
  late_fee : Q;
  transaction : option Transaction.t;
  item : Item.t
}.
End ReturnResult.

Module TransactionService.

(** The customer of a sale: looked up by phone, created when absent.
    The transaction is built before the new customer is flushed, so
    [customer.id] is still [None] for a customer created here. *)
Definition sale_customer (customer_phone : option string) : M (option Z) :=
  if truthy_str customer_phone then
    match customer_phone with
    | Some phone =>
        c <- gets (fun s => Customer_by_phone s phone) ;;
        match c with
        | Some c => ret (Some (Customer.id c))
        | None => add_customer phone ;;; ret None
        end
    | None => ret None
    end
  else ret None.

(** The body of the loop [for item_data in items] of [create_sale]. *)
Definition sale_line (tid : Z) (item_data : CartLine.t) : M unit :=
  item <- gets (fun s => InventoryService.get_item_by_id s (CartLine.item_id item_data)) ;;
  match item with
  | None => raise (TransactionError (ItemNotFound (CartLine.item_id item_data)))
  | Some item =>
      let quantity := CartLine.quantity item_data in
      if Item.quantity item <? quantity
      then raise (TransactionError
                    (InsufficientStockFor (Item.name item) (Item.quantity item)))
      else
        add_transaction_item tid (Item.id item) quantity (Item.price item) ;;;
        item' <- lift (Item.remove_stock item quantity) ;;
        modify (save_item item')
  end.

(** [if coupon_code: ...] of [create_sale]. *)
Definition apply_coupon (transaction : Transaction.t) (coupon_code : option string)
    (now : Z) : M Transaction.t :=
  if truthy_str coupon_code then
    match coupon_code with
    | Some code =>
        coupon <- gets (fun s => CouponService.get_coupon_by_code s code) ;;
        match coupon with
        | Some coupon =>
            if Coupon.is_valid coupon now
            then modify (save_coupon (Coupon.use coupon)) ;;;
                 ret (Transaction.set_coupon_id transaction (Some (Coupon.id coupon)))
            else ret transaction
        | None => ret transaction
        end
    | None => ret transaction
    end
  else ret transaction.

(** [transaction.calculate_totals()]; [transaction.apply_payment(...)];
    the object is then what [commit] writes. *)
Definition settle (transaction : Transaction.t) (amount_tendered : Q) (now : Z)
  : M Transaction.t :=
  transaction <- gets (fun s =>
    Transaction.calculate_totals transaction
      (Transaction_items_all s (Transaction.id transaction))
      (Coupon_query_get s) now Transaction.default_tax_rate) ;;
  let transaction := Transaction.apply_payment transaction amount_tendered in
  modify (save_transaction transaction) ;;;
  ret transaction.

Definition create_sale_body (employee_id : Z) (items : list CartLine.t)
    (payment_method : string) (amount_tendered : Q)
    (coupon_code customer_phone : option string)
    (number : string) (now : Z) : M Transaction.t :=
  customer_id <- sale_customer customer_phone ;;
  transaction <- add_transaction number TransactionType.SALE employee_id
                   customer_id payment_method now ;;
  for_each (sale_line (Transaction.id transaction)) items ;;;
  transaction <- apply_coupon transaction coupon_code now ;;
  settle transaction amount_tendered now.

(** [create_sale(employee_id, items, payment_method, amount_tendered,
    coupon_code, customer_phone)]. [number] is the value of
    [Transaction.generate_transaction_number()], [now] the clock. *)
Definition create_sale (employee_id : Z) (items : list CartLine.t)
    (payment_method : string) (amount_tendered : Q)
    (coupon_code customer_phone : option string)
    (number : string) (now : Z) (s : Db) : (exn + Transaction.t) * Db :=
  atomically (create_sale_body employee_id items payment_method amount_tendered
                coupon_code customer_phone number now) s.

(** The customer of a rental: created and flushed when absent. *)
Definition rental_customer (phone : string) : M Customer.t :=
  c <- gets (fun s => Customer_by_phone s phone) ;;
  match c with
  | Some c => ret c
  | None => add_customer phone
  end.

(** The body of the loop [for item_data in items] of [create_rental]. *)
Definition rental_line (tid cid rental_days now : Z) (item_data : CartLine.t)
  : M unit :=
  item <- gets (fun s => InventoryService.get_item_by_id s (CartLine.item_id item_data)) ;;
  match item with
  | None => raise (TransactionError (ItemNotFound (CartLine.item_id item_data)))
  | Some item =>
      if negb (String.eqb (Item.item_type item) ItemType.RENTAL)
      then raise (TransactionError (NotAvailableForRental (Item.name item)))
      else
        let quantity := CartLine.quantity item_data in
        if Item.quantity item <? quantity
        then raise (TransactionError
                      (InsufficientStockFor (Item.name item) (Item.quantity item)))
        else
          add_transaction_item tid (Item.id item) quantity (Item.price item) ;;;
          add_rental cid (Item.id item) (Item.price item) quantity rental_days
            (Some tid) now ;;;
          item' <- lift (Item.remove_stock item quantity) ;;
          modify (save_item item')
  end.

Definition create_rental_body (employee_id : Z) (phone : string)
    (items : list CartLine.t) (rental_days : Z) (payment_method : string)
    (amount_tendered : Q) (number : string) (now : Z) : M Transaction.t :=
  customer <- rental_customer phone ;;
  transaction <- add_transaction number TransactionType.RENTAL employee_id
                   (Some (Customer.id customer)) payment_method now ;;
  for_each (rental_line (Transaction.id transaction) (Customer.id customer)
              rental_days now) items ;;;
  settle transaction amount_tendered now.

(** [create_rental(employee_id, customer_phone, items, rental_days,
    payment_method, amount_tendered)]. *)
Definition create_rental (employee_id : Z) (customer_phone : option string)
    (items : list CartLine.t) (rental_days : Z) (payment_method : string)
    (amount_tendered : Q) (number : string) (now : Z) (s : Db)
  : (exn + Transaction.t) * Db :=
  if negb (truthy_str customer_phone)
  then (inl (TransactionError CustomerPhoneRequired), s)
  else
    match customer_phone with
    | Some phone =>
        atomically (create_rental_body employee_id phone items rental_days
                      payment_method amount_tendered number now) s
    | None => (inl (TransactionError CustomerPhoneRequired), s)
    end.

(** The RETURN transaction of a late fee: [total] and [subtotal] are
    set on the new object, which [commit] inserts. *)
Definition late_fee_transaction (employee_id cid : Z) (late_fee : Q)
    (number : string) (now : Z) : M (option Transaction.t) :=
  if Qgtb late_fee 0 then
    t <- add_transaction number TransactionType.RETURN employee_id (Some cid)
           PaymentMethod.CASH now ;;
    let t := Transaction.set_totals t late_fee (Transaction.discount_amount t)
               (Transaction.tax_amount t) late_fee in
    modify (save_transaction t) ;;;
    ret (Some t)
  else ret None.

Definition process_return_body (employee_id : Z) (customer_phone item_id : string)
    (quantity : Z) (number : string) (now : Z) : M ReturnResult.t :=
  customer <- gets (fun s => Customer_by_phone s customer_phone) ;;
  match customer with
  | None => raise (TransactionError CustomerNotFound)
  | Some customer =>
      item <- gets (fun s => InventoryService.get_item_by_id s item_id) ;;
      match item with
      | None => raise (TransactionError ReturnItemNotFound)
      | Some item =>
          rental <- gets (fun s => active_rental s (Customer.id customer) (Item.id item)) ;;
          match rental with
          | None => raise (TransactionError NoActiveRental)
          | Some rental =>
              (* [rental.item] is the object [item]: same primary key *)
              r <- lift (Rental.process_return rental (Some item) now
                           Rental.default_fee_per_day) ;;
              let '(rental', item', late_fee) := r in
              modify (save_rental rental') ;;;
              match item' with
              | Some it => modify (save_item it)
              | None => ret tt
              end ;;;
              transaction <- late_fee_transaction employee_id (Customer.id customer)
                               late_fee number now ;;
              ret (ReturnResult.mk rental' late_fee transaction
                     (match item' with Some it => it | None => item end))
          end
      end
  end.

(** [process_return(employee_id, customer_phone, item_id, quantity)]. *)
Definition process_return (employee_id : Z) (customer_phone item_id : string)
    (quantity : Z) (number : string) (now : Z) (s : Db)
  : (exn + ReturnResult.t) * Db :=
  atomically (process_return_body employee_id customer_phone item_id quantity
                number now) s.

Definition get_transaction (transaction_number : string) (s : Db)
  : option Transaction.t :=
  find (fun r => String.eqb (Transaction.transaction_number r) transaction_number)
    (transactions s).

(** The dict [get_daily_sales] returns; a [date] is its number of days
    on the scale of the clock. *)
Record daily_sales : Type := mkDailySales {
  date : Z;
  transaction_count : nat;
  total_sales : Q;
  total_rentals : Q;
  total_returns : Q;
  grand_total : Q
}.

(** [sum(t.total for t in transactions if kind(t))]. *)
Definition sum_totals (kind : Transaction.t -> bool) (ts : list Transaction.t) : Q :=
  fold_left (fun acc t => (acc + Transaction.total t)%Q) (filter kind ts) 0%Q.

(** [get_daily_sales(date)]: [date = None] stands for [utcnow().date()];
    the day runs from [time.min] to [time.max], its last microsecond. *)
Definition get_daily_sales (date : option Z) (now : Z) (s : Db) : daily_sales :=
  let d := match date with
           | None => now / day
           | Some d => d
           end in
  let start := d * day in
  let end_ := d * day + (day - 1) in
  let ts := filter (fun t => (Transaction.created_at t >=? start)
                             && (Transaction.created_at t <=? end_))
              (transactions s) in
  let sales := sum_totals Transaction.is_sale ts in
  let rentals := sum_totals Transaction.is_rental ts in
  let returns := sum_totals Transaction.is_return ts in
  mkDailySales d (List.length ts) sales rentals returns (sales + rentals + returns)%Q.

End TransactionService.

(** ** Vocabulary of the properties *)

(** Primary keys are unique in the items table. *)
Definition items_pk_unique (s : Db) : Prop := NoDup (map Item.id (items s)).

(** Every line item belongs to a stored transaction (foreign key). *)
Definition lines_owned (s : Db) : Prop :=
  forall ti, In ti (transaction_items s) ->
    In (TransactionItem.transaction_id ti) (map Transaction.id (transactions s)).

(** No item has a negative quantity. *)
Definition stock_nonneg (s : Db) : Prop :=
  Forall (fun r => 0 <= Item.quantity r) (items s).

(** A cart line that cannot be served from the database [s]: its item is
    missing, or it asks for more than the item's stock. *)
Definition unserviceable (s : Db) (l : CartLine.t) : Prop :=
  match InventoryService.get_item_by_id s (CartLine.item_id l) with
  | None => True
  | Some it => Item.quantity it < CartLine.quantity l
  end.

(** The primary key of the item a cart line names. *)
Definition resolve (s : Db) (l : CartLine.t) : option Z :=
  option_map Item.id (InventoryService.get_item_by_id s (CartLine.item_id l)).

(** The price of the item a cart line names. *)
Definition price_of (s : Db) (l : CartLine.t) : Q :=
  match InventoryService.get_item_by_id s (CartLine.item_id l) with
  | Some it => Item.price it
  | None => 0
  end.

(** The units of the item with primary key [pk] that a cart asks for. *)
Fixpoint units_of (s : Db) (cart : list CartLine.t) (pk : Z) : Z :=
  match cart with
  | [] => 0
  | l :: rest =>
      (match resolve s l with
       | Some k => if k =? pk then CartLine.quantity l else 0
       | None => 0
       end) + units_of s rest pk
  end.

(** The sum of [quantity * price] over a cart, prices read in [s]. *)
Fixpoint cart_total (s : Db) (cart : list CartLine.t) : Q :=
  match cart with
  | [] => 0
  | l :: rest => (inject_Z (CartLine.quantity l) * price_of s l + cart_total s rest)%Q
  end.

(** The constraints [create_coupon] enforces on the two discounts. *)
Definition creation_constraints (c : Coupon.t) : Prop :=
  (0 <= Coupon.discount_percent c /\ Coupon.discount_percent c <= 100 /\
   0 <= Coupon.discount_amount c /\
   ((0 < Coupon.discount_percent c /\ Coupon.discount_amount c == 0) \/
    (Coupon.discount_percent c == 0 /\ 0 < Coupon.discount_amount c)))%Q.

(** The relation between a cart line and the line item stored for it. *)
Definition snapshot (s : Db) (tid : Z) (l : CartLine.t) (ti : TransactionItem.t) : Prop :=
  TransactionItem.transaction_id ti = tid /\
  resolve s l = Some (TransactionItem.item_id ti) /\
  TransactionItem.quantity ti = CartLine.quantity l /\
  TransactionItem.unit_price ti = price_of s l.

(** The rental a return leaves behind, and the item it restocks. *)
Definition returned_rental (r : Rental.t) (now : Z) (fee : Q) : Rental.t :=
  Rental.set_return r true (Some now)
    (Rental.calculate_late_fee
       (Rental.set_return r true (Some now) (Rental.late_fee r)) now fee).

Definition restocked_item (it : Item.t) (r : Rental.t) : Item.t :=
  Item.set_quantity it (Item.quantity it + Rental.quantity r).

(** One operation of the system on the database: a ledger call on a
    stored item, a sale, a rental, or a return (through the engine or
    through the rental service), with any arguments and any outcome. *)
Inductive operation (s s' : Db) : Prop :=
| op_add_stock item amount r :
    In item (items s) ->
    InventoryService.add_stock item amount s = (r, s') -> operation s s'
| op_remove_stock item amount r :
    In item (items s) ->
    InventoryService.remove_stock item amount s = (r, s') -> operation s s'
| op_create_sale employee_id cart payment_method amount_tendered coupon_code
    customer_phone number now r :
    TransactionService.create_sale employee_id cart payment_method
      amount_tendered coupon_code customer_phone number now s = (r, s') ->
    operation s s'
| op_create_rental employee_id customer_phone cart rental_days payment_method
    amount_tendered number now r :
    TransactionService.create_rental employee_id customer_phone cart rental_days
      payment_method amount_tendered number now s = (r, s') ->
    operation s s'
| op_engine_return employee_id customer_phone item_id quantity number now r :
    TransactionService.process_return employee_id customer_phone item_id quantity
      number now s = (r, s') ->
    operation s s'
| op_rental_return rental fee now r :
    In rental (rentals s) ->
    RentalService.process_return rental fee now s = (r, s') -> operation s s'.

(** Any number of operations, one after the other. *)
Inductive operations (s : Db) : Db -> Prop :=
| ops_none : operations s s
| ops_then s1 s2 : operations s s1 -> operation s1 s2 -> operations s s2.

(** A call of the inventory ledger. *)
Inductive ledger_call : Type :=
| AddStock (amount : Z)
| RemoveStock (amount : Z).

Definition ledger_step (c : ledger_call) (item : Item.t) (s : Db)
  : (exn + Item.t) * Db :=
  match c with
  | AddStock n => InventoryService.add_stock item n s
  | RemoveStock n => InventoryService.remove_stock item n s
  end.

(** A sequence of ledger calls on one item object; it stops at the
    first call that raises. *)
Fixpoint ledger_run (calls : list ledger_call) (item : Item.t) (s : Db)
  : (exn + Item.t) * Db :=
  match calls with
  | [] => (inr item, s)
  | c :: rest =>
      match ledger_step c item s with
      | (inr item', s') => ledger_run rest item' s'
      | (inl e, s') => (inl e, s')
      end
  end.

(** Sum of the added amounts minus sum of the removed amounts. *)
Fixpoint net_change (calls : list ledger_call) : Z :=
  match calls with
  | [] => 0
  | AddStock n :: rest => n + net_change rest
  | RemoveStock n :: rest => net_change rest - n
  end.

(** The same sequence on the model methods of one item. *)
Fixpoint item_run (calls : list ledger_call) (item : Item.t) : exn + Item.t :=
  match calls with
  | [] => inr item
  | c :: rest =>
      match (match c with
             | AddStock n => Item.add_stock item n
             | RemoveStock n => Item.remove_stock item n
             end) with
      | inr item' => item_run rest item'
      | inl e => inl e
      end
  end.

(** Writing back an item whose quantity alone changed is an update of
    the quantity column of its row. *)
Definition set_stock (pk q : Z) (r : Item.t) : Item.t :=
  if Item.id r =? pk then Item.set_quantity r q else r.

(** [n] calls of [coupon.use()]. *)
Fixpoint use_times (n : nat) (c : Coupon.t) : Coupon.t :=
  match n with
  | O => c
  | S k => Coupon.use (use_times k c)
  end.

(** A cart line that cannot be rented from the database [s]: its item is
    missing, is not a rental item, or has less stock than asked. *)
Definition unrentable (s : Db) (l : CartLine.t) : Prop :=
  match InventoryService.get_item_by_id s (CartLine.item_id l) with
  | None => True
  | Some it => Item.item_type it <> ItemType.RENTAL \/
               Item.quantity it < CartLine.quantity l
  end.

(** The relation between a cart line and the rental stored for it by a
    rental transaction [tid] of customer [cid] made at [now] for [days]
    days. *)
Definition rented (s : Db) (tid cid days now : Z) (l : CartLine.t) (r : Rental.t)
  : Prop :=
  Rental.customer_id r = cid /\
  resolve s l = Some (Rental.item_id r) /\
  Rental.transaction_id r = Some tid /\
  Rental.quantity r = CartLine.quantity l /\
  Rental.rental_price r = price_of s l /\
  Rental.rental_date r = now /\
  Rental.due_date r = now + days * day /\
  Rental.returned r = false /\
  Rental.return_date r = None /\
  Rental.late_fee r = 0%Q.

(** A list in ascending order of [key]. *)
Fixpoint ascending {A} (key : A -> Z) (l : list A) : Prop :=
  match l with
  | [] => True
  | x :: rest => (forall y, In y rest -> key x <= key y) /\ ascending key rest
  end.

(** *** Sample data *)

Module Sample.
Open Scope string_scope.

Definition T : Z := 1700000000000000.

Definition SAL001 : Item.t :=
  Item.mk 1 "SAL001" "Notebook" 9.99 50 ItemType.SALE true 10.

Definition RNT001 : Item.t :=
  Item.mk 2 "RNT001" "Projector" 15 4 ItemType.RENTAL true 10.

Definition SAVE10 : Coupon.t := Coupon.mk 1 "SAVE10" 10 0 100 None 0 true None.

Definition FLAT5 : Coupon.t := Coupon.mk 2 "FLAT5" 0 5 0 None 0 true None.

Definition alice : Customer.t := Customer.mk 1 "5551234567".

(** A rental of two projectors made at [T] for seven days. *)
Definition rental : Rental.t := Rental.init 1 1 2 15 2 7 None T.

Definition db : Db := mkDb [SAL001; RNT001] [alice] [SAVE10; FLAT5] [] [] [].

(** [db] with the two projectors out on [rental]. *)
Definition db_rented : Db :=
  mkDb [SAL001; Item.set_quantity RNT001 2] [alice] [SAVE10; FLAT5] [] [] [rental].

(** The sale of the example: five notebooks, paid in cash, no coupon. *)
Definition sale_cart : list CartLine.t := [CartLine.mk "SAL001" 5].

Definition sale_number : string := "TXN20240101120000123".

Definition sale : (exn + Transaction.t) * Db :=
  TransactionService.create_sale 7 sale_cart PaymentMethod.CASH 60 None None
    sale_number T db.

Definition sale_transaction : Transaction.t :=
  Eval vm_compute in
    match fst sale with
    | inr t => t
    | inl _ => Transaction.init 0 EmptyString EmptyString 0 None EmptyString 0
    end.

Definition db_sold : Db := Eval vm_compute in snd sale.

(** The same sale with the coupon SAVE10, ten percent off. *)
Definition coupon_sale : (exn + Transaction.t) * Db :=
  TransactionService.create_sale 7 sale_cart PaymentMethod.CASH 60
    (Some "SAVE10") None sale_number T db.

Definition coupon_sale_transaction : Transaction.t :=
  Eval vm_compute in
    match fst coupon_sale with
    | inr t => t
    | inl _ => Transaction.init 0 EmptyString EmptyString 0 None EmptyString 0
    end.

Definition db_coupon_sold : Db := Eval vm_compute in snd coupon_sale.

(** A rental of three projectors for seven days by a new customer. *)
Definition rental_cart : list CartLine.t := [CartLine.mk "RNT001" 3].

Definition rental_number : string := "TXN20240101120000888".

Definition rent : (exn + Transaction.t) * Db :=
  TransactionService.create_rental 7 (Some "5559990000") rental_cart 7
    PaymentMethod.CASH 100 rental_number T db.

Definition rent_transaction : Transaction.t :=
  Eval vm_compute in
    match fst rent with
    | inr t => t
    | inl _ => Transaction.init 0 EmptyString EmptyString 0 None EmptyString 0
    end.

Definition db_rent : Db := Eval vm_compute in snd rent.

(** The return of the example, three days late, with a quantity
    argument of 1 for a rental of two units. *)
Definition return_number : string := "TXN20240111120000456".

Definition late_return : (exn + ReturnResult.t) * Db :=
  TransactionService.process_return 7 "5551234567" "RNT001" 1 return_number
    (T + 10 * day) db_rented.

Definition return_result : ReturnResult.t :=
  Eval vm_compute in
    match fst late_return with
    | inr r => r
    | inl _ => ReturnResult.mk rental 0 None RNT001
    end.

Definition db_returned : Db := Eval vm_compute in snd late_return.

(** The same return through the rental service. *)
Definition service_return : (exn + Q) * Db :=
  RentalService.process_return rental 2 (T + 10 * day) db_rented.
End Sample.

(** * Properties *)

(** ** Comparisons on amounts *)

Lemma Qltb_true (a b : Q) : Qltb a b = true <-> (a < b)%Q.
Proof.
  unfold Qltb. rewrite negb_true_iff, <- not_true_iff_false, Qle_bool_iff.
  split; [apply Qnot_le_lt | apply Qlt_not_le].
Qed.

Lemma Qltb_false (a b : Q) : Qltb a b = false <-> (b <= a)%Q.
Proof.
  unfold Qltb. rewrite negb_false_iff. apply Qle_bool_iff.
Qed.

Lemma py_min_le_r (a b : Q) : (py_min a b <= b)%Q.
Proof.
  unfold py_min. destruct (Qltb b a) eqn:E.
  - apply Qle_refl.
  - now apply Qltb_false in E.
Qed.

Lemma py_min_spec (a b : Q) : (py_min a b == Qmin a b)%Q.
Proof.
  unfold py_min. destruct (Qltb b a) eqn:E.
  - apply Qltb_true in E. symmetry. apply Q.min_r. now apply Qlt_le_weak.
  - apply Qltb_false in E. symmetry. now apply Q.min_l.
Qed.

Lemma percent_of_le (amount p : Q) :
  (0 <= amount -> 0 <= p -> p <= 100 -> amount * (p / 100) <= amount)%Q.
Proof.
  intros Ha Hp Hp'.
  assert (E : (amount * (p / 100) == amount - amount * (100 - p) * (1 # 100))%Q)
    by (field; discriminate).
  rewrite E.
  assert (0 <= amount * (100 - p))%Q by (apply Qmult_le_0_compat; lra).
  lra.
Qed.

(** ** Coupons *)

Lemma check_discounts_sound (p d : Q) :
  CouponService.check_discounts p d = None ->
  (0 <= p /\ p <= 100 /\ 0 <= d /\ ((0 < p /\ d == 0) \/ (p == 0 /\ 0 < d)))%Q.
Proof.
  unfold CouponService.check_discounts, Qgtb.
  destruct (Qeq_bool p 0 && Qeq_bool d 0) eqn:E0; [discriminate|].
  destruct (Qltb 0 p && Qltb 0 d) eqn:E1; [discriminate|].
  destruct (Qltb p 0 || Qltb 100 p) eqn:E2; [discriminate|].
  destruct (Qltb d 0) eqn:E3; [discriminate|]. intros _.
  apply orb_false_iff in E2 as [E2 E2'].
  apply Qltb_false in E2, E2', E3.
  repeat split; try assumption.
  apply andb_false_iff in E0, E1.
  destruct (Qltb 0 p) eqn:Hp.
  - left. apply Qltb_true in Hp. split; [assumption|].
    destruct E1 as [E1|E1]; [discriminate|]. apply Qltb_false in E1. lra.
  - right. apply Qltb_false in Hp.
    assert (Hp0 : (p == 0)%Q) by lra. split; [assumption|].
    destruct E0 as [E0|E0].
    + apply Qeq_bool_iff in Hp0. congruence.
    + destruct (Qlt_le_dec 0 d) as [|Hd]; [assumption|].
      assert (Hd0 : (d == 0)%Q) by lra.
      apply Qeq_bool_iff in Hd0. congruence.
Qed.

(** A coupon that [create_coupon] returns satisfies the constraints. *)
Lemma create_coupon_constraints code p d max_uses expires_at minimum s c s' :
  CouponService.create_coupon code p d max_uses expires_at minimum s = (inr c, s') ->
  creation_constraints c.
Proof.
  unfold CouponService.create_coupon.
  destruct (CouponService.check_discounts p d) eqn:E; [discriminate|].
  destruct (CouponService.get_coupon_by_code s code); [discriminate|].
  intros H. inversion H; subst. unfold creation_constraints. simpl.
  now apply check_discounts_sound.
Qed.

(** C7. For a coupon within the creation-time constraints (percentage in
    [0,100], fixed amount non-negative, exactly one of the two positive)
    and a purchase amount that is not negative, [calculate_discount]
    never exceeds the amount, and it is zero when the coupon is not
    valid or the amount is below the minimum purchase. *)
Theorem calculate_discount_bounded (c : Coupon.t) (amount : Q) (now : Z) :
  creation_constraints c ->
  (0 <= amount)%Q ->
  (Coupon.calculate_discount c amount now <= amount)%Q /\
  (Coupon.is_valid c now = false \/ (amount < Coupon.minimum_purchase c)%Q ->
   (Coupon.calculate_discount c amount now == 0)%Q).
Proof.
  intros (Hp0 & Hp100 & Hd0 & Hone) Ha.
  unfold Coupon.calculate_discount, Coupon.can_apply_to_amount, Qgeb.
  split.
  - destruct (Coupon.is_valid c now && _); simpl; [|assumption].
    unfold Qgtb.
    destruct (Qltb 0 (Coupon.discount_percent c)).
    + now apply percent_of_le.
    + destruct (Qltb 0 (Coupon.discount_amount c)); [apply py_min_le_r | assumption].
  - intros [Hv | Hm].
    + rewrite Hv. simpl. reflexivity.
    + apply Qlt_not_le in Hm. rewrite <- Qle_bool_iff in Hm.
      apply not_true_is_false in Hm. rewrite Hm, andb_false_r. simpl. reflexivity.
Qed.

Lemma calculate_discount_bounded_witness :
  (Coupon.calculate_discount Sample.FLAT5 3 Sample.T <= 3)%Q /\
  (Coupon.is_valid Sample.FLAT5 Sample.T = false \/
   (3 < Coupon.minimum_purchase Sample.FLAT5)%Q ->
   (Coupon.calculate_discount Sample.FLAT5 3 Sample.T == 0)%Q).
Proof.
  apply (calculate_discount_bounded Sample.FLAT5 3 Sample.T).
  - unfold creation_constraints; simpl.
    repeat split; try (intro H; discriminate H).
    right. split; reflexivity.
  - intro H; discriminate H.
Defined.

(** ** Returning a rental *)

(** [process_return] marks the rental returned before it asks for the
    days overdue, and a returned rental is never overdue. *)
Lemma days_overdue_returned (r : Rental.t) (now : Z) :
  Rental.returned r = true -> Rental.days_overdue r now = 0.
Proof.
  intros H. unfold Rental.days_overdue, Rental.is_overdue. now rewrite H.
Qed.

Lemma process_return_inv (r : Rental.t) (item : option Item.t) (now : Z) (fee : Q)
    r' item' lf :
  Rental.process_return r item now fee = inr (r', item', lf) ->
  r' = Rental.set_return r true (Some now)
         (inject_Z 0 * fee * inject_Z (Rental.quantity r))%Q /\
  lf = Rental.late_fee r' /\
  item' = option_map
            (fun it => Item.set_quantity it (Item.quantity it + Rental.quantity r)) item /\
  (item <> None -> 0 <= Rental.quantity r).
Proof.
  unfold Rental.process_return, Rental.calculate_late_fee. simpl.
  rewrite days_overdue_returned by reflexivity.
  destruct item as [it|]; simpl.
  - unfold Item.add_stock. destruct (Rental.quantity r <? 0) eqn:E; [discriminate|].
    apply Z.ltb_ge in E. intros H. inversion H; subst. simpl. auto.
  - intros H. inversion H; subst. simpl. repeat split; try reflexivity.
    intros C. now contradiction C.
Qed.

(** Whatever the dates, the fee that [process_return] stores and returns
    is zero. *)
Lemma process_return_fee_zero (r : Rental.t) (item : option Item.t) (now : Z)
    (fee : Q) r' item' lf :
  Rental.process_return r item now fee = inr (r', item', lf) ->
  (lf == 0)%Q /\ (Rental.late_fee r' == 0)%Q.
Proof.
  intros H. apply process_return_inv in H as (-> & -> & _). simpl.
  split; ring.
Qed.

(** C5. The rental of the example: two units due at [T + 7d], returned
    at [T + 10d] with a fee of 2.00 per day. It is three days
    overdue before the call, so the fee of the claim is
    [3 * 2.00 * 2 = 12.00]; the call marks it returned, dates the return
    and restocks the two units, but stores and returns a fee of zero. *)
Theorem process_return_overdue_fee :
  let now := Sample.T + 10 * day in
  let item := Item.set_quantity Sample.RNT001 2 in
  Rental.due_date Sample.rental = Sample.T + 7 * day /\
  Z.max 0 (delta_days now (Rental.due_date Sample.rental)) = 3 /\
  (Rental.calculate_late_fee Sample.rental now 2 == 12)%Q /\
  exists r' item' fee,
    Rental.process_return Sample.rental (Some item) now 2
      = inr (r', Some item', fee) /\
    fee = Rental.late_fee r' /\
    Rental.returned r' = true /\
    Rental.return_date r' = Some now /\
    Item.quantity item' = Item.quantity item + Rental.quantity Sample.rental /\
    (Rental.late_fee r' == 0)%Q /\
    ~ (Rental.late_fee r' == 12)%Q.
Proof.
  cbv zeta. split; [reflexivity|]. split; [reflexivity|]. split; [reflexivity|].
  eexists. eexists. eexists. split; [vm_compute; reflexivity|].
  simpl. repeat split; try reflexivity. intro H; discriminate H.
Qed.

(** ** Reasoning about steps *)

Lemma bind_inr {A B} (m : M A) (k : A -> M B) s b s' :
  bind m k s = inr (b, s') ->
  exists a s1, m s = inr (a, s1) /\ k a s1 = inr (b, s').
Proof.
  unfold bind. destruct (m s) as [e | [a s1]]; [discriminate|]. eauto.
Qed.

Lemma bind_inl {A B} (m : M A) (k : A -> M B) s e :
  m s = inl e -> bind m k s = inl e.
Proof. unfold bind. now intros ->. Qed.

Lemma gets_inr {A} (f : Db -> A) s a s' :
  gets f s = inr (a, s') -> a = f s /\ s' = s.
Proof. unfold gets. intros H. inversion H. auto. Qed.

Lemma modify_inr (f : Db -> Db) s u s' :
  modify f s = inr (u, s') -> s' = f s.
Proof. unfold modify. intros H. now inversion H. Qed.

Lemma ret_inr {A} (a : A) s b s' : ret a s = inr (b, s') -> b = a /\ s' = s.
Proof. unfold ret. intros H. inversion H. auto. Qed.

(** Splits a successful run of [x <- m ;; k] into its two halves. *)
Ltac split_bind H :=
  let a := fresh "a" in
  let s1 := fresh "s" in
  let H1 := fresh "Hstep" in
  apply bind_inr in H as (a & s1 & H1 & H).

Lemma atomically_inr {A} (body : M A) s a s' :
  atomically body s = (inr a, s') -> body s = inr (a, s').
Proof.
  unfold atomically. destruct (body s) as [e | [a' s1]]; intros H; inversion H.
  reflexivity.
Qed.

Lemma atomically_inl {A} (body : M A) s e s' :
  atomically body s = (inl e, s') ->
  s' = s /\ exists e0, body s = inl e0 /\ e = TransactionError (str e0).
Proof.
  unfold atomically. destruct (body s) as [e0 | [a' s1]]; intros H; inversion H.
  eauto.
Qed.

(** ** Tables *)

Lemma pk_inj {A} (pk : A -> Z) (l : list A) (a b : A) :
  NoDup (map pk l) -> In a l -> In b l -> pk a = pk b -> a = b.
Proof.
  induction l as [|x l IH]; simpl; [contradiction|].
  intros Hnd Ha Hb E. inversion Hnd as [|? ? Hx Hl]; subst.
  destruct Ha as [-> | Ha], Hb as [-> | Hb]; auto.
  - exfalso. apply Hx. rewrite E. now apply in_map.
  - exfalso. apply Hx. rewrite <- E. now apply in_map.
Qed.

Lemma find_map_stable {A} (p : A -> bool) (f : A -> A) (l : list A) :
  (forall r, p (f r) = p r) ->
  find p (map f l) = option_map f (find p l).
Proof.
  intros Hp. induction l as [|x l IH]; simpl; [reflexivity|].
  rewrite Hp. destruct (p x); [reflexivity | exact IH].
Qed.

Lemma replace_row_pk {A} (pk : A -> Z) (row : A) (l : list A) :
  map pk (replace_row pk row l) = map pk l.
Proof.
  unfold replace_row. rewrite map_map. apply map_ext. intros r.
  destruct (pk r =? pk row) eqn:E; [|reflexivity].
  apply Z.eqb_eq in E. now symmetry.
Qed.

Lemma replace_row_in {A} (pk : A -> Z) (row : A) (l : list A) :
  In (pk row) (map pk l) -> In row (replace_row pk row l).
Proof.
  unfold replace_row. intros H. apply in_map_iff in H as (r & E & Hr).
  apply in_map_iff. exists r. split; [|assumption].
  now rewrite E, Z.eqb_refl.
Qed.

Lemma next_id_fresh (ids : list Z) : ~ In (next_id ids) ids.
Proof.
  assert (H : forall x, In x ids -> x <= fold_right Z.max 0 ids).
  { induction ids as [|y ids IH]; simpl; [contradiction|].
    intros x [-> | Hx]; [lia|]. specialize (IH x Hx). lia. }
  unfold next_id. intros Hin. apply H in Hin. lia.
Qed.

Lemma replace_row_set_stock (item : Item.t) (q : Z) (l : list Item.t) :
  NoDup (map Item.id l) -> In item l ->
  replace_row Item.id (Item.set_quantity item q) l
  = map (set_stock (Item.id item) q) l.
Proof.
  intros Hnd Hin. unfold replace_row, set_stock. apply map_ext_in.
  intros r Hr. simpl. destruct (Item.id r =? Item.id item) eqn:E; [|reflexivity].
  apply Z.eqb_eq in E. now rewrite (pk_inj Item.id l r item Hnd Hr Hin E).
Qed.

Lemma set_stock_id pk q r : Item.id (set_stock pk q r) = Item.id r.
Proof. unfold set_stock. now destruct (Item.id r =? pk). Qed.

Lemma set_stock_item_id pk q r : Item.item_id (set_stock pk q r) = Item.item_id r.
Proof. unfold set_stock. now destruct (Item.id r =? pk). Qed.

Lemma set_stock_price pk q r : Item.price (set_stock pk q r) = Item.price r.
Proof. unfold set_stock. now destruct (Item.id r =? pk). Qed.

Lemma set_quantity_same (r : Item.t) : Item.set_quantity r (Item.quantity r) = r.
Proof. now destruct r. Qed.

(** ** The loop over the cart of a sale *)

(** What a successful pass over one cart line did. *)
Lemma sale_line_inv tid l s u s' :
  TransactionService.sale_line tid l s = inr (u, s') ->
  exists item,
    InventoryService.get_item_by_id s (CartLine.item_id l) = Some item /\
    0 <= CartLine.quantity l <= Item.quantity item /\
    s' = mkDb
           (replace_row Item.id
              (Item.set_quantity item (Item.quantity item - CartLine.quantity l))
              (items s))
           (customers s) (coupons s) (transactions s)
           (transaction_items s ++
              [TransactionItem.mk
                 (next_id (map TransactionItem.id (transaction_items s)))
                 tid (Item.id item) (CartLine.quantity l) (Item.price item)])
           (rentals s).
Proof.
  unfold TransactionService.sale_line. intros H.
  split_bind H. apply gets_inr in Hstep as [-> ->].
  destruct (InventoryService.get_item_by_id s (CartLine.item_id l)) as [item|];
    [|discriminate].
  destruct (Item.quantity item <? CartLine.quantity l) eqn:E; [discriminate|].
  apply Z.ltb_ge in E.
  split_bind H. unfold add_transaction_item in Hstep. inversion Hstep; subst; clear Hstep.
  split_bind H. unfold Item.remove_stock in Hstep.
  destruct (CartLine.quantity l <? 0) eqn:E0; [discriminate|].
  apply Z.ltb_ge in E0.
  destruct (CartLine.quantity l >? Item.quantity item) eqn:E1; [discriminate|].
  unfold lift, ret in Hstep. inversion Hstep; subst; clear Hstep.
  apply modify_inr in H. subst s'.
  exists item. repeat split; try lia.
Qed.

Section StockUpdate.
(** Two databases whose items differ by the quantity of one row. *)
Variables (s s1 : Db) (pk q : Z).
Hypothesis Hitems : items s1 = map (set_stock pk q) (items s).

Lemma get_item_stable k :
  InventoryService.get_item_by_id s1 k
  = option_map (set_stock pk q) (InventoryService.get_item_by_id s k).
Proof.
  unfold InventoryService.get_item_by_id. rewrite Hitems.
  apply find_map_stable. intros r. now rewrite set_stock_item_id.
Qed.

Lemma resolve_stable l : resolve s1 l = resolve s l.
Proof.
  unfold resolve. rewrite get_item_stable.
  destruct (InventoryService.get_item_by_id s (CartLine.item_id l)); simpl;
    [now rewrite set_stock_id | reflexivity].
Qed.

Lemma price_of_stable l : price_of s1 l = price_of s l.
Proof.
  unfold price_of. rewrite get_item_stable.
  destruct (InventoryService.get_item_by_id s (CartLine.item_id l)); simpl;
    [now rewrite set_stock_price | reflexivity].
Qed.

Lemma units_of_stable cart k : units_of s1 cart k = units_of s cart k.
Proof.
  induction cart as [|l cart IH]; simpl; [reflexivity|].
  now rewrite resolve_stable, IH.
Qed.

Lemma pk_unique_stable : items_pk_unique s -> items_pk_unique s1.
Proof.
  unfold items_pk_unique. rewrite Hitems, map_map.
  rewrite (map_ext (fun r => Item.id (set_stock pk q r)) Item.id); [trivial|].
  intros r. apply set_stock_id.
Qed.
End StockUpdate.

(** One line of a sale, as an update of the stock column. *)
Lemma sale_line_items tid l s u s' :
  items_pk_unique s ->
  TransactionService.sale_line tid l s = inr (u, s') ->
  exists item,
    InventoryService.get_item_by_id s (CartLine.item_id l) = Some item /\
    In item (items s) /\
    0 <= CartLine.quantity l <= Item.quantity item /\
    items s' = map (set_stock (Item.id item)
                      (Item.quantity item - CartLine.quantity l)) (items s).
Proof.
  intros Hnd H. apply sale_line_inv in H as (item & Hget & Hq & ->).
  exists item. pose proof Hget as Hin. apply find_some in Hin as [Hin _].
  repeat split; try assumption; try lia. simpl.
  now apply replace_row_set_stock.
Qed.

Lemma unserviceable_mono s s1 item q l :
  items_pk_unique s -> In item (items s) -> q <= Item.quantity item ->
  items s1 = map (set_stock (Item.id item) q) (items s) ->
  unserviceable s l -> unserviceable s1 l.
Proof.
  intros Hnd Hin Hq Hitems. unfold unserviceable.
  rewrite (get_item_stable s s1 _ _ Hitems).
  destruct (InventoryService.get_item_by_id s (CartLine.item_id l)) as [r|] eqn:E;
    simpl; [|trivial].
  apply find_some in E as [Hr _]. unfold set_stock.
  destruct (Item.id r =? Item.id item) eqn:Eid; [|trivial].
  apply Z.eqb_eq in Eid. rewrite (pk_inj Item.id _ r item Hnd Hr Hin Eid).
  simpl. lia.
Qed.

(** A cart that the loop of [create_sale] went through was serviceable
    from the database the loop started on. *)
Lemma sale_loop_serviceable tid cart : forall s u s',
  items_pk_unique s ->
  for_each (TransactionService.sale_line tid) cart s = inr (u, s') ->
  Forall (fun l => ~ unserviceable s l) cart.
Proof.
  induction cart as [|l cart IH]; intros s u s' Hnd H; [constructor|].
  simpl in H. split_bind H.
  destruct (sale_line_items _ _ _ _ _ Hnd Hstep) as (item & Hget & Hin & Hq & Hitems).
  constructor.
  - unfold unserviceable. rewrite Hget. lia.
  - pose proof (pk_unique_stable _ _ _ _ Hitems Hnd) as Hnd1.
    specialize (IH _ _ _ Hnd1 H).
    eapply Forall_impl; [|exact IH]. intros l' Hl' Hbad. apply Hl'.
    eapply (unserviceable_mono s _ item _ l' Hnd Hin); [|exact Hitems|exact Hbad].
    lia.
Qed.

(** ** The steps around the loop *)

Lemma add_customer_inv phone s c s' :
  add_customer phone s = inr (c, s') ->
  c = Customer.mk (next_id (map Customer.id (customers s))) phone /\
  s' = mkDb (items s) (customers s ++ [c]) (coupons s) (transactions s)
            (transaction_items s) (rentals s).
Proof. unfold add_customer. intros H. inversion H; subst. auto. Qed.

Lemma sale_customer_frame phone s c s' :
  TransactionService.sale_customer phone s = inr (c, s') ->
  items s' = items s /\ coupons s' = coupons s /\
  transactions s' = transactions s /\
  transaction_items s' = transaction_items s /\ rentals s' = rentals s.
Proof.
  unfold TransactionService.sale_customer.
  destruct (truthy_str phone); [|intros H; apply ret_inr in H as [_ ->]; auto].
  destruct phone as [p|]; [|intros H; apply ret_inr in H as [_ ->]; auto].
  intros H. split_bind H. apply gets_inr in Hstep as [-> ->].
  destruct (Customer_by_phone s p).
  - apply ret_inr in H as [_ ->]. auto.
  - split_bind H. apply add_customer_inv in Hstep as [_ ->].
    apply ret_inr in H as [_ ->]. simpl. auto.
Qed.

Lemma add_transaction_inv number type employee_id customer_id payment_method now
    s t s' :
  add_transaction number type employee_id customer_id payment_method now s
    = inr (t, s') ->
  t = Transaction.init (next_id (map Transaction.id (transactions s)))
        number type employee_id customer_id payment_method now /\
  s' = mkDb (items s) (customers s) (coupons s) (transactions s ++ [t])
            (transaction_items s) (rentals s).
Proof.
  unfold add_transaction.
  destruct (existsb _ _); [discriminate|]. intros H. inversion H; subst. auto.
Qed.

Lemma unserviceable_items s s1 l :
  items s1 = items s -> unserviceable s1 l -> unserviceable s l.
Proof.
  unfold unserviceable, InventoryService.get_item_by_id. now intros ->.
Qed.

(** C1. When some line of the cart names a missing item or asks for more
    than the stock of its item, [create_sale] raises a
    [TransactionError] and the database after the call is the database
    before it: the quantity of every item, the transactions, the line
    items and the coupons (with their usage counters) are unchanged. *)
Theorem create_sale_unserviceable_rolls_back
    (employee_id : Z) (cart : list CartLine.t) (payment_method : string)
    (amount_tendered : Q) (coupon_code customer_phone : option string)
    (number : string) (now : Z) (s : Db) :
  items_pk_unique s ->
  Exists (unserviceable s) cart ->
  exists m s',
    TransactionService.create_sale employee_id cart payment_method
      amount_tendered coupon_code customer_phone number now s
    = (inl (TransactionError m), s') /\
    s' = s /\
    map Item.quantity (items s') = map Item.quantity (items s) /\
    transactions s' = transactions s /\
    transaction_items s' = transaction_items s /\
    map Coupon.times_used (coupons s') = map Coupon.times_used (coupons s).
Proof.
  intros Hnd Hbad.
  unfold TransactionService.create_sale, atomically.
  destruct (TransactionService.create_sale_body _ _ _ _ _ _ _ _ s)
    as [e | [t s']] eqn:Hbody.
  - exists (str e), s. repeat split; reflexivity.
  - exfalso. unfold TransactionService.create_sale_body in Hbody.
    split_bind Hbody. apply sale_customer_frame in Hstep as (Hi & _).
    split_bind Hbody. apply add_transaction_inv in Hstep as [_ ->].
    split_bind Hbody.
    apply sale_loop_serviceable in Hstep;
      [|unfold items_pk_unique; simpl; rewrite Hi; exact Hnd].
    apply Exists_exists in Hbad as (l & Hl & Hbad).
    rewrite Forall_forall in Hstep. apply (Hstep l Hl).
    unfold unserviceable, InventoryService.get_item_by_id in *. simpl.
    now rewrite Hi.
Qed.

Lemma create_sale_unserviceable_rolls_back_witness :
  exists m s',
    TransactionService.create_sale 7
      [CartLine.mk "SAL001" 5; CartLine.mk "SAL001" 51] PaymentMethod.CASH 100
      (Some "FLAT5"%string) None "TXN20240101120000123" Sample.T Sample.db
    = (inl (TransactionError m), s') /\
    s' = Sample.db /\
    map Item.quantity (items s') = map Item.quantity (items Sample.db) /\
    transactions s' = transactions Sample.db /\
    transaction_items s' = transaction_items Sample.db /\
    map Coupon.times_used (coupons s') = map Coupon.times_used (coupons Sample.db).
Proof.
  apply (create_sale_unserviceable_rolls_back 7
           [CartLine.mk "SAL001" 5; CartLine.mk "SAL001" 51] PaymentMethod.CASH 100
           (Some "FLAT5"%string) None "TXN20240101120000123" Sample.T Sample.db).
  - unfold items_pk_unique. simpl.
    repeat constructor; simpl; intuition discriminate.
  - apply Exists_cons_tl, Exists_cons_hd. unfold unserviceable. simpl. lia.
Defined.

(** ** What a sale stores *)

Lemma snapshot_stable s s1 pk q tid l ti :
  items s1 = map (set_stock pk q) (items s) ->
  snapshot s1 tid l ti -> snapshot s tid l ti.
Proof.
  intros Hitems. unfold snapshot.
  now rewrite (resolve_stable s s1 pk q Hitems), (price_of_stable s s1 pk q Hitems).
Qed.

(** The loop of [create_sale] over a cart: the stock of every item goes
    down by the units the cart asks of it, one line item is stored per
    cart line, in order, and nothing else changes. *)
Lemma sale_loop_inv tid cart : forall s u s',
  items_pk_unique s ->
  for_each (TransactionService.sale_line tid) cart s = inr (u, s') ->
  items s' = map (fun r => Item.set_quantity r
                    (Item.quantity r - units_of s cart (Item.id r))) (items s) /\
  customers s' = customers s /\ coupons s' = coupons s /\
  transactions s' = transactions s /\ rentals s' = rentals s /\
  exists new,
    transaction_items s' = transaction_items s ++ new /\
    Forall2 (snapshot s tid) cart new.
Proof.
  induction cart as [|l cart IH]; intros s u s' Hnd H.
  - apply ret_inr in H as [_ ->]. repeat split; try reflexivity.
    + rewrite <- (map_id (items s)) at 1. apply map_ext. intros r. simpl.
      now rewrite Z.sub_0_r, set_quantity_same.
    + exists []. rewrite app_nil_r. split; [reflexivity | constructor].
  - simpl in H. split_bind H.
    destruct (sale_line_items _ _ _ _ _ Hnd Hstep) as (item & Hget & Hin & Hq & Hitems).
    pose proof (pk_unique_stable _ _ _ _ Hitems Hnd) as Hnd1.
    destruct (IH _ _ _ Hnd1 H) as (Hi & Hc & Hk & Ht & Hr & new & Hnew & Hsnap).
    apply sale_line_inv in Hstep as (item' & Hget' & _ & Hs0).
    rewrite Hget in Hget'. inversion Hget'; subst item'; clear Hget'.
    assert (Hres : resolve s l = Some (Item.id item))
      by (unfold resolve; now rewrite Hget).
    assert (Hprice : price_of s l = Item.price item)
      by (unfold price_of; now rewrite Hget).
    rewrite Hs0 in Hc, Hk, Ht, Hr, Hnew. simpl in Hc, Hk, Ht, Hr, Hnew.
    repeat split; try assumption.
    + rewrite Hi, Hitems, map_map. apply map_ext_in. intros r Hr'.
      rewrite set_stock_id, (units_of_stable s _ _ _ Hitems). simpl units_of.
      rewrite Hres. unfold set_stock.
      destruct (Item.id r =? Item.id item) eqn:E.
      * apply Z.eqb_eq in E.
        rewrite (pk_inj Item.id _ r item Hnd Hr' Hin E), Z.eqb_refl.
        unfold Item.set_quantity. simpl. f_equal; lia.
      * rewrite Z.eqb_sym, E. f_equal; lia.
    + eexists (_ :: new). split.
      * rewrite Hnew, <- app_assoc. reflexivity.
      * constructor.
        -- unfold snapshot. simpl. auto.
        -- eapply Forall2_impl; [|exact Hsnap]. intros l' ti'.
           apply (snapshot_stable _ _ _ _ _ _ _ Hitems).
Qed.

Lemma sum_lines_acc (new : list TransactionItem.t) : forall acc : Q,
  (fold_left (fun a it => a + TransactionItem.line_total it) new acc
   == acc + Transaction.sum_lines new)%Q.
Proof.
  unfold Transaction.sum_lines.
  induction new as [|ti new IH]; intros acc; simpl.
  - ring.
  - rewrite IH, (IH (0 + _)%Q). ring.
Qed.

Lemma sum_lines_cons ti new :
  (Transaction.sum_lines (ti :: new)
   == TransactionItem.line_total ti + Transaction.sum_lines new)%Q.
Proof.
  unfold Transaction.sum_lines at 1. simpl. rewrite sum_lines_acc. ring.
Qed.

Lemma sum_lines_snapshot s tid cart new :
  Forall2 (snapshot s tid) cart new ->
  (Transaction.sum_lines new == cart_total s cart)%Q.
Proof.
  induction 1 as [|l ti cart new (_ & _ & Hq & Hp) _ IH].
  - reflexivity.
  - rewrite sum_lines_cons, IH. simpl. unfold TransactionItem.line_total.
    rewrite Hq, Hp. reflexivity.
Qed.

(** The line items of a transaction that was just inserted are the ones
    added since: the stored ones belong to older transactions. *)
Lemma items_all_fresh s s' tid new :
  lines_owned s ->
  ~ In tid (map Transaction.id (transactions s)) ->
  transaction_items s' = transaction_items s ++ new ->
  Forall (fun ti => TransactionItem.transaction_id ti = tid) new ->
  Transaction_items_all s' tid = new.
Proof.
  intros Hown Hfresh Happ Hnew. unfold Transaction_items_all.
  rewrite Happ, filter_app.
  rewrite (filter_ext_in _ (fun _ => false)), filter_false.
  - simpl. rewrite (filter_ext_in _ (fun _ => true)); [apply filter_true|].
    intros ti Hti. rewrite Forall_forall in Hnew. apply Z.eqb_eq. now apply Hnew.
  - intros ti Hti. apply Z.eqb_neq. intros E. apply Hfresh. rewrite <- E.
    now apply Hown.
Qed.

(** The vocabulary of carts reads the items table only. *)
Lemma same_items s1 s :
  items s1 = items s ->
  (forall l, resolve s1 l = resolve s l) /\
  (forall l, price_of s1 l = price_of s l) /\
  (forall cart pk, units_of s1 cart pk = units_of s cart pk) /\
  (forall cart, cart_total s1 cart = cart_total s cart) /\
  (forall tid l ti, snapshot s1 tid l ti <-> snapshot s tid l ti).
Proof.
  intros E.
  assert (Hr : forall l, resolve s1 l = resolve s l)
    by (intros l; unfold resolve, InventoryService.get_item_by_id; now rewrite E).
  assert (Hp : forall l, price_of s1 l = price_of s l)
    by (intros l; unfold price_of, InventoryService.get_item_by_id; now rewrite E).
  split; [exact Hr|]. split; [exact Hp|]. split; [|split].
  - induction cart as [|l cart IH]; intros pk; cbn [units_of]; [reflexivity|].
    now rewrite Hr, IH.
  - induction cart as [|l cart IH]; cbn [cart_total]; [reflexivity|].
    now rewrite Hp, IH.
  - intros tid l ti. unfold snapshot. now rewrite Hr, Hp.
Qed.

Lemma apply_payment_fields t tendered :
  let t' := Transaction.apply_payment t tendered in
  Transaction.id t' = Transaction.id t /\
  Transaction.coupon_id t' = Transaction.coupon_id t /\
  Transaction.subtotal t' = Transaction.subtotal t /\
  Transaction.discount_amount t' = Transaction.discount_amount t /\
  Transaction.tax_amount t' = Transaction.tax_amount t /\
  Transaction.total t' = Transaction.total t.
Proof.
  unfold Transaction.apply_payment.
  destruct (String.eqb _ _); simpl; repeat split; reflexivity.
Qed.

Lemma calculate_totals_fields t lines get now rate :
  let t' := Transaction.calculate_totals t lines get now rate in
  Transaction.id t' = Transaction.id t /\
  Transaction.coupon_id t' = Transaction.coupon_id t /\
  Transaction.subtotal t' = Transaction.sum_lines lines /\
  (Transaction.tax_amount t'
   == (Transaction.subtotal t' - Transaction.discount_amount t') * rate)%Q /\
  (Transaction.total t'
   == Transaction.subtotal t' - Transaction.discount_amount t'
      + Transaction.tax_amount t')%Q.
Proof.
  unfold Transaction.calculate_totals. simpl. repeat split; reflexivity.
Qed.

Lemma settle_inv t tendered now s t' s' :
  TransactionService.settle t tendered now s = inr (t', s') ->
  t' = Transaction.apply_payment
         (Transaction.calculate_totals t
            (Transaction_items_all s (Transaction.id t)) (Coupon_query_get s)
            now Transaction.default_tax_rate) tendered /\
  s' = save_transaction t' s.
Proof.
  unfold TransactionService.settle. intros H.
  split_bind H. apply gets_inr in Hstep as [-> ->].
  split_bind H. apply modify_inr in Hstep as ->.
  apply ret_inr in H as [-> ->]. auto.
Qed.

(** The tax that [settle] stores is 8% of the discounted subtotal, and
    the object it returns is the row it wrote. *)
Lemma settle_tax t tendered now s t' s' :
  In (Transaction.id t) (map Transaction.id (transactions s)) ->
  TransactionService.settle t tendered now s = inr (t', s') ->
  In t' (transactions s') /\
  Transaction.id t' = Transaction.id t /\
  (Transaction.tax_amount t'
   == 0.08 * (Transaction.subtotal t' - Transaction.discount_amount t'))%Q /\
  (Transaction.total t'
   == Transaction.subtotal t' - Transaction.discount_amount t'
      + Transaction.tax_amount t')%Q.
Proof.
  intros Hin H. apply settle_inv in H as [Ht ->].
  set (c := Transaction.calculate_totals t _ _ _ _) in Ht.
  destruct (apply_payment_fields c tendered) as (Hid & _ & Hs & Hd & Hx & Ho).
  destruct (calculate_totals_fields t (Transaction_items_all s (Transaction.id t))
              (Coupon_query_get s) now Transaction.default_tax_rate)
    as (Hid' & _ & _ & Hx' & Ho').
  fold c in Hid', Hx', Ho'. cbv zeta in *. rewrite <- Ht in *.
  assert (Eid : Transaction.id t' = Transaction.id t) by congruence.
  repeat split.
  - simpl. apply replace_row_in. now rewrite Eid.
  - exact Eid.
  - rewrite Hx, Hs, Hd, Hx'. unfold Transaction.default_tax_rate. ring.
  - rewrite Ho, Hs, Hd, Hx. exact Ho'.
Qed.

(** C3. A sale settled without a coupon stores one line item per cart
    line, priced at the item's price when the sale started; its subtotal
    is the sum of quantity times unit price over these line items, its
    discount is zero, its tax is the subtotal times the tax rate, its
    total is subtotal plus tax, and the stock of every item goes down by
    the units sold of it. For five units of SAL001 at 9.99 with 50 in
    stock and a rate of 0.08: subtotal 49.95, tax 3.996, total 53.946
    and 45 units left. *)
Theorem create_sale_no_coupon_totals :
  (forall (employee_id : Z) (cart : list CartLine.t) (payment_method : string)
          (amount_tendered : Q) (customer_phone : option string)
          (number : string) (now : Z) (s : Db) (t : Transaction.t) (s' : Db),
      items_pk_unique s ->
      lines_owned s ->
      TransactionService.create_sale employee_id cart payment_method
        amount_tendered None customer_phone number now s = (inr t, s') ->
      In t (transactions s') /\
      Forall2 (snapshot s (Transaction.id t)) cart
        (Transaction_items_all s' (Transaction.id t)) /\
      (Transaction.subtotal t
       == Transaction.sum_lines (Transaction_items_all s' (Transaction.id t)))%Q /\
      (Transaction.subtotal t == cart_total s cart)%Q /\
      (Transaction.discount_amount t == 0)%Q /\
      (Transaction.tax_amount t
       == Transaction.subtotal t * Transaction.default_tax_rate)%Q /\
      (Transaction.total t == Transaction.subtotal t + Transaction.tax_amount t)%Q /\
      items s' = map (fun r => Item.set_quantity r
                        (Item.quantity r - units_of s cart (Item.id r))) (items s))
  /\
  (exists t s',
      Sample.sale = (inr t, s') /\
      (Transaction.default_tax_rate == 0.08)%Q /\
      (Transaction.subtotal t == 49.95)%Q /\
      (Transaction.tax_amount t == 3.996)%Q /\
      (Transaction.total t == 53.946)%Q /\
      option_map Item.quantity (InventoryService.get_item_by_id Sample.db "SAL001")
        = Some 50 /\
      option_map Item.quantity (InventoryService.get_item_by_id s' "SAL001")
        = Some 45).
Proof.
  split.
  - intros employee_id cart payment_method amount_tendered customer_phone number
           now s t s' Hnd Hown H.
    apply atomically_inr in H. unfold TransactionService.create_sale_body in H.
    split_bind H. apply sale_customer_frame in Hstep as (Hi & _ & Ht & Hti & _).
    split_bind H. apply add_transaction_inv in Hstep as [Ha ->].
    split_bind H.
    apply sale_loop_inv in Hstep; [|unfold items_pk_unique; simpl; now rewrite Hi].
    destruct Hstep as (Hi2 & _ & _ & Ht2 & _ & new & Hnew & Hsnap).
    simpl in Hi2, Ht2, Hnew.
    split_bind H. unfold TransactionService.apply_coupon in Hstep. simpl in Hstep.
    apply ret_inr in Hstep as [-> ->].
    apply settle_inv in H as [Hfin ->].
    set (tid := Transaction.id a0) in *.
    assert (Etid : tid = next_id (map Transaction.id (transactions s)))
      by (unfold tid; rewrite Ha, Ht; reflexivity).
    destruct (same_items (mkDb (items s0) (customers s0) (coupons s0)
                            (transactions s0 ++ [a0]) (transaction_items s0)
                            (rentals s0)) s Hi)
      as (_ & _ & Hu & Hct & Hsn).
    assert (Hsnap' : Forall2 (snapshot s tid) cart new).
    { eapply Forall2_impl; [|exact Hsnap]. intros l ti. apply Hsn. }
    assert (Hall : Transaction_items_all s1 tid = new).
    { apply (items_all_fresh s s1 tid new Hown).
      - rewrite Etid. apply next_id_fresh.
      - now rewrite Hnew, Hti.
      - clear - Hsnap'. induction Hsnap' as [|? ? ? ? (E & _) _ IH]; constructor; auto. }
    destruct (calculate_totals_fields a0 (Transaction_items_all s1 tid)
                (Coupon_query_get s1) now Transaction.default_tax_rate)
      as (Hid & Hcid & Hsub & Htax & Htot).
    set (c := Transaction.calculate_totals a0 _ _ _ _) in *.
    destruct (apply_payment_fields c amount_tendered) as (Pid & _ & Ps & Pd & Px & Po).
    cbv zeta in *. rewrite <- Hfin in Pid, Ps, Pd, Px, Po.
    assert (Eid : Transaction.id t = tid) by (rewrite Pid, Hid; reflexivity).
    assert (Ed : Transaction.discount_amount c = 0%Q).
    { unfold c, Transaction.calculate_totals. rewrite Ha. reflexivity. }
    assert (Hall' : Transaction_items_all (save_transaction t s1) (Transaction.id t) = new)
      by (rewrite Eid; exact Hall).
    rewrite Hall'.
    split; [|split; [|split; [|split; [|split; [|split; [|split]]]]]].
    + simpl. apply replace_row_in. rewrite Eid, Ht2, map_app. simpl.
      apply in_or_app. right. left. reflexivity.
    + rewrite Eid. exact Hsnap'.
    + rewrite Ps, Hsub, Hall. reflexivity.
    + rewrite Ps, Hsub, Hall. now apply sum_lines_snapshot with (tid := tid).
    + rewrite Pd, Ed. reflexivity.
    + rewrite Px, Ps, Htax, Ed. ring.
    + rewrite Po, Px, Ps, Htot, Ed. ring.
    + simpl. rewrite Hi2, <- Hi. apply map_ext. intros r. now rewrite Hu.
  - exists Sample.sale_transaction, Sample.db_sold.
    split; [vm_compute; reflexivity|].
    repeat split; reflexivity.
Qed.

Lemma create_sale_no_coupon_totals_witness :
  In Sample.sale_transaction (transactions Sample.db_sold) /\
  (Transaction.subtotal Sample.sale_transaction
   == cart_total Sample.db Sample.sale_cart)%Q /\
  (Transaction.tax_amount Sample.sale_transaction
   == Transaction.subtotal Sample.sale_transaction * Transaction.default_tax_rate)%Q /\
  items Sample.db_sold
  = map (fun r => Item.set_quantity r
           (Item.quantity r - units_of Sample.db Sample.sale_cart (Item.id r)))
      (items Sample.db).
Proof.
  destruct (proj1 create_sale_no_coupon_totals 7 Sample.sale_cart
              PaymentMethod.CASH 60%Q None Sample.sale_number Sample.T Sample.db
              Sample.sale_transaction Sample.db_sold)
    as (H1 & _ & _ & H2 & _ & H3 & _ & H4).
  - unfold items_pk_unique. simpl.
    repeat constructor; simpl; intuition discriminate.
  - intros ti Hti. simpl in Hti. contradiction.
  - vm_compute. reflexivity.
  - repeat split; assumption.
Defined.

(** ** Frames: what the steps leave alone *)

Lemma replace_row_nonneg (item : Item.t) (l : list Item.t) :
  0 <= Item.quantity item ->
  Forall (fun r => 0 <= Item.quantity r) l ->
  Forall (fun r => 0 <= Item.quantity r) (replace_row Item.id item l).
Proof.
  intros Hq Hl. unfold replace_row. apply Forall_map.
  eapply Forall_impl; [|exact Hl]. intros r Hr. simpl in Hr.
  now destruct (Item.id r =? Item.id item).
Qed.

Lemma sale_line_frame tid l s u s' :
  TransactionService.sale_line tid l s = inr (u, s') ->
  customers s' = customers s /\ coupons s' = coupons s /\
  transactions s' = transactions s /\ rentals s' = rentals s /\
  (stock_nonneg s -> stock_nonneg s').
Proof.
  intros H. apply sale_line_inv in H as (item & _ & Hq & ->). simpl.
  repeat split. unfold stock_nonneg. simpl. apply replace_row_nonneg. simpl. lia.
Qed.

Lemma sale_loop_frame tid cart : forall s u s',
  for_each (TransactionService.sale_line tid) cart s = inr (u, s') ->
  customers s' = customers s /\ coupons s' = coupons s /\
  transactions s' = transactions s /\ rentals s' = rentals s /\
  (stock_nonneg s -> stock_nonneg s').
Proof.
  induction cart as [|l cart IH]; intros s u s' H.
  - apply ret_inr in H as [_ ->]. auto.
  - simpl in H. split_bind H.
    apply sale_line_frame in Hstep as (E1 & E2 & E3 & E4 & E5).
    apply IH in H as (F1 & F2 & F3 & F4 & F5).
    rewrite F1, F2, F3, F4. repeat split; auto.
Qed.

Lemma rental_line_inv tid cid days now l s u s' :
  TransactionService.rental_line tid cid days now l s = inr (u, s') ->
  exists item,
    InventoryService.get_item_by_id s (CartLine.item_id l) = Some item /\
    Item.item_type item = ItemType.RENTAL /\
    0 <= CartLine.quantity l <= Item.quantity item /\
    s' = mkDb
           (replace_row Item.id
              (Item.set_quantity item (Item.quantity item - CartLine.quantity l))
              (items s))
           (customers s) (coupons s) (transactions s)
           (transaction_items s ++
              [TransactionItem.mk
                 (next_id (map TransactionItem.id (transaction_items s)))
                 tid (Item.id item) (CartLine.quantity l) (Item.price item)])
           (rentals s ++
              [Rental.init (next_id (map Rental.id (rentals s))) cid (Item.id item)
                 (Item.price item) (CartLine.quantity l) days (Some tid) now]).
Proof.
  unfold TransactionService.rental_line. intros H.
  split_bind H. apply gets_inr in Hstep as [-> ->].
  destruct (InventoryService.get_item_by_id s (CartLine.item_id l)) as [item|];
    [|discriminate].
  destruct (String.eqb (Item.item_type item) ItemType.RENTAL) eqn:Ety;
    [|discriminate]. simpl in H. apply String.eqb_eq in Ety.
  destruct (Item.quantity item <? CartLine.quantity l) eqn:E; [discriminate|].
  apply Z.ltb_ge in E.
  split_bind H. unfold add_transaction_item in Hstep. inversion Hstep; subst; clear Hstep.
  split_bind H. unfold add_rental in Hstep. inversion Hstep; subst; clear Hstep.
  split_bind H. unfold Item.remove_stock in Hstep.
  destruct (CartLine.quantity l <? 0) eqn:E0; [discriminate|].
  apply Z.ltb_ge in E0.
  destruct (CartLine.quantity l >? Item.quantity item) eqn:E1; [discriminate|].
  unfold lift, ret in Hstep. inversion Hstep; subst; clear Hstep.
  apply modify_inr in H. subst s'.
  exists item. repeat split; try assumption; try lia.
Qed.

Lemma rental_loop_frame tid cid days now cart : forall s u s',
  for_each (TransactionService.rental_line tid cid days now) cart s = inr (u, s') ->
  customers s' = customers s /\ coupons s' = coupons s /\
  transactions s' = transactions s /\
  (stock_nonneg s -> stock_nonneg s').
Proof.
  induction cart as [|l cart IH]; intros s u s' H.
  - apply ret_inr in H as [_ ->]. auto.
  - simpl in H. split_bind H.
    apply rental_line_inv in Hstep as (item & _ & _ & Hq & ->).
    apply IH in H as (F1 & F2 & F3 & F5). simpl in *.
    repeat split; try assumption.
    intros Hs. apply F5. unfold stock_nonneg. simpl.
    apply replace_row_nonneg; [simpl; lia | exact Hs].
Qed.

Lemma apply_coupon_inv t code now s t' s' :
  TransactionService.apply_coupon t code now s = inr (t', s') ->
  (t' = t /\ s' = s) \/
  (exists c c',
      code = Some c /\ c <> EmptyString /\
      CouponService.get_coupon_by_code s c = Some c' /\
      Coupon.is_valid c' now = true /\
      t' = Transaction.set_coupon_id t (Some (Coupon.id c')) /\
      s' = save_coupon (Coupon.use c') s).
Proof.
  unfold TransactionService.apply_coupon.
  destruct (truthy_str code) eqn:Etr;
    [|intros H; apply ret_inr in H as [-> ->]; auto].
  destruct code as [c|]; [|discriminate]. simpl in Etr.
  apply negb_true_iff, String.eqb_neq in Etr.
  intros H. split_bind H. apply gets_inr in Hstep as [-> ->].
  destruct (CouponService.get_coupon_by_code s c) as [c'|] eqn:Eget;
    [|apply ret_inr in H as [-> ->]; auto].
  destruct (Coupon.is_valid c' now) eqn:Ev;
    [|apply ret_inr in H as [-> ->]; auto].
  split_bind H. apply modify_inr in Hstep as ->.
  apply ret_inr in H as [-> ->]. right. exists c, c'. auto 10.
Qed.

Lemma apply_coupon_frame t code now s t' s' :
  TransactionService.apply_coupon t code now s = inr (t', s') ->
  Transaction.id t' = Transaction.id t /\
  items s' = items s /\ transactions s' = transactions s /\
  transaction_items s' = transaction_items s /\ rentals s' = rentals s.
Proof.
  intros H. apply apply_coupon_inv in H as [[-> ->] | (c & c' & _ & _ & _ & _ & -> & ->)];
    simpl; auto.
Qed.

Lemma find_replace_row_hit {A} (pk : A -> Z) (p : A -> bool) (x x' : A) (l : list A) :
  find p l = Some x -> p x' = true -> pk x' = pk x ->
  find p (replace_row pk x' l) = Some x'.
Proof.
  intros Hf Hp Hpk. induction l as [|a l IH]; simpl in *; [discriminate|].
  destruct (pk a =? pk x') eqn:E.
  - now rewrite Hp.
  - destruct (p a) eqn:Ea.
    + inversion Hf; subst. rewrite Hpk, Z.eqb_refl in E. discriminate.
    + now apply IH.
Qed.

Lemma find_pk_in {A} (pk : A -> Z) (r : A) (l : list A) :
  In r l -> exists x, find (fun a => pk a =? pk r) l = Some x /\ pk x = pk r.
Proof.
  intros Hin. destruct (find (fun a => pk a =? pk r) l) as [x|] eqn:E.
  - exists x. split; [reflexivity|]. apply find_some in E as [_ E].
    now apply Z.eqb_eq.
  - exfalso. apply (find_none _ _ E) in Hin. rewrite Z.eqb_refl in Hin. discriminate.
Qed.

(** ** Returns *)

Lemma zero_fee_not_positive (fee : Q) (q : Z) :
  Qgtb (inject_Z 0 * fee * inject_Z q) 0 = false.
Proof.
  unfold Qgtb. apply Qltb_false.
  assert (E : (inject_Z 0 * fee * inject_Z q == 0)%Q) by ring.
  rewrite E. apply Qle_refl.
Qed.

Lemma model_process_return_some r item now fee r' item' lf :
  Rental.process_return r (Some item) now fee = inr (r', item', lf) ->
  0 <= Rental.quantity r /\
  r' = returned_rental r now fee /\
  item' = Some (restocked_item item r) /\
  lf = Rental.late_fee r' /\
  Qgtb lf 0 = false.
Proof.
  unfold Rental.process_return, returned_rental, restocked_item. simpl.
  unfold Item.add_stock. destruct (Rental.quantity r <? 0) eqn:E; [discriminate|].
  apply Z.ltb_ge in E. intros H. inversion H; subst; clear H. simpl.
  split; [assumption|]. split; [reflexivity|]. split; [reflexivity|].
  split; [reflexivity|].
  unfold Rental.calculate_late_fee. rewrite days_overdue_returned by reflexivity.
  apply zero_fee_not_positive.
Qed.

(** A successful return through the engine: who was found, what was
    written. No RETURN transaction comes with it. *)
Lemma engine_return_inv employee_id phone item_id quantity number now s res s' :
  TransactionService.process_return employee_id phone item_id quantity number now s
    = (inr res, s') ->
  exists customer item rental,
    Customer_by_phone s phone = Some customer /\
    InventoryService.get_item_by_id s item_id = Some item /\
    active_rental s (Customer.id customer) (Item.id item) = Some rental /\
    0 <= Rental.quantity rental /\
    res = ReturnResult.mk
            (returned_rental rental now Rental.default_fee_per_day)
            (Rental.late_fee (returned_rental rental now Rental.default_fee_per_day))
            None (restocked_item item rental) /\
    s' = save_item (restocked_item item rental)
           (save_rental (returned_rental rental now Rental.default_fee_per_day) s).
Proof.
  intros H. apply atomically_inr in H.
  unfold TransactionService.process_return_body in H.
  split_bind H. apply gets_inr in Hstep as [-> ->].
  destruct (Customer_by_phone s phone) as [customer|] eqn:Ec; [|discriminate].
  split_bind H. apply gets_inr in Hstep as [-> ->].
  destruct (InventoryService.get_item_by_id s item_id) as [item|] eqn:Ei; [|discriminate].
  split_bind H. apply gets_inr in Hstep as [-> ->].
  destruct (active_rental s (Customer.id customer) (Item.id item)) as [rental|] eqn:Er;
    [|discriminate].
  split_bind H. destruct a as [[rental' item'] lf].
  unfold lift in Hstep.
  destruct (Rental.process_return rental (Some item) now Rental.default_fee_per_day)
    as [e | [[r1 i1] f1]] eqn:Ep; [discriminate|].
  apply ret_inr in Hstep as [Hstep ->]. inversion Hstep; subst; clear Hstep.
  apply model_process_return_some in Ep as (Hq & -> & -> & -> & Hfee).
  split_bind H. apply modify_inr in Hstep as ->.
  split_bind H. apply modify_inr in Hstep as ->.
  split_bind H. unfold TransactionService.late_fee_transaction in Hstep.
  rewrite Hfee in Hstep. apply ret_inr in Hstep as [-> ->].
  apply ret_inr in H as [-> ->].
  exists customer, item, rental. repeat split; assumption.
Qed.

Lemma restocked_item_found s s0 item_id item rental :
  InventoryService.get_item_by_id s item_id = Some item ->
  items s0 = items s ->
  InventoryService.get_item_by_id (save_item (restocked_item item rental) s0) item_id
  = Some (restocked_item item rental).
Proof.
  intros Hget Hitems. unfold InventoryService.get_item_by_id, save_item. simpl.
  rewrite Hitems. apply find_replace_row_hit with (x := item).
  - exact Hget.
  - apply find_some in Hget as [_ Hp]. exact Hp.
  - reflexivity.
Qed.

(** C10. The result of the engine's [process_return] does not depend on
    its [quantity] argument, and a successful call returns the whole of
    the customer's first active rental of the item: that rental is
    marked returned with its own quantity and the item is restocked by
    the rental's quantity. But no late fee is charged for these units:
    the fee the call reports and stores is zero and it writes no
    transaction, whatever the rental owes. The rental of the example,
    two units three days overdue at 2.00 a day, owes 12.00 by
    [calculate_late_fee] before the return; the return with a
    [quantity] of 1 takes back both units, and its fee is 0, not
    12.00. *)
Theorem process_return_ignores_quantity :
  (forall (employee_id : Z) (phone item_id number : string) (now : Z) (s : Db)
          (q1 q2 : Z),
      TransactionService.process_return employee_id phone item_id q1 number now s
      = TransactionService.process_return employee_id phone item_id q2 number now s)
  /\
  (forall (employee_id : Z) (phone item_id number : string) (now : Z) (s : Db)
          (q : Z) (res : ReturnResult.t) (s' : Db),
      TransactionService.process_return employee_id phone item_id q number now s
        = (inr res, s') ->
      exists customer item rental,
        Customer_by_phone s phone = Some customer /\
        InventoryService.get_item_by_id s item_id = Some item /\
        active_rental s (Customer.id customer) (Item.id item) = Some rental /\
        Rental.returned (ReturnResult.rental res) = true /\
        Rental.id (ReturnResult.rental res) = Rental.id rental /\
        Rental.quantity (ReturnResult.rental res) = Rental.quantity rental /\
        ReturnResult.item res = restocked_item item rental /\
        InventoryService.get_item_by_id s' item_id = Some (ReturnResult.item res) /\
        Item.quantity (ReturnResult.item res)
          = Item.quantity item + Rental.quantity rental /\
        (ReturnResult.late_fee res == 0)%Q /\
        (Rental.late_fee (ReturnResult.rental res) == 0)%Q /\
        ReturnResult.transaction res = None /\
        transactions s' = transactions s)
  /\
  (let now := Sample.T + 10 * day in
   Rental.quantity Sample.rental = 2 /\
   Rental.days_overdue Sample.rental now = 3 /\
   (Rental.calculate_late_fee Sample.rental now Rental.default_fee_per_day == 12)%Q /\
   TransactionService.process_return 7 "5551234567" "RNT001" 1 Sample.return_number
     now Sample.db_rented = (inr Sample.return_result, Sample.db_returned) /\
   Rental.quantity (ReturnResult.rental Sample.return_result) = 2 /\
   option_map Item.quantity
     (InventoryService.get_item_by_id Sample.db_rented "RNT001") = Some 2 /\
   option_map Item.quantity
     (InventoryService.get_item_by_id Sample.db_returned "RNT001") = Some 4 /\
   (ReturnResult.late_fee Sample.return_result == 0)%Q /\
   ~ (ReturnResult.late_fee Sample.return_result == 12)%Q /\
   ReturnResult.transaction Sample.return_result = None /\
   transactions Sample.db_returned = []).
Proof.
  split; [|split].
  - intros. reflexivity.
  - intros employee_id phone item_id number now s q res s' H.
    apply engine_return_inv in H
      as (customer & item & rental & Hc & Hi & Hr & Hq & -> & ->).
    assert (Hfee : (Rental.late_fee
                      (returned_rental rental now Rental.default_fee_per_day) == 0)%Q).
    { unfold returned_rental, Rental.calculate_late_fee, Rental.days_overdue. simpl.
      ring. }
    exists customer, item, rental. simpl.
    split; [exact Hc|]. split; [exact Hi|]. split; [exact Hr|].
    split; [reflexivity|]. split; [reflexivity|]. split; [reflexivity|].
    split; [reflexivity|].
    split; [now apply restocked_item_found with (s := s)|].
    split; [reflexivity|]. split; [exact Hfee|]. split; [exact Hfee|].
    split; reflexivity.
  - cbv zeta.
    split; [reflexivity|]. split; [reflexivity|]. split; [reflexivity|].
    split; [vm_compute; reflexivity|].
    split; [reflexivity|]. split; [reflexivity|]. split; [reflexivity|].
    split; [reflexivity|]. split; [intro H; discriminate H|].
    split; reflexivity.
Qed.

Lemma process_return_ignores_quantity_witness :
  Sample.late_return
  = TransactionService.process_return 7 "5551234567" "RNT001" 2
      Sample.return_number (Sample.T + 10 * day) Sample.db_rented /\
  Rental.returned (ReturnResult.rental Sample.return_result) = true /\
  Rental.quantity (ReturnResult.rental Sample.return_result) = 2 /\
  option_map Item.quantity
    (InventoryService.get_item_by_id Sample.db_returned "RNT001") = Some 4 /\
  (ReturnResult.late_fee Sample.return_result == 0)%Q.
Proof.
  destruct process_return_ignores_quantity as (Hind & Hres & _).
  split; [exact (Hind 7 "5551234567"%string "RNT001"%string Sample.return_number
                   (Sample.T + 10 * day) Sample.db_rented 1 2)|].
  destruct (Hres 7 "5551234567"%string "RNT001"%string Sample.return_number
              (Sample.T + 10 * day) Sample.db_rented 1 Sample.return_result
              Sample.db_returned)
    as (customer & item & rental & Hc & Hi & Hr & Hret & _ & Hq & _ & Hget & Hstock
        & Hfee & _).
  - vm_compute. reflexivity.
  - split; [exact Hret|].
    assert (Erental : rental = Sample.rental).
    { vm_compute in Hc. injection Hc as <-. vm_compute in Hi. injection Hi as <-.
      vm_compute in Hr. now injection Hr as <-. }
    split; [rewrite Hq, Erental; reflexivity|].
    split; [rewrite Hget; reflexivity | exact Hfee].
Defined.

(** ** The pipeline of a settlement *)

Lemma create_sale_inv employee_id cart payment_method amount_tendered coupon_code
    customer_phone number now s t s' :
  TransactionService.create_sale employee_id cart payment_method amount_tendered
    coupon_code customer_phone number now s = (inr t, s') ->
  exists cid s0 t0 s2 t1 s3,
    TransactionService.sale_customer customer_phone s = inr (cid, s0) /\
    t0 = Transaction.init (next_id (map Transaction.id (transactions s0))) number
           TransactionType.SALE employee_id cid payment_method now /\
    for_each (TransactionService.sale_line (Transaction.id t0)) cart
      (mkDb (items s0) (customers s0) (coupons s0) (transactions s0 ++ [t0])
            (transaction_items s0) (rentals s0)) = inr (tt, s2) /\
    TransactionService.apply_coupon t0 coupon_code now s2 = inr (t1, s3) /\
    TransactionService.settle t1 amount_tendered now s3 = inr (t, s').
Proof.
  intros H. apply atomically_inr in H.
  unfold TransactionService.create_sale_body in H.
  split_bind H. rename a into cid, s0 into sa, Hstep into Hcust.
  split_bind H. rename a into t0, s0 into sb, Hstep into Hadd.
  apply add_transaction_inv in Hadd as [Ht0 ->].
  split_bind H. rename s0 into s2, Hstep into Hloop. destruct a.
  split_bind H. rename a into t1, s0 into s3, Hstep into Hcoupon.
  exists cid, sa, t0, s2, t1, s3. auto.
Qed.

Lemma create_rental_inv employee_id customer_phone cart rental_days payment_method
    amount_tendered number now s t s' :
  TransactionService.create_rental employee_id customer_phone cart rental_days
    payment_method amount_tendered number now s = (inr t, s') ->
  exists phone customer s0 t0 s2,
    customer_phone = Some phone /\
    TransactionService.rental_customer phone s = inr (customer, s0) /\
    t0 = Transaction.init (next_id (map Transaction.id (transactions s0))) number
           TransactionType.RENTAL employee_id (Some (Customer.id customer))
           payment_method now /\
    for_each (TransactionService.rental_line (Transaction.id t0)
                (Customer.id customer) rental_days now) cart
      (mkDb (items s0) (customers s0) (coupons s0) (transactions s0 ++ [t0])
            (transaction_items s0) (rentals s0)) = inr (tt, s2) /\
    TransactionService.settle t0 amount_tendered now s2 = inr (t, s').
Proof.
  unfold TransactionService.create_rental.
  destruct (truthy_str customer_phone); simpl; [|discriminate].
  destruct customer_phone as [phone|]; [|discriminate].
  intros H. apply atomically_inr in H.
  unfold TransactionService.create_rental_body in H.
  split_bind H. rename a into customer, s0 into sa, Hstep into Hcust.
  split_bind H. rename a into t0, s0 into sb, Hstep into Hadd.
  apply add_transaction_inv in Hadd as [Ht0 ->].
  split_bind H. rename s0 into s2, Hstep into Hloop. destruct a.
  exists phone, customer, sa, t0, s2. auto.
Qed.

Lemma rental_customer_frame phone s c s' :
  TransactionService.rental_customer phone s = inr (c, s') ->
  items s' = items s /\ coupons s' = coupons s /\
  transactions s' = transactions s /\
  transaction_items s' = transaction_items s /\ rentals s' = rentals s.
Proof.
  unfold TransactionService.rental_customer. intros H.
  split_bind H. apply gets_inr in Hstep as [-> ->].
  destruct (Customer_by_phone s phone).
  - apply ret_inr in H as [_ ->]. auto.
  - apply add_customer_inv in H as [_ ->]. simpl. auto.
Qed.

(** ** The stock invariant *)

Lemma stock_nonneg_items s s' :
  items s' = items s -> stock_nonneg s -> stock_nonneg s'.
Proof. unfold stock_nonneg. now intros ->. Qed.

Lemma stock_nonneg_in s item :
  stock_nonneg s -> In item (items s) -> 0 <= Item.quantity item.
Proof.
  unfold stock_nonneg. rewrite Forall_forall. intros H Hin. now apply H.
Qed.

Lemma save_item_nonneg item s :
  0 <= Item.quantity item -> stock_nonneg s -> stock_nonneg (save_item item s).
Proof.
  intros Hq Hs. unfold stock_nonneg, save_item. simpl.
  now apply replace_row_nonneg.
Qed.

Lemma ledger_add_stock_inv item amount s r s' :
  InventoryService.add_stock item amount s = (r, s') ->
  (exists e, r = inl e /\ s' = s) \/
  (0 < amount /\
   r = inr (Item.set_quantity item (Item.quantity item + amount)) /\
   s' = save_item (Item.set_quantity item (Item.quantity item + amount)) s).
Proof.
  unfold InventoryService.add_stock, Item.add_stock.
  destruct (amount <=? 0) eqn:E.
  - intros H. inversion H; subst. left. eauto.
  - apply Z.leb_gt in E. destruct (amount <? 0) eqn:E0; [apply Z.ltb_lt in E0; lia|].
    simpl. destruct (fits_integer (Item.quantity item + amount)).
    + intros H. inversion H; subst. right. auto.
    + intros H. inversion H; subst. left. eauto.
Qed.

Lemma ledger_remove_stock_inv item amount s r s' :
  InventoryService.remove_stock item amount s = (r, s') ->
  (exists e, r = inl e /\ s' = s) \/
  (0 < amount <= Item.quantity item /\
   r = inr (Item.set_quantity item (Item.quantity item - amount)) /\
   s' = save_item (Item.set_quantity item (Item.quantity item - amount)) s).
Proof.
  unfold InventoryService.remove_stock, Item.remove_stock.
  destruct (amount <=? 0) eqn:E.
  - intros H. inversion H; subst. left. eauto.
  - apply Z.leb_gt in E. destruct (amount >? Item.quantity item) eqn:E1.
    + intros H. inversion H; subst. left. eauto.
    + destruct (amount <? 0) eqn:E0; [apply Z.ltb_lt in E0; lia|].
      intros H. inversion H; subst. right. repeat split; lia.
Qed.

Lemma create_rental_inl employee_id customer_phone cart rental_days payment_method
    amount_tendered number now s e s' :
  TransactionService.create_rental employee_id customer_phone cart rental_days
    payment_method amount_tendered number now s = (inl e, s') -> s' = s.
Proof.
  unfold TransactionService.create_rental.
  destruct (truthy_str customer_phone); simpl; [|intros H; now inversion H].
  destruct customer_phone; [|intros H; now inversion H].
  intros H. now apply atomically_inl in H as [-> _].
Qed.

Lemma rental_return_inv rental fee now s r s' :
  RentalService.process_return rental fee now s = (r, s') ->
  (exists e, r = inl e /\ s' = s) \/
  (Rental.returned rental = false /\
   r = inr (Rental.late_fee (returned_rental rental now fee)) /\
   match Item_query_get s (Rental.item_id rental) with
   | Some item =>
       0 <= Rental.quantity rental /\
       s' = save_item (restocked_item item rental)
              (save_rental (returned_rental rental now fee) s)
   | None => s' = save_rental (returned_rental rental now fee) s
   end).
Proof.
  unfold RentalService.process_return.
  destruct (Rental.returned rental) eqn:Eret.
  - intros H. inversion H; subst. left. eauto.
  - destruct (Item_query_get s (Rental.item_id rental)) as [item|] eqn:Eitem.
    + destruct (Rental.process_return rental (Some item) now fee)
        as [e | [[r1 i1] f1]] eqn:Ep.
      * intros H. inversion H; subst. left. eauto.
      * apply model_process_return_some in Ep as (Hq & -> & -> & -> & _).
        intros H. inversion H; subst. right. auto.
    + unfold Rental.process_return. simpl.
      intros H. inversion H; subst. right. auto.
Qed.

(** Every operation keeps the quantities from going negative. *)
Lemma operation_stock_nonneg s s' :
  stock_nonneg s -> operation s s' -> stock_nonneg s'.
Proof.
  intros Hs [item amount r Hin H | item amount r Hin H
            | e cart pm tendered code phone number now r H
            | e phone cart days pm tendered number now r H
            | e phone item_id q number now r H
            | rental fee now r Hin H].
  - apply ledger_add_stock_inv in H as [(e & _ & ->) | (Ha & _ & ->)]; [assumption|].
    apply save_item_nonneg; [|assumption]. simpl.
    pose proof (stock_nonneg_in s item Hs Hin). lia.
  - apply ledger_remove_stock_inv in H as [(e & _ & ->) | (Ha & _ & ->)]; [assumption|].
    apply save_item_nonneg; [|assumption]. simpl. lia.
  - destruct r as [err | t].
    + now apply atomically_inl in H as [-> _].
    + apply create_sale_inv in H
        as (cid & s0 & t0 & s2 & t1 & s3 & Hcust & _ & Hloop & Hcoupon & Hsettle).
      apply sale_customer_frame in Hcust as (Hi0 & _).
      apply sale_loop_frame in Hloop as (_ & _ & _ & _ & Hkeep).
      apply apply_coupon_frame in Hcoupon as (_ & Hi3 & _).
      apply settle_inv in Hsettle as [_ ->].
      apply (stock_nonneg_items s3); [reflexivity|].
      apply (stock_nonneg_items s2); [assumption|].
      apply Hkeep. apply (stock_nonneg_items s); [exact Hi0 | assumption].
  - destruct r as [err | t].
    + now apply create_rental_inl in H as ->.
    + apply create_rental_inv in H
        as (p & customer & s0 & t0 & s2 & _ & Hcust & _ & Hloop & Hsettle).
      apply rental_customer_frame in Hcust as (Hi0 & _).
      apply rental_loop_frame in Hloop as (_ & _ & _ & Hkeep).
      apply settle_inv in Hsettle as [_ ->].
      apply (stock_nonneg_items s2); [reflexivity|].
      apply Hkeep. apply (stock_nonneg_items s); [exact Hi0 | assumption].
  - destruct r as [err | res].
    + now apply atomically_inl in H as [-> _].
    + apply engine_return_inv in H
        as (customer & item & rental & _ & Hi & _ & Hq & _ & ->).
      apply find_some in Hi as [Hin _].
      pose proof (stock_nonneg_in s item Hs Hin).
      apply save_item_nonneg; [simpl; lia|].
      apply (stock_nonneg_items s); [reflexivity | assumption].
  - apply rental_return_inv in H as [(e & _ & ->) | (_ & _ & H)]; [assumption|].
    destruct (Item_query_get s (Rental.item_id rental)) as [item|] eqn:Ei.
    + destruct H as [Hq ->]. apply find_some in Ei as [Hin' _].
      pose proof (stock_nonneg_in s item Hs Hin').
      apply save_item_nonneg; [simpl; lia|].
      apply (stock_nonneg_items s); [reflexivity | assumption].
    + subst s'. apply (stock_nonneg_items s); [reflexivity | assumption].
Qed.

Lemma operations_stock_nonneg s s' :
  stock_nonneg s -> operations s s' -> stock_nonneg s'.
Proof.
  intros Hs Hops. induction Hops as [|s1 s2 _ IH Hop]; [assumption|].
  now apply (operation_stock_nonneg s1).
Qed.

Lemma remove_stock_rejects item amount s :
  0 <= Item.quantity item -> Item.quantity item < amount ->
  Item.remove_stock item amount
    = inl (ValueError (InsufficientStock (Item.quantity item))) /\
  InventoryService.remove_stock item amount s
    = (inl (InventoryError (InsufficientStock (Item.quantity item))), s).
Proof.
  intros H0 Hlt. unfold InventoryService.remove_stock, Item.remove_stock.
  assert (E0 : (amount <? 0) = false) by (apply Z.ltb_ge; lia).
  assert (E1 : (amount <=? 0) = false) by (apply Z.leb_gt; lia).
  assert (E2 : (amount >? Item.quantity item) = true) by (apply Z.gtb_lt; lia).
  now rewrite E0, E1, E2.
Qed.

Lemma item_run_spec calls : forall item item',
  item_run calls item = inr item' ->
  Item.quantity item' = Item.quantity item + net_change calls /\
  (0 <= Item.quantity item -> 0 <= Item.quantity item').
Proof.
  induction calls as [|c calls IH]; intros item item' H; simpl in H.
  - inversion H; subst. simpl. split; [lia | trivial].
  - destruct c as [n | n]; simpl.
    + unfold Item.add_stock in H. destruct (n <? 0) eqn:E; [discriminate|].
      apply Z.ltb_ge in E. apply IH in H as [Hq Hpos]. simpl in Hq, Hpos.
      split; [lia | intros; apply Hpos; lia].
    + unfold Item.remove_stock in H. destruct (n <? 0) eqn:E; [discriminate|].
      destruct (n >? Item.quantity item) eqn:E1; [discriminate|].
      apply IH in H as [Hq Hpos]. simpl in Hq, Hpos.
      split; [lia | intros; apply Hpos; lia].
Qed.

Lemma ledger_run_spec calls : forall item s item' s',
  ledger_run calls item s = (inr item', s') ->
  Item.quantity item' = Item.quantity item + net_change calls /\
  (0 <= Item.quantity item -> stock_nonneg s ->
   0 <= Item.quantity item' /\ stock_nonneg s') /\
  (In item (items s) -> In item' (items s')).
Proof.
  induction calls as [|c calls IH]; intros item s item' s' H; simpl in H.
  - inversion H; subst. simpl. repeat split; auto; lia.
  - destruct (ledger_step c item s) as [[e | item1] s1] eqn:Estep; [discriminate|].
    apply IH in H as (Hq & Hpos & Hin).
    assert (Hstep : exists q1,
               item1 = Item.set_quantity item q1 /\ s1 = save_item item1 s /\
               (0 <= Item.quantity item -> 0 <= q1) /\
               q1 + net_change calls = Item.quantity item + net_change (c :: calls)).
    { destruct c as [n | n]; simpl in Estep.
      - apply ledger_add_stock_inv in Estep as [(e & He & _) | (Hn & He & ->)];
          [discriminate|]. inversion He; subst.
        eexists. repeat split; simpl; lia.
      - apply ledger_remove_stock_inv in Estep as [(e & He & _) | (Hn & He & ->)];
          [discriminate|]. inversion He; subst.
        eexists. repeat split; simpl; lia. }
    destruct Hstep as (q1 & -> & -> & Hq1 & Hnet). simpl in Hq.
    split; [lia|]. split.
    + intros H0 Hs. apply Hpos; [simpl; auto|].
      apply save_item_nonneg; [simpl; auto | assumption].
    + intros Hi. apply Hin. unfold save_item. simpl. apply replace_row_in.
      simpl. now apply in_map.
Qed.

(** C8. From a database in which no quantity is negative: every sequence
    of operations (ledger calls, sales, rentals, returns) leads to a
    database in which no quantity is negative; a removal of more than
    the stock of an item raises and changes nothing; and after a
    sequence of ledger calls that all succeeded the quantity is the
    initial quantity plus the amounts added minus the amounts
    removed. *)
Theorem stock_never_negative (s : Db) :
  stock_nonneg s ->
  (forall s', operations s s' -> stock_nonneg s') /\
  (forall item amount,
      In item (items s) -> Item.quantity item < amount ->
      Item.remove_stock item amount
        = inl (ValueError (InsufficientStock (Item.quantity item))) /\
      InventoryService.remove_stock item amount s
        = (inl (InventoryError (InsufficientStock (Item.quantity item))), s)) /\
  (forall calls item item',
      In item (items s) -> item_run calls item = inr item' ->
      Item.quantity item' = Item.quantity item + net_change calls /\
      0 <= Item.quantity item') /\
  (forall calls item item' s',
      In item (items s) -> ledger_run calls item s = (inr item', s') ->
      Item.quantity item' = Item.quantity item + net_change calls /\
      0 <= Item.quantity item' /\
      In item' (items s') /\
      stock_nonneg s').
Proof.
  intros Hs. split; [|split; [|split]].
  - intros s' Hops. now apply (operations_stock_nonneg s).
  - intros item amount Hin Hlt. apply remove_stock_rejects; [|assumption].
    now apply (stock_nonneg_in s).
  - intros calls item item' Hin H. apply item_run_spec in H as [Hq Hpos].
    split; [assumption|]. apply Hpos. now apply (stock_nonneg_in s).
  - intros calls item item' s' Hin H.
    apply ledger_run_spec in H as (Hq & Hpos & Hin').
    destruct Hpos as [Hq' Hs']; [now apply (stock_nonneg_in s) | assumption|].
    auto.
Qed.

Lemma stock_never_negative_witness :
  stock_nonneg Sample.db_sold /\
  InventoryService.remove_stock Sample.SAL001 51 Sample.db
    = (inl (InventoryError (InsufficientStock 50)), Sample.db) /\
  (forall item' s',
      ledger_run [AddStock 10; RemoveStock 25; RemoveStock 5] Sample.SAL001 Sample.db
        = (inr item', s') ->
      Item.quantity item' = 30).
Proof.
  assert (Hs : stock_nonneg Sample.db).
  { unfold stock_nonneg. simpl. repeat constructor; simpl; lia. }
  destruct (stock_never_negative Sample.db Hs) as (Hops & Hrej & _ & Hrun).
  split; [|split].
  - apply Hops. apply (ops_then _ Sample.db); [constructor|].
    apply (op_create_sale _ _ 7 Sample.sale_cart PaymentMethod.CASH 60%Q None None
             Sample.sale_number Sample.T (inr Sample.sale_transaction)).
    vm_compute. reflexivity.
  - apply (Hrej Sample.SAL001 51); [simpl; auto | simpl; lia].
  - intros item' s' H.
    apply Hrun in H as [Hq _]; [|simpl; auto]. simpl in Hq. exact Hq.
Defined.

(** ** A rental is returned once *)

Lemma find_replace_row_miss {A} (pk : A -> Z) (k : Z) (x' : A) (l : list A) :
  pk x' <> k ->
  find (fun a => pk a =? k) (replace_row pk x' l) = find (fun a => pk a =? k) l.
Proof.
  intros Hne. induction l as [|a l IH]; simpl; [reflexivity|].
  destruct (pk a =? pk x') eqn:E.
  - apply Z.eqb_eq in E. rewrite E.
    apply Z.eqb_neq in Hne. rewrite Hne. exact IH.
  - destruct (pk a =? k); [reflexivity | exact IH].
Qed.

Lemma saved_rental_found s r r' :
  In r (rentals s) -> Rental.id r' = Rental.id r ->
  Rental_query_get (save_rental r' s) (Rental.id r) = Some r'.
Proof.
  intros Hin Hid. unfold Rental_query_get, save_rental. simpl.
  destruct (find_pk_in Rental.id r (rentals s) Hin) as (x & Hx & Hpk).
  apply find_replace_row_hit with (x := x).
  - exact Hx.
  - now apply Z.eqb_eq.
  - congruence.
Qed.

Lemma returned_refused r fee now s :
  Rental.returned r = true ->
  RentalService.process_return r fee now s = (inl (RentalError AlreadyReturned), s).
Proof. intros H. unfold RentalService.process_return. now rewrite H. Qed.

Lemma rental_query_items s r it :
  Rental_query_get (save_item it s) r = Rental_query_get s r.
Proof. reflexivity. Qed.

(** An active rental found after a return is another rental. *)
Lemma active_after_return s r1 cid iid r2 :
  Rental.returned r1 = true ->
  active_rental (save_rental r1 s) cid iid = Some r2 ->
  Rental.id r2 <> Rental.id r1.
Proof.
  intros Hret H. apply find_some in H as [Hin Hp].
  apply andb_true_iff in Hp as [_ Hp]. apply negb_true_iff in Hp.
  unfold save_rental, replace_row in Hin. simpl in Hin.
  apply in_map_iff in Hin as (a & Ha & _).
  destruct (Rental.id a =? Rental.id r1) eqn:E.
  - subst r2. congruence.
  - subst r2. now apply Z.eqb_neq.
Qed.

(** C6. After a successful return of a rental, through the rental
    service or through the engine, the rental is stored as returned and
    a second [process_return] on it raises "Rental has already been
    returned" and leaves the database as it is: fee, transactions and
    stock included. A second call of the engine for the same customer
    and item never reaches that rental again: it raises, changing
    nothing, or it returns another rental. *)
Theorem second_return_rejected :
  (forall (s : Db) (rental : Rental.t) (fee : Q) (now : Z) (lf : Q) (s1 : Db),
      In rental (rentals s) ->
      RentalService.process_return rental fee now s = (inr lf, s1) ->
      exists r1,
        Rental_query_get s1 (Rental.id rental) = Some r1 /\
        Rental.returned r1 = true /\
        forall fee' now',
          RentalService.process_return r1 fee' now' s1
          = (inl (RentalError AlreadyReturned), s1))
  /\
  (forall (employee_id : Z) (phone item_id : string) (q : Z) (number : string)
          (now : Z) (s : Db) (res : ReturnResult.t) (s1 : Db),
      TransactionService.process_return employee_id phone item_id q number now s
        = (inr res, s1) ->
      let r1 := ReturnResult.rental res in
      Rental_query_get s1 (Rental.id r1) = Some r1 /\
      Rental.returned r1 = true /\
      (forall fee' now',
          RentalService.process_return r1 fee' now' s1
          = (inl (RentalError AlreadyReturned), s1)) /\
      (forall e2 q2 number2 now2 out s2,
          TransactionService.process_return e2 phone item_id q2 number2 now2 s1
            = (out, s2) ->
          Rental_query_get s2 (Rental.id r1) = Some r1 /\
          ((exists m, out = inl (TransactionError m) /\ s2 = s1) \/
           (exists res2, out = inr res2 /\
              Rental.id (ReturnResult.rental res2) <> Rental.id r1)))).
Proof.
  split.
  - intros s rental fee now lf s1 Hin H.
    apply rental_return_inv in H as [(e & He & _) | (_ & _ & H)]; [discriminate|].
    exists (returned_rental rental now fee).
    assert (Hget : Rental_query_get s1 (Rental.id rental)
                   = Some (returned_rental rental now fee)).
    { destruct (Item_query_get s (Rental.item_id rental)) as [item|].
      - destruct H as [_ ->]. rewrite rental_query_items.
        now apply saved_rental_found.
      - subst s1. now apply saved_rental_found. }
    split; [exact Hget|]. split; [reflexivity|].
    intros fee' now'. now apply returned_refused.
  - intros employee_id phone item_id q number now s res s1 H.
    apply engine_return_inv in H
      as (customer & item & rental & _ & _ & Hr & _ & -> & ->).
    cbv zeta. cbn [ReturnResult.rental].
    set (r1 := returned_rental rental now Rental.default_fee_per_day).
    assert (Hin : In rental (rentals s)) by (apply find_some in Hr; tauto).
    assert (Hget : Rental_query_get
                     (save_item (restocked_item item rental) (save_rental r1 s))
                     (Rental.id r1) = Some r1)
      by (rewrite rental_query_items;
          change (Rental.id r1) with (Rental.id rental);
          now apply saved_rental_found).
    split; [exact Hget|]. split; [reflexivity|]. split.
    + intros fee' now'. now apply returned_refused.
    + intros e2 q2 number2 now2 out s2 H2. destruct out as [err | res2].
      * apply atomically_inl in H2 as (-> & e0 & _ & ->).
        split; [exact Hget|]. left. eauto.
      * apply engine_return_inv in H2
          as (customer2 & item2 & rental2 & _ & _ & Hr2 & _ & -> & ->).
        change (active_rental
                  (save_item (restocked_item item rental) (save_rental r1 s))
                  (Customer.id customer2) (Item.id item2))
          with (active_rental (save_rental r1 s)
                  (Customer.id customer2) (Item.id item2)) in Hr2.
        apply active_after_return in Hr2; [|reflexivity].
        split.
        -- rewrite rental_query_items. unfold Rental_query_get, save_rental.
           cbn [rentals]. rewrite find_replace_row_miss; [exact Hget|].
           exact Hr2.
        -- right. eexists. split; [reflexivity|]. exact Hr2.
Qed.

Lemma second_return_rejected_witness :
  exists r1,
    Rental_query_get (snd Sample.service_return) (Rental.id Sample.rental) = Some r1 /\
    Rental.returned r1 = true /\
    (forall fee' now',
        RentalService.process_return r1 fee' now' (snd Sample.service_return)
        = (inl (RentalError AlreadyReturned), snd Sample.service_return)) /\
    TransactionService.process_return 7 "5551234567" "RNT001" 1 Sample.return_number
      (Sample.T + 11 * day) (snd Sample.service_return)
    = (inl (TransactionError NoActiveRental), snd Sample.service_return).
Proof.
  destruct (proj1 second_return_rejected Sample.db_rented Sample.rental 2%Q
              (Sample.T + 10 * day) 0%Q (snd Sample.service_return))
    as (r1 & Hget & Hret & Hsecond).
  - simpl. auto.
  - vm_compute. reflexivity.
  - exists r1. split; [exact Hget|]. split; [exact Hret|].
    split; [exact Hsecond|]. vm_compute. reflexivity.
Defined.

(** ** Coupons in a sale *)

(** A coupon whose percentage is zero brings no discount to a sale,
    whatever its fixed amount: [calculate_totals] reads the percentage
    only. *)
Lemma create_sale_percent_only employee_id cart payment_method amount_tendered
    code customer_phone number now s t s' c :
  TransactionService.create_sale employee_id cart payment_method amount_tendered
    (Some code) customer_phone number now s = (inr t, s') ->
  CouponService.get_coupon_by_code s code = Some c ->
  (Coupon.discount_percent c == 0)%Q ->
  (Transaction.discount_amount t == 0)%Q.
Proof.
  intros H Hc Hp.
  apply create_sale_inv in H
    as (cid & s0 & t0 & s2 & t1 & s3 & Hcust & Ht0 & Hloop & Hcoupon & Hsettle).
  apply sale_customer_frame in Hcust as (_ & Hk0 & _).
  apply sale_loop_frame in Hloop as (_ & Hk2 & _). simpl in Hk2.
  apply settle_inv in Hsettle as [-> _].
  destruct (apply_payment_fields
              (Transaction.calculate_totals t1
                 (Transaction_items_all s3 (Transaction.id t1))
                 (Coupon_query_get s3) now Transaction.default_tax_rate)
              amount_tendered) as (_ & _ & _ & -> & _).
  apply apply_coupon_inv in Hcoupon
    as [[-> ->] | (code' & c' & Hcode & _ & Hget & _ & -> & ->)].
  - rewrite Ht0. reflexivity.
  - inversion Hcode; subst code'; clear Hcode.
    assert (Ec : c' = c).
    { unfold CouponService.get_coupon_by_code in *.
      rewrite Hk2, Hk0, Hc in Hget. now inversion Hget. }
    subst c'. unfold Transaction.calculate_totals. simpl.
    destruct (Coupon.id c =? 0); simpl; [rewrite Ht0; reflexivity|].
    assert (Hq : Coupon_query_get (save_coupon (Coupon.use c) s2) (Coupon.id c)
                 = Some (Coupon.use c)).
    { unfold Coupon_query_get, save_coupon. simpl.
      unfold CouponService.get_coupon_by_code in Hget.
      pose proof Hget as Hin. apply find_some in Hin as [Hin _].
      destruct (find_pk_in Coupon.id c (coupons s2) Hin) as (x & Hx & Hpk).
      apply find_replace_row_hit with (x := x); [exact Hx | apply Z.eqb_refl |].
      simpl. congruence. }
    rewrite Hq. destruct (Coupon.is_valid (Coupon.use c) now).
    + simpl. rewrite Hp. unfold Qdiv. ring.
    + rewrite Ht0. reflexivity.
Qed.

(** C2. A sale of five notebooks (subtotal 49.95) with the coupon FLAT5,
    valid and worth a fixed 5.00: the coupon is attached to the
    transaction and its usage counted, the claim puts the discount at
    [min(5, 49.95) = 5], and the transaction is stored with a discount
    of zero and the undiscounted total. *)
Theorem create_sale_fixed_coupon_not_applied :
  exists t s',
    TransactionService.create_sale 7 Sample.sale_cart PaymentMethod.CASH 60
      (Some "FLAT5"%string) None Sample.sale_number Sample.T Sample.db
    = (inr t, s') /\
    CouponService.get_coupon_by_code Sample.db "FLAT5" = Some Sample.FLAT5 /\
    Coupon.is_valid Sample.FLAT5 Sample.T = true /\
    (Coupon.discount_percent Sample.FLAT5 == 0)%Q /\
    (Coupon.discount_amount Sample.FLAT5 == 5)%Q /\
    Transaction.coupon_id t = Some (Coupon.id Sample.FLAT5) /\
    Coupon_query_get s' (Coupon.id Sample.FLAT5) = Some (Coupon.use Sample.FLAT5) /\
    (Transaction.subtotal t == 49.95)%Q /\
    (Qmin (Coupon.discount_amount Sample.FLAT5) (Transaction.subtotal t) == 5)%Q /\
    (Coupon.calculate_discount Sample.FLAT5 (Transaction.subtotal t) Sample.T == 5)%Q /\
    (Transaction.discount_amount t == 0)%Q /\
    ~ (Transaction.discount_amount t
       == Qmin (Coupon.discount_amount Sample.FLAT5) (Transaction.subtotal t))%Q /\
    (Transaction.total t == 53.946)%Q.
Proof.
  eexists. eexists. split; [vm_compute; reflexivity|].
  cbn [Transaction.coupon_id Transaction.subtotal Transaction.discount_amount
       Transaction.total].
  repeat split; try reflexivity.
  intros H. vm_compute in H. discriminate H.
Qed.

(** C4. A sale of five notebooks (subtotal 49.95) with the coupon
    SAVE10, 10% off from a purchase of 100.00: the coupon cannot be
    applied to that amount, and yet the sale attaches it, counts one
    more use and takes 4.995 off. *)
Theorem create_sale_ignores_minimum_purchase :
  exists t s',
    TransactionService.create_sale 7 Sample.sale_cart PaymentMethod.CASH 60
      (Some "SAVE10"%string) None Sample.sale_number Sample.T Sample.db
    = (inr t, s') /\
    CouponService.get_coupon_by_code Sample.db "SAVE10" = Some Sample.SAVE10 /\
    (Transaction.subtotal t == 49.95)%Q /\
    (Transaction.subtotal t < Coupon.minimum_purchase Sample.SAVE10)%Q /\
    Coupon.can_apply_to_amount Sample.SAVE10 (Transaction.subtotal t) Sample.T = false /\
    (Coupon.calculate_discount Sample.SAVE10 (Transaction.subtotal t) Sample.T == 0)%Q /\
    Transaction.coupon_id t = Some (Coupon.id Sample.SAVE10) /\
    Coupon.times_used Sample.SAVE10 = 0 /\
    option_map Coupon.times_used (Coupon_query_get s' (Coupon.id Sample.SAVE10))
      = Some 1 /\
    (Transaction.discount_amount t == 4.995)%Q /\
    ~ (Transaction.discount_amount t == 0)%Q.
Proof.
  eexists. eexists. split; [vm_compute; reflexivity|].
  cbn [Transaction.coupon_id Transaction.subtotal Transaction.discount_amount].
  repeat split; try reflexivity.
  intros H. vm_compute in H. discriminate H.
Qed.

(** * Further properties of the code *)

(** ** Validation and life cycle of coupons *)

Lemma upper_ascii_idempotent (c : Ascii.ascii) :
  upper_ascii (upper_ascii c) = upper_ascii c.
Proof. destruct c as [[] [] [] [] [] [] [] []]; reflexivity. Qed.

Lemma upper_idempotent (s : string) : upper (upper s) = upper s.
Proof.
  induction s as [|c s IH]; simpl; [reflexivity|].
  now rewrite upper_ascii_idempotent, IH.
Qed.

(** The float methods are the model's methods on numbers. *)
Lemma float_methods_on_numbers (c : Coupon.t) (q : Q) (now : Z) :
  Coupon.can_apply_to_float c (Fin q) now = Coupon.can_apply_to_amount c q now /\
  Coupon.calculate_discount_float c (Fin q) now
  = Fin (Coupon.calculate_discount c q now).
Proof.
  split; [reflexivity|].
  unfold Coupon.calculate_discount_float, Coupon.calculate_discount,
    Coupon.can_apply_to_float, Coupon.can_apply_to_amount, float_min, py_min. simpl.
  destruct (negb _); [reflexivity|].
  destruct (Qgtb (Coupon.discount_percent c) 0); [reflexivity|].
  destruct (Qgtb (Coupon.discount_amount c) 0); [|reflexivity].
  destruct (Qltb q (Coupon.discount_amount c)); reflexivity.
Qed.

(** [validate_coupon] against the model. The service declares a code
    valid exactly when it names a valid coupon and the amount is not
    below the coupon's minimum purchase. For every amount but nan that
    is when [can_apply_to_amount] accepts the amount; for nan, which is
    neither below nor at least the minimum, the service declares every
    valid coupon valid although [can_apply_to_amount] refuses, and
    reports a discount of zero. The discount of a valid verdict is
    [calculate_discount] of the amount, and an invalid verdict carries
    neither coupon nor discount. *)
Theorem validate_coupon_agrees_with_model (code : string) (amount : pyfloat)
    (now : Z) (s : Db) :
  let v := CouponService.validate_coupon code amount now s in
  (CouponService.valid v = true <->
   exists c, CouponService.get_coupon_by_code s code = Some c /\
             Coupon.is_valid c now = true /\
             float_ltb amount (Coupon.minimum_purchase c) = false) /\
  (amount <> NaN ->
   (CouponService.valid v = true <->
    exists c, CouponService.get_coupon_by_code s code = Some c /\
              Coupon.can_apply_to_float c amount now = true)) /\
  (forall q, amount = Fin q ->
   (CouponService.valid v = true <->
    exists c, CouponService.get_coupon_by_code s code = Some c /\
              Coupon.can_apply_to_amount c q now = true)) /\
  (amount = NaN ->
   forall c, CouponService.get_coupon_by_code s code = Some c ->
             Coupon.is_valid c now = true ->
             CouponService.valid v = true /\
             Coupon.can_apply_to_float c amount now = false /\
             CouponService.discount_of v = Some (Fin 0)) /\
  (forall c, CouponService.get_coupon_by_code s code = Some c ->
             CouponService.valid v = true ->
             CouponService.coupon_of v = Some c /\
             CouponService.discount_of v
               = Some (Coupon.calculate_discount_float c amount now) /\
             CouponService.message_of v
               = CouponService.CouponValid
                   (Coupon.calculate_discount_float c amount now)) /\
  (forall c q, amount = Fin q ->
               CouponService.get_coupon_by_code s code = Some c ->
               CouponService.valid v = true ->
               CouponService.discount_of v
               = Some (Fin (Coupon.calculate_discount c q now))) /\
  (CouponService.valid v = false ->
   CouponService.coupon_of v = None /\ CouponService.discount_of v = None).
Proof.
  cbv zeta.
  assert (Hverdict :
            CouponService.valid (CouponService.validate_coupon code amount now s) = true <->
            exists c, CouponService.get_coupon_by_code s code = Some c /\
                      Coupon.is_valid c now = true /\
                      float_ltb amount (Coupon.minimum_purchase c) = false).
  { unfold CouponService.validate_coupon, Coupon.is_valid.
    destruct (CouponService.get_coupon_by_code s code) as [c|].
    - destruct (Coupon.is_active c) eqn:Ea; simpl.
      + destruct (Coupon.is_expired c now) eqn:Ee; simpl.
        * split; [discriminate|]. intros (c' & E & H & _).
          inversion E; subst c'. rewrite Ea, Ee in H. discriminate.
        * destruct (Coupon.is_usage_exceeded c) eqn:Eu; simpl.
          -- split; [discriminate|]. intros (c' & E & H & _).
             inversion E; subst c'. rewrite Ea, Ee, Eu in H. discriminate.
          -- destruct (float_ltb amount (Coupon.minimum_purchase c)) eqn:Em; simpl.
             ++ split; [discriminate|]. intros (c' & E & _ & H).
                inversion E; subst c'. congruence.
             ++ split; [|reflexivity]. intros _. exists c.
                rewrite Ea, Ee, Eu. auto.
      + split; [discriminate|]. intros (c' & E & H & _).
        inversion E; subst c'. rewrite Ea in H. discriminate.
    - simpl. split; [discriminate|]. intros (c' & E & _). discriminate. }
  assert (Hcmp : amount <> NaN ->
                 forall m, float_geb amount m = negb (float_ltb amount m)).
  { intros Hn m. destruct amount as [q| | |]; simpl; try reflexivity.
    - unfold Qgeb, Qltb. now rewrite negb_involutive.
    - now contradiction Hn. }
  assert (Hcan : amount <> NaN ->
                 (CouponService.valid
                    (CouponService.validate_coupon code amount now s) = true <->
                  exists c, CouponService.get_coupon_by_code s code = Some c /\
                            Coupon.can_apply_to_float c amount now = true)).
  { intros Hn. rewrite Hverdict. unfold Coupon.can_apply_to_float.
    split.
    - intros (c & E & Hv & Hm). exists c. split; [exact E|].
      rewrite Hv, (Hcmp Hn), Hm. reflexivity.
    - intros (c & E & H). apply andb_true_iff in H as [Hv Hm].
      exists c. split; [exact E|]. split; [exact Hv|].
      rewrite (Hcmp Hn) in Hm. now apply negb_true_iff in Hm. }
  assert (Hvalid : forall c,
             CouponService.get_coupon_by_code s code = Some c ->
             CouponService.valid (CouponService.validate_coupon code amount now s) = true ->
             CouponService.coupon_of (CouponService.validate_coupon code amount now s)
             = Some c /\
             CouponService.discount_of (CouponService.validate_coupon code amount now s)
             = Some (Coupon.calculate_discount_float c amount now) /\
             CouponService.message_of (CouponService.validate_coupon code amount now s)
             = CouponService.CouponValid (Coupon.calculate_discount_float c amount now)).
  { intros c E. unfold CouponService.validate_coupon. rewrite E.
    destruct (negb (Coupon.is_active c)); [discriminate|].
    destruct (Coupon.is_expired c now); [discriminate|].
    destruct (Coupon.is_usage_exceeded c); [discriminate|].
    destruct (float_ltb amount (Coupon.minimum_purchase c)); [discriminate|].
    simpl. auto. }
  split; [exact Hverdict|]. split; [exact Hcan|]. split; [|split; [|split; [|split]]].
  - intros q Hq. rewrite Hcan by (rewrite Hq; discriminate). rewrite Hq.
    split; intros (c & E & H); exists c; (split; [exact E|]);
      now rewrite (proj1 (float_methods_on_numbers c q now)) in *.
  - intros Hn c E Hv.
    assert (Hval : CouponService.valid
                     (CouponService.validate_coupon code amount now s) = true).
    { apply Hverdict. exists c. rewrite Hn. auto. }
    split; [exact Hval|].
    assert (Hno : Coupon.can_apply_to_float c amount now = false).
    { unfold Coupon.can_apply_to_float. rewrite Hn. simpl. apply andb_false_r. }
    split; [exact Hno|].
    destruct (Hvalid c E Hval) as (_ & Hd & _). rewrite Hd.
    unfold Coupon.calculate_discount_float. now rewrite Hno.
  - exact Hvalid.
  - intros c q Hq E Hv. destruct (Hvalid c E Hv) as (_ & Hd & _).
    rewrite Hd, Hq.
    now rewrite (proj2 (float_methods_on_numbers c q now)).
  - unfold CouponService.validate_coupon.
    destruct (CouponService.get_coupon_by_code s code) as [c|]; [|auto].
    destruct (negb (Coupon.is_active c)); [auto|].
    destruct (Coupon.is_expired c now); [auto|].
    destruct (Coupon.is_usage_exceeded c); [auto|].
    destruct (float_ltb amount (Coupon.minimum_purchase c)); [auto|].
    discriminate.
Qed.

Lemma use_times_fields (n : nat) (c : Coupon.t) :
  Coupon.times_used (use_times n c) = Coupon.times_used c + Z.of_nat n /\
  Coupon.max_uses (use_times n c) = Coupon.max_uses c /\
  Coupon.is_active (use_times n c) = Coupon.is_active c /\
  Coupon.expires_at (use_times n c) = Coupon.expires_at c /\
  Coupon.id (use_times n c) = Coupon.id c.
Proof.
  induction n as [|n (H1 & H2 & H3 & H4 & H5)].
  - simpl. repeat split; lia.
  - cbn [use_times]. unfold Coupon.use. cbn [Coupon.times_used Coupon.max_uses
      Coupon.is_active Coupon.expires_at Coupon.id].
    repeat split; try assumption. lia.
Qed.

(** A coupon with a usage cap of [m], valid now, stays valid through its
    uses exactly while fewer than [m] of them are counted; [use] itself
    never refuses, so the counter passes the cap, and [remaining_uses]
    is [max(0, m - times_used)], zero exactly when the cap is reached. *)
Theorem coupon_usage_cap (c : Coupon.t) (m : Z) (now : Z) (n : nat) :
  Coupon.max_uses c = Some m ->
  Coupon.is_valid c now = true ->
  Coupon.times_used (use_times n c) = Coupon.times_used c + Z.of_nat n /\
  (Coupon.is_valid (use_times n c) now = true <->
   Coupon.times_used c + Z.of_nat n < m) /\
  Coupon.remaining_uses (use_times n c)
    = Some (Z.max 0 (m - Coupon.times_used c - Z.of_nat n)) /\
  (Coupon.remaining_uses (use_times n c) = Some 0 <->
   Coupon.is_usage_exceeded (use_times n c) = true).
Proof.
  intros Hm Hv.
  destruct (use_times_fields n c) as (Ht & Hmax & Ha & He & _).
  unfold Coupon.is_valid, Coupon.is_expired, Coupon.is_usage_exceeded,
    Coupon.remaining_uses in *.
  rewrite Hmax, Ha, He, Ht, Hm. rewrite Hm in Hv.
  apply andb_true_iff in Hv as [Hv _]. rewrite Hv. simpl.
  split; [reflexivity|]. split; [|split].
  - rewrite negb_true_iff. split; intros H.
    + destruct (Coupon.times_used c + Z.of_nat n >=? m) eqn:E; [discriminate|]. lia.
    + destruct (Coupon.times_used c + Z.of_nat n >=? m) eqn:E; [lia | reflexivity].
  - f_equal. lia.
  - split; intros H.
    + inversion H. lia.
    + f_equal. lia.
Qed.

Lemma coupon_usage_cap_witness :
  Coupon.is_valid (use_times 2 (Coupon.mk 3 "TWICE" 10 0 0 (Some 2) 0 true None))
    Sample.T = false /\
  Coupon.is_valid (use_times 1 (Coupon.mk 3 "TWICE" 10 0 0 (Some 2) 0 true None))
    Sample.T = true.
Proof.
  destruct (coupon_usage_cap (Coupon.mk 3 "TWICE" 10 0 0 (Some 2) 0 true None)
              2 Sample.T 2 eq_refl eq_refl) as (_ & H2 & _).
  destruct (coupon_usage_cap (Coupon.mk 3 "TWICE" 10 0 0 (Some 2) 0 true None)
              2 Sample.T 1 eq_refl eq_refl) as (_ & H1 & _).
  split.
  - apply not_true_is_false. intros H. apply H2 in H. simpl in H. lia.
  - apply H1. simpl. lia.
Defined.

Lemma find_app_none {A} (p : A -> bool) (l l' : list A) :
  find p l = None -> find p (l ++ l') = find p l'.
Proof.
  induction l as [|a l IH]; simpl; [reflexivity|].
  destruct (p a); [discriminate | exact IH].
Qed.


(** A coupon that [create_coupon] stored is found again under its code
    in any letter case, carries the upper-cased code, starts active and
    unused, and bars a second creation under the same code. *)
Theorem create_coupon_round_trip (code : string) (p d : Q)
    (max_uses expires_at : option Z) (minimum : Q) (s : Db) (c : Coupon.t) (s' : Db) :
  CouponService.create_coupon code p d max_uses expires_at minimum s = (inr c, s') ->
  CouponService.get_coupon_by_code s code = None /\
  CouponService.get_coupon_by_code s' code = Some c /\
  CouponService.get_coupon_by_code s' (upper code) = Some c /\
  Coupon.code c = upper code /\
  Coupon.times_used c = 0 /\ Coupon.is_active c = true /\
  (forall p' d' max_uses' expires_at' minimum',
      CouponService.check_discounts p' d' = None ->
      CouponService.create_coupon code p' d' max_uses' expires_at' minimum' s'
      = (inl (CouponError (CouponCodeExists code)), s')).
Proof.
  unfold CouponService.create_coupon.
  destruct (CouponService.check_discounts p d); [discriminate|].
  destruct (CouponService.get_coupon_by_code s code) eqn:Enone; [discriminate|].
  intros H. inversion H; subst c s'; clear H.
  set (c := Coupon.init _ _ _ _ _ _ _).
  assert (Hfound : CouponService.get_coupon_by_code
                     (mkDb (items s) (customers s) (coupons s ++ [c]) (transactions s)
                        (transaction_items s) (rentals s)) code = Some c).
  { unfold CouponService.get_coupon_by_code in *. simpl.
    rewrite (find_app_none _ _ _ Enone). simpl. now rewrite String.eqb_refl. }
  split; [reflexivity|]. split; [exact Hfound|]. split; [|split; [reflexivity|]].
  - unfold CouponService.get_coupon_by_code in *. now rewrite upper_idempotent.
  - split; [reflexivity|]. split; [reflexivity|].
    intros p' d' mu' ex' min' Hc. rewrite Hc, Hfound. reflexivity.
Qed.

Lemma create_coupon_round_trip_witness :
  exists c s',
    CouponService.create_coupon "spring5" 0 5 None None 0 Sample.db = (inr c, s') /\
    CouponService.get_coupon_by_code s' "Spring5" = Some c /\
    Coupon.code c = "SPRING5"%string.
Proof.
  eexists. eexists. split; [vm_compute; reflexivity|].
  match goal with
  | |- CouponService.get_coupon_by_code ?s' _ = Some ?c /\ _ =>
      destruct (create_coupon_round_trip "spring5" 0 5 None None 0 Sample.db c s'
                  eq_refl) as (_ & _ & _ & Hcode & _)
  end.
  split; [vm_compute; reflexivity | exact Hcode].
Defined.

(** ** Coupons that a sale does not use *)

Lemma apply_coupon_unusable t code now s2 :
  match CouponService.get_coupon_by_code s2 code with
  | None => True
  | Some c => Coupon.is_valid c now = false
  end ->
  TransactionService.apply_coupon t (Some code) now s2
  = TransactionService.apply_coupon t None now s2.
Proof.
  intros H. unfold TransactionService.apply_coupon.
  destruct (truthy_str (Some code)); [|reflexivity].
  unfold bind, gets. simpl.
  destruct (CouponService.get_coupon_by_code s2 code) as [c|]; [|reflexivity].
  now rewrite H.
Qed.

(** The body of a sale does not see a code that names no valid coupon. *)
Lemma sale_body_unusable_coupon employee_id cart payment_method amount_tendered code
    customer_phone number now s :
  match CouponService.get_coupon_by_code s code with
  | None => True
  | Some c => Coupon.is_valid c now = false
  end ->
  TransactionService.create_sale_body employee_id cart payment_method
    amount_tendered (Some code) customer_phone number now s
  = TransactionService.create_sale_body employee_id cart payment_method
      amount_tendered None customer_phone number now s.
Proof.
  intros H.
  unfold TransactionService.create_sale_body, bind.
  destruct (TransactionService.sale_customer customer_phone s)
    as [e | [cid s0]] eqn:Hcust; [reflexivity|].
  apply sale_customer_frame in Hcust as (_ & Hk0 & _).
  destruct (add_transaction number TransactionType.SALE employee_id cid
              payment_method now s0) as [e | [t0 s1]] eqn:Hadd; [reflexivity|].
  apply add_transaction_inv in Hadd as [_ ->].
  destruct (for_each (TransactionService.sale_line (Transaction.id t0)) cart _)
    as [e | [u s2]] eqn:Hloop; [reflexivity|].
  apply sale_loop_frame in Hloop as (_ & Hk2 & _). simpl in Hk2.
  rewrite apply_coupon_unusable; [reflexivity|].
  unfold CouponService.get_coupon_by_code in *. now rewrite Hk2, Hk0.
Qed.

(** A sale given a code that names no coupon, or a coupon that is not
    valid (inactive, expired or used up), runs exactly as the sale
    without a code: same outcome, same database. *)
Theorem create_sale_ignores_unusable_coupon
    (employee_id : Z) (cart : list CartLine.t) (payment_method : string)
    (amount_tendered : Q) (code : string) (customer_phone : option string)
    (number : string) (now : Z) (s : Db) :
  match CouponService.get_coupon_by_code s code with
  | None => True
  | Some c => Coupon.is_valid c now = false
  end ->
  TransactionService.create_sale employee_id cart payment_method amount_tendered
    (Some code) customer_phone number now s
  = TransactionService.create_sale employee_id cart payment_method amount_tendered
      None customer_phone number now s.
Proof.
  intros H. unfold TransactionService.create_sale, atomically.
  pose proof (sale_body_unusable_coupon employee_id cart payment_method
                amount_tendered code customer_phone number now s H) as E.
  destruct (CouponService.get_coupon_by_code s code) as [c|].
  - now rewrite E.
  - now rewrite E.
Qed.

Lemma create_sale_ignores_unusable_coupon_witness :
  TransactionService.create_sale 7 Sample.sale_cart PaymentMethod.CASH 60
    (Some "NOSUCH"%string) None Sample.sale_number Sample.T Sample.db
  = Sample.sale.
Proof.
  apply (create_sale_ignores_unusable_coupon 7 Sample.sale_cart PaymentMethod.CASH
           60 "NOSUCH" None Sample.sale_number Sample.T Sample.db).
  simpl. exact I.
Defined.

(** Deactivating a coupon through the service: from then on
    [validate_coupon] answers 'Coupon is inactive' for its code, whatever
    the amount, and a sale given the code runs as the sale without a
    code. *)
Theorem deactivated_coupon_is_refused (c : Coupon.t) (code : string) (s : Db) :
  CouponService.get_coupon_by_code s code = Some c ->
  let s' := snd (CouponService.deactivate_coupon c s) in
  CouponService.get_coupon_by_code s' code = Some (Coupon.deactivate c) /\
  (forall amount now,
      CouponService.valid (CouponService.validate_coupon code amount now s') = false /\
      CouponService.message_of (CouponService.validate_coupon code amount now s')
        = CouponService.CouponInactive) /\
  (forall employee_id cart payment_method amount_tendered customer_phone number now,
      TransactionService.create_sale employee_id cart payment_method amount_tendered
        (Some code) customer_phone number now s'
      = TransactionService.create_sale employee_id cart payment_method
          amount_tendered None customer_phone number now s').
Proof.
  intros Hget. cbv zeta. unfold CouponService.deactivate_coupon. cbn [snd].
  assert (Hfound : CouponService.get_coupon_by_code
                     (save_coupon (Coupon.deactivate c) s) code
                   = Some (Coupon.deactivate c)).
  { unfold CouponService.get_coupon_by_code, save_coupon in *. simpl.
    apply find_replace_row_hit with (x := c); [exact Hget| |reflexivity].
    apply find_some in Hget as [_ Hp]. exact Hp. }
  split; [exact Hfound|]. split.
  - intros amount now. unfold CouponService.validate_coupon. rewrite Hfound.
    simpl. auto.
  - intros. unfold TransactionService.create_sale, atomically.
    rewrite sale_body_unusable_coupon; [reflexivity|].
    rewrite Hfound. reflexivity.
Qed.

Lemma deactivated_coupon_is_refused_witness :
  CouponService.message_of
    (CouponService.validate_coupon "save10" (Fin 500) Sample.T
       (snd (CouponService.deactivate_coupon Sample.SAVE10 Sample.db)))
  = CouponService.CouponInactive.
Proof.
  destruct (deactivated_coupon_is_refused Sample.SAVE10 "save10" Sample.db eq_refl)
    as (_ & H & _).
  exact (proj2 (H (Fin 500) Sample.T)).
Defined.

(** ** Percentage coupons in a sale *)

Lemma apply_coupon_valid t code now s2 c :
  code <> EmptyString ->
  CouponService.get_coupon_by_code s2 code = Some c ->
  Coupon.is_valid c now = true ->
  TransactionService.apply_coupon t (Some code) now s2
  = inr (Transaction.set_coupon_id t (Some (Coupon.id c)),
         save_coupon (Coupon.use c) s2).
Proof.
  intros Hne Hget Hv. unfold TransactionService.apply_coupon. simpl.
  apply String.eqb_neq in Hne. rewrite Hne. simpl.
  unfold bind, gets, modify, ret. now rewrite Hget, Hv.
Qed.

Lemma saved_coupon_found s c c' :
  In c (coupons s) -> Coupon.id c' = Coupon.id c ->
  Coupon_query_get (save_coupon c' s) (Coupon.id c) = Some c'.
Proof.
  intros Hin Hid. unfold Coupon_query_get, save_coupon. simpl.
  destruct (find_pk_in Coupon.id c (coupons s) Hin) as (x & Hx & Hpk).
  apply find_replace_row_hit with (x := x); [exact Hx | now apply Z.eqb_eq | congruence].
Qed.

(** A sale given the code of a valid coupon attaches the coupon and
    counts one use of it. The percentage is then taken off the subtotal
    only if the coupon is still valid after that use: on the last use a
    cap allows, the use is counted and the discount is zero. *)
Theorem create_sale_percent_coupon
    (employee_id : Z) (cart : list CartLine.t) (payment_method : string)
    (amount_tendered : Q) (code : string) (customer_phone : option string)
    (number : string) (now : Z) (s : Db) (c : Coupon.t) (t : Transaction.t) (s' : Db) :
  code <> EmptyString ->
  CouponService.get_coupon_by_code s code = Some c ->
  Coupon.is_valid c now = true ->
  Coupon.id c <> 0 ->
  TransactionService.create_sale employee_id cart payment_method amount_tendered
    (Some code) customer_phone number now s = (inr t, s') ->
  Transaction.coupon_id t = Some (Coupon.id c) /\
  Coupon_query_get s' (Coupon.id c) = Some (Coupon.use c) /\
  (match Coupon.max_uses c with
   | None => True
   | Some m => Coupon.times_used c + 1 < m
   end ->
   (Transaction.discount_amount t
    == Transaction.subtotal t * (Coupon.discount_percent c / 100))%Q) /\
  (Coupon.max_uses c = Some (Coupon.times_used c + 1) ->
   (Transaction.discount_amount t == 0)%Q).
Proof.
  intros Hne Hc Hv Hid H.
  apply create_sale_inv in H
    as (cid & s0 & t0 & s2 & t1 & s3 & Hcust & Ht0 & Hloop & Hcoupon & Hsettle).
  apply sale_customer_frame in Hcust as (_ & Hk0 & _).
  apply sale_loop_frame in Hloop as (_ & Hk2 & _). simpl in Hk2.
  assert (Hc2 : CouponService.get_coupon_by_code s2 code = Some c)
    by (unfold CouponService.get_coupon_by_code in *; now rewrite Hk2, Hk0).
  rewrite (apply_coupon_valid t0 code now s2 c Hne Hc2 Hv) in Hcoupon.
  inversion Hcoupon; subst t1 s3; clear Hcoupon.
  apply settle_inv in Hsettle as [-> ->].
  assert (Hin : In c (coupons s2)) by (apply find_some in Hc2; tauto).
  pose proof (saved_coupon_found s2 c (Coupon.use c) Hin eq_refl) as Hq.
  set (t1 := Transaction.set_coupon_id t0 (Some (Coupon.id c))) in *.
  set (s3 := save_coupon (Coupon.use c) s2) in *.
  set (ct := Transaction.calculate_totals t1 _ _ _ _).
  destruct (apply_payment_fields ct amount_tendered) as (_ & -> & -> & -> & _).
  assert (Hdisc : Transaction.discount_amount ct
                  = if Coupon.is_valid (Coupon.use c) now
                    then (Transaction.subtotal ct * (Coupon.discount_percent c / 100))%Q
                    else 0%Q).
  { unfold ct, Transaction.calculate_totals. cbn [Transaction.coupon_id t1
      Transaction.set_coupon_id truthy_int Transaction.discount_amount
      Transaction.subtotal Transaction.set_totals].
    apply Z.eqb_neq in Hid. rewrite Hid. cbn [negb]. rewrite Hq.
    destruct (Coupon.is_valid (Coupon.use c) now); [reflexivity|].
    rewrite Ht0. reflexivity. }
  assert (Hvalid' : Coupon.is_valid (Coupon.use c) now
                    = negb (match Coupon.max_uses c with
                            | None => false
                            | Some m => Coupon.times_used c + 1 >=? m
                            end)).
  { unfold Coupon.is_valid, Coupon.is_expired, Coupon.is_usage_exceeded in *.
    cbn [Coupon.use Coupon.is_active Coupon.expires_at Coupon.max_uses
         Coupon.times_used].
    apply andb_true_iff in Hv as [Hv _]. now rewrite Hv. }
  split; [reflexivity|]. split; [exact Hq|]. split.
  - intros Hroom. rewrite Hdisc, Hvalid'.
    destruct (Coupon.max_uses c) as [m|]; [|reflexivity].
    destruct (Coupon.times_used c + 1 >=? m) eqn:E; [lia | reflexivity].
  - intros Hlast. rewrite Hdisc, Hvalid', Hlast.
    destruct (Coupon.times_used c + 1 >=? Coupon.times_used c + 1) eqn:E;
      [reflexivity | lia].
Qed.

Lemma create_sale_percent_coupon_witness :
  exists t s',
    TransactionService.create_sale 7 Sample.sale_cart PaymentMethod.CASH 60
      (Some "SAVE10"%string) None Sample.sale_number Sample.T Sample.db = (inr t, s') /\
    Coupon_query_get s' 1 = Some (Coupon.use Sample.SAVE10) /\
    Transaction.coupon_id t = Some 1 /\
    (Transaction.discount_amount t == Transaction.subtotal t * (10 / 100))%Q.
Proof.
  eexists. eexists. split; [vm_compute; reflexivity|].
  match goal with
  | |- Coupon_query_get ?s' _ = _ /\ Transaction.coupon_id ?t = _ /\ _ =>
      destruct (create_sale_percent_coupon 7 Sample.sale_cart PaymentMethod.CASH 60
                  "SAVE10" None Sample.sale_number Sample.T Sample.db Sample.SAVE10
                  t s') as (Hid & Hq & Hroom & _);
        [discriminate | reflexivity | reflexivity | discriminate
        | vm_compute; reflexivity | ]
  end.
  split; [exact Hq|]. split; [exact Hid | exact (Hroom I)].
Defined.

(** ** Payment *)

Lemma settle_succeeds t tendered now s :
  exists t' s', TransactionService.settle t tendered now s = inr (t', s').
Proof.
  unfold TransactionService.settle, bind, gets, modify, ret. eauto.
Qed.

Lemma py_max_zero (x : Q) :
  (0 <= py_max 0 x)%Q /\
  (x <= 0 -> py_max 0 x == 0)%Q /\
  (0 <= x -> py_max 0 x == x)%Q.
Proof.
  unfold py_max. destruct (Qltb 0 x) eqn:E.
  - apply Qltb_true in E. repeat split; intros; lra.
  - apply Qltb_false in E. repeat split; intros; lra.
Qed.

Lemma create_sale_payment_fields employee_id cart payment_method amount_tendered
    coupon_code customer_phone number now s t s' :
  TransactionService.create_sale employee_id cart payment_method amount_tendered
    coupon_code customer_phone number now s = (inr t, s') ->
  exists ct,
    t = Transaction.apply_payment ct amount_tendered /\
    Transaction.payment_method ct = payment_method /\
    Transaction.change_given ct = 0%Q.
Proof.
  intros H. apply create_sale_inv in H
    as (cid & s0 & t0 & s2 & t1 & s3 & _ & Ht0 & _ & Hcoupon & Hsettle).
  apply settle_inv in Hsettle as [-> _].
  eexists. split; [reflexivity|].
  apply apply_coupon_inv in Hcoupon
    as [[-> _] | (c & c' & _ & _ & _ & _ & -> & _)];
    unfold Transaction.calculate_totals; simpl; rewrite Ht0; auto.
Qed.

(** The amount tendered decides nothing but the payment columns: a sale
    that raises does so with the same error for every amount, so no
    sale is refused for being underpaid. A settled sale records the
    amount; paid in cash its change is [max(0, tendered - total)], never
    negative; paid otherwise its change is zero. *)
Theorem create_sale_payment
    (employee_id : Z) (cart : list CartLine.t) (payment_method : string)
    (coupon_code customer_phone : option string) (number : string) (now : Z)
    (s : Db) :
  (forall (a1 a2 : Q) e s1,
      TransactionService.create_sale employee_id cart payment_method a1
        coupon_code customer_phone number now s = (inl e, s1) ->
      TransactionService.create_sale employee_id cart payment_method a2
        coupon_code customer_phone number now s = (inl e, s1)) /\
  (forall (a : Q) t s',
      TransactionService.create_sale employee_id cart payment_method a
        coupon_code customer_phone number now s = (inr t, s') ->
      Transaction.amount_tendered t = a /\
      (0 <= Transaction.change_given t)%Q /\
      (payment_method = PaymentMethod.CASH ->
       (a <= Transaction.total t -> Transaction.change_given t == 0)%Q /\
       (Transaction.total t <= a ->
        Transaction.change_given t == a - Transaction.total t)%Q) /\
      (payment_method <> PaymentMethod.CASH ->
       (Transaction.change_given t == 0)%Q)).
Proof.
  split.
  - intros a1 a2 e s1.
    unfold TransactionService.create_sale, atomically,
      TransactionService.create_sale_body, bind.
    destruct (TransactionService.sale_customer customer_phone s)
      as [e0 | [cid s0]]; [trivial|].
    destruct (add_transaction _ _ _ _ _ _ s0) as [e0 | [t0 sb]]; [trivial|].
    destruct (for_each _ cart sb) as [e0 | [u s2]]; [trivial|].
    destruct (TransactionService.apply_coupon t0 coupon_code now s2)
      as [e0 | [t1 s3]]; [trivial|].
    destruct (settle_succeeds t1 a1 now s3) as (ta & sa & ->).
    discriminate.
  - intros a t s' H.
    apply create_sale_payment_fields in H as (ct & -> & Hpm & Hch).
    unfold Transaction.apply_payment. rewrite Hpm.
    destruct (String.eqb payment_method PaymentMethod.CASH) eqn:E; simpl.
    + destruct (py_max_zero (a - Transaction.total ct)) as (H0 & Hle & Hge).
      split; [reflexivity|]. split; [exact H0|]. split.
      * intros _. split; intros Hcmp; [apply Hle | apply Hge]; lra.
      * intros Hne. apply String.eqb_eq in E. contradiction.
    + rewrite Hch. split; [reflexivity|]. split; [apply Qle_refl|]. split.
      * intros Heq. apply String.eqb_neq in E. contradiction.
      * intros _. reflexivity.
Qed.

Lemma create_sale_payment_witness :
  exists t s',
    TransactionService.create_sale 7 Sample.sale_cart PaymentMethod.CASH 20 None None
      Sample.sale_number Sample.T Sample.db = (inr t, s') /\
    In t (transactions s') /\
    (20 < Transaction.total t)%Q /\
    (Transaction.change_given t == 0)%Q.
Proof.
  eexists. eexists. split; [vm_compute; reflexivity|].
  match goal with
  | |- In ?t (transactions ?s') /\ _ =>
      destruct (proj2 (create_sale_payment 7 Sample.sale_cart PaymentMethod.CASH
                         None None Sample.sale_number Sample.T Sample.db)
                  20%Q t s') as (_ & _ & Hcash & _); [vm_compute; reflexivity|]
  end.
  split; [simpl; auto|]. split; [reflexivity|].
  apply (Hcash eq_refl). intro H; discriminate H.
Defined.

(** ** The transactions table and the daily report *)

Lemma replace_row_fresh {A} (pk : A -> Z) (row : A) (l : list A) :
  ~ In (pk row) (map pk l) -> replace_row pk row l = l.
Proof.
  intros Hfresh. unfold replace_row. rewrite <- (map_id l) at 2.
  apply map_ext_in. intros r Hr.
  destruct (pk r =? pk row) eqn:E; [|reflexivity].
  apply Z.eqb_eq in E. exfalso. apply Hfresh. rewrite <- E. now apply in_map.
Qed.

Lemma replace_row_app_new {A} (pk : A -> Z) (row row0 : A) (l : list A) :
  ~ In (pk row) (map pk l) -> pk row0 = pk row ->
  replace_row pk row (l ++ [row0]) = l ++ [row].
Proof.
  intros Hfresh Hpk. unfold replace_row at 1. rewrite map_app.
  fold (replace_row pk row l). rewrite (replace_row_fresh pk row l Hfresh).
  simpl. now rewrite Hpk, Z.eqb_refl.
Qed.

Lemma settled_customer_id t lines get now rate a :
  Transaction.customer_id
    (Transaction.apply_payment (Transaction.calculate_totals t lines get now rate) a)
  = Transaction.customer_id t /\
  Transaction.transaction_type
    (Transaction.apply_payment (Transaction.calculate_totals t lines get now rate) a)
  = Transaction.transaction_type t /\
  Transaction.created_at
    (Transaction.apply_payment (Transaction.calculate_totals t lines get now rate) a)
  = Transaction.created_at t /\
  Transaction.transaction_number
    (Transaction.apply_payment (Transaction.calculate_totals t lines get now rate) a)
  = Transaction.transaction_number t.
Proof.
  unfold Transaction.apply_payment, Transaction.calculate_totals. simpl.
  destruct (String.eqb _ _); simpl; auto.
Qed.

(** A settled sale adds one row to the transactions table, its own: a
    sale dated [now] under the number it was given. *)
Lemma create_sale_appends employee_id cart payment_method amount_tendered coupon_code
    customer_phone number now s t s' :
  TransactionService.create_sale employee_id cart payment_method amount_tendered
    coupon_code customer_phone number now s = (inr t, s') ->
  transactions s' = transactions s ++ [t] /\
  Transaction.transaction_type t = TransactionType.SALE /\
  Transaction.created_at t = now /\
  Transaction.transaction_number t = number /\
  Transaction.id t = next_id (map Transaction.id (transactions s)).
Proof.
  intros H. apply create_sale_inv in H
    as (cid & s0 & t0 & s2 & t1 & s3 & Hcust & Ht0 & Hloop & Hcoupon & Hsettle).
  apply sale_customer_frame in Hcust as (_ & _ & Htr0 & _).
  apply sale_loop_frame in Hloop as (_ & _ & Htr2 & _). simpl in Htr2.
  pose proof (apply_coupon_frame _ _ _ _ _ _ Hcoupon) as (Hid1 & _ & Htr3 & _).
  assert (Hty : Transaction.transaction_type t1 = TransactionType.SALE /\
                Transaction.created_at t1 = now /\
                Transaction.transaction_number t1 = number).
  { apply apply_coupon_inv in Hcoupon
      as [[-> _] | (c & c' & _ & _ & _ & _ & -> & _)]; rewrite Ht0; simpl; auto. }
  destruct (settle_tax t1 amount_tendered now s3 t s') as (_ & Hid & _);
    [rewrite Hid1, Htr3, Htr2, map_app; apply in_or_app; right; simpl; auto
    | exact Hsettle |].
  apply settle_inv in Hsettle as [Ht ->].
  destruct (settled_customer_id t1 (Transaction_items_all s3 (Transaction.id t1))
              (Coupon_query_get s3) now Transaction.default_tax_rate amount_tendered)
    as (_ & Hty' & Hcr' & Hnum').
  rewrite <- Ht in Hty', Hcr', Hnum'. destruct Hty as (Hty & Hcr & Hnum).
  assert (Eid : Transaction.id t = next_id (map Transaction.id (transactions s))).
  { rewrite Hid, Hid1, Ht0, Htr0. reflexivity. }
  split; [|repeat split; congruence].
  simpl. rewrite Htr3, Htr2, Htr0. apply replace_row_app_new.
  - rewrite Eid. apply next_id_fresh.
  - rewrite Hid, Hid1. reflexivity.
Qed.

Lemma day_window (d created : Z) :
  (created >=? d * day) && (created <=? d * day + (day - 1))
  = (created / day =? d).
Proof.
  unfold day.
  pose proof (Z.div_mod created 86400000000 ltac:(lia)) as Hdm.
  pose proof (Z.mod_pos_bound created 86400000000 ltac:(lia)) as Hmod.
  set (q := created / 86400000000) in *.
  set (r := created mod 86400000000) in *.
  destruct (q =? d) eqn:E.
  - apply Z.eqb_eq in E. apply andb_true_iff. split.
    + apply Z.geb_le. lia.
    + apply Z.leb_le. lia.
  - apply Z.eqb_neq in E. apply andb_false_iff.
    destruct (Z_lt_ge_dec created (d * 86400000000)) as [Hlt | Hge].
    + left. rewrite Z.geb_leb. apply Z.leb_gt. lia.
    + right. apply Z.leb_gt. lia.
Qed.

Lemma fold_total_acc (ts : list Transaction.t) : forall acc : Q,
  (fold_left (fun a t => a + Transaction.total t) ts acc
   == acc + sum_of Transaction.total ts)%Q.
Proof.
  induction ts as [|t ts IH]; intros acc; simpl.
  - ring.
  - rewrite IH. ring.
Qed.

Lemma sum_totals_spec kind ts :
  (TransactionService.sum_totals kind ts
   == sum_of Transaction.total (filter kind ts))%Q.
Proof.
  unfold TransactionService.sum_totals. rewrite fold_total_acc. ring.
Qed.

Lemma sum_of_app {A} (f : A -> Q) (l l' : list A) :
  (sum_of f (l ++ l') == sum_of f l + sum_of f l')%Q.
Proof.
  induction l as [|a l IH]; simpl.
  - ring.
  - rewrite IH. ring.
Qed.

(** The three kinds of transaction exclude one another. *)
Lemma kinds_exclusive t :
  (Transaction.is_sale t = true -> Transaction.is_rental t = false /\
                                   Transaction.is_return t = false) /\
  (Transaction.is_rental t = true -> Transaction.is_sale t = false /\
                                     Transaction.is_return t = false) /\
  (Transaction.is_return t = true -> Transaction.is_sale t = false /\
                                     Transaction.is_rental t = false).
Proof.
  unfold Transaction.is_sale, Transaction.is_rental, Transaction.is_return.
  split; [|split]; intros Hk; apply String.eqb_eq in Hk; rewrite Hk;
    split; reflexivity.
Qed.

Lemma sum_by_kind (ts : list Transaction.t) :
  Forall (fun t => Transaction.is_sale t || Transaction.is_rental t
                   || Transaction.is_return t = true) ts ->
  (sum_of Transaction.total (filter Transaction.is_sale ts)
   + sum_of Transaction.total (filter Transaction.is_rental ts)
   + sum_of Transaction.total (filter Transaction.is_return ts)
   == sum_of Transaction.total ts)%Q.
Proof.
  induction 1 as [|t ts Ht _ IH]; simpl; [ring|].
  destruct (kinds_exclusive t) as (Hs & Hr & Hx).
  destruct (Transaction.is_sale t) eqn:Es.
  - destruct (Hs eq_refl) as [-> ->]. simpl. rewrite <- IH. ring.
  - destruct (Transaction.is_rental t) eqn:Er.
    + destruct (Hr eq_refl) as [_ ->]. simpl. rewrite <- IH. ring.
    + simpl in Ht. rewrite Ht. simpl. rewrite <- IH. ring.
Qed.

(** The report of a day counts the transactions created on that day,
    those whose timestamp divided by the length of a day gives the day;
    without a date it is the report of the day of the clock. When every
    transaction of the day is a sale, a rental or a return, the grand
    total is the sum of their totals. *)
Theorem daily_sales_covers_the_day (d now : Z) (s : Db) :
  let of_day := filter (fun t => Transaction.created_at t / day =? d)
                  (transactions s) in
  let r := TransactionService.get_daily_sales (Some d) now s in
  TransactionService.transaction_count r = List.length of_day /\
  (TransactionService.total_sales r
   == sum_of Transaction.total (filter Transaction.is_sale of_day))%Q /\
  TransactionService.get_daily_sales None now s
    = TransactionService.get_daily_sales (Some (now / day)) now s /\
  (Forall (fun t => Transaction.is_sale t || Transaction.is_rental t
                    || Transaction.is_return t = true) of_day ->
   (TransactionService.grand_total r == sum_of Transaction.total of_day)%Q).
Proof.
  cbv zeta. unfold TransactionService.get_daily_sales.
  cbn [TransactionService.transaction_count TransactionService.total_sales
       TransactionService.grand_total].
  rewrite (filter_ext _ (fun t => Transaction.created_at t / day =? d))
    by (intros t; apply day_window).
  split; [reflexivity|]. split; [apply sum_totals_spec|]. split; [reflexivity|].
  intros Hk. rewrite !sum_totals_spec. now apply sum_by_kind.
Qed.

Lemma daily_sales_covers_the_day_witness :
  (TransactionService.grand_total
     (TransactionService.get_daily_sales (Some (Sample.T / day)%Z) 0%Z Sample.db_sold)
   == sum_of Transaction.total
        (filter (fun t => (Transaction.created_at t / day =? Sample.T / day)%Z)
           (transactions Sample.db_sold)))%Q.
Proof.
  destruct (daily_sales_covers_the_day (Sample.T / day) 0 Sample.db_sold)
    as (_ & _ & _ & H).
  apply H. repeat constructor.
Defined.

(** Settling a sale at [now] changes the report of the day of [now] by
    one more transaction and by the total of the sale, under sales and
    in the grand total; the reports of the other days do not change. *)
Theorem create_sale_enters_daily_report
    (employee_id : Z) (cart : list CartLine.t) (payment_method : string)
    (amount_tendered : Q) (coupon_code customer_phone : option string)
    (number : string) (now : Z) (s : Db) (t : Transaction.t) (s' : Db) :
  TransactionService.create_sale employee_id cart payment_method amount_tendered
    coupon_code customer_phone number now s = (inr t, s') ->
  let before := TransactionService.get_daily_sales None now s in
  let after := TransactionService.get_daily_sales None now s' in
  TransactionService.transaction_count after
    = S (TransactionService.transaction_count before) /\
  (TransactionService.total_sales after
   == TransactionService.total_sales before + Transaction.total t)%Q /\
  (TransactionService.total_rentals after
   == TransactionService.total_rentals before)%Q /\
  (TransactionService.total_returns after
   == TransactionService.total_returns before)%Q /\
  (TransactionService.grand_total after
   == TransactionService.grand_total before + Transaction.total t)%Q /\
  (forall d clock, d <> now / day ->
      TransactionService.get_daily_sales (Some d) clock s'
      = TransactionService.get_daily_sales (Some d) clock s).
Proof.
  intros H. apply create_sale_appends in H as (Htr & Hty & Hcr & _).
  assert (Hs : Transaction.is_sale t = true)
    by (unfold Transaction.is_sale; rewrite Hty; reflexivity).
  destruct (kinds_exclusive t) as (Hex & _). destruct (Hex Hs) as [Hr Hx].
  cbv zeta. unfold TransactionService.get_daily_sales.
  cbn [TransactionService.transaction_count TransactionService.total_sales
       TransactionService.total_rentals TransactionService.total_returns
       TransactionService.grand_total].
  rewrite Htr.
  assert (Hwin : forall d,
             filter (fun x => (Transaction.created_at x >=? d * day)
                              && (Transaction.created_at x <=? d * day + (day - 1)))
               (transactions s ++ [t])
             = filter (fun x => (Transaction.created_at x >=? d * day)
                                && (Transaction.created_at x <=? d * day + (day - 1)))
                 (transactions s)
               ++ (if now / day =? d then [t] else [])).
  { intros d. rewrite filter_app. simpl. now rewrite day_window, Hcr. }
  split; [|split; [|split; [|split; [|split]]]].
  - rewrite Hwin, Z.eqb_refl, length_app. simpl. lia.
  - rewrite Hwin, Z.eqb_refl, !sum_totals_spec, filter_app, sum_of_app. simpl.
    rewrite Hs. simpl. ring.
  - rewrite Hwin, Z.eqb_refl, !sum_totals_spec, filter_app, sum_of_app. simpl.
    rewrite Hr. simpl. ring.
  - rewrite Hwin, Z.eqb_refl, !sum_totals_spec, filter_app, sum_of_app. simpl.
    rewrite Hx. simpl. ring.
  - rewrite Hwin, Z.eqb_refl, !sum_totals_spec, !filter_app, !sum_of_app. simpl.
    rewrite Hs, Hr, Hx. simpl. ring.
  - intros d clock Hd. rewrite Hwin.
    assert (E : (now / day =? d) = false) by (apply Z.eqb_neq; congruence).
    rewrite E, app_nil_r. reflexivity.
Qed.

Lemma create_sale_enters_daily_report_witness :
  TransactionService.transaction_count
    (TransactionService.get_daily_sales None Sample.T Sample.db_sold) = 1%nat /\
  (TransactionService.grand_total
     (TransactionService.get_daily_sales None Sample.T Sample.db_sold)
   == 53.946)%Q.
Proof.
  destruct (create_sale_enters_daily_report 7 Sample.sale_cart PaymentMethod.CASH 60
              None None Sample.sale_number Sample.T Sample.db
              Sample.sale_transaction Sample.db_sold)
    as (Hn & _ & _ & _ & Hg & _); [vm_compute; reflexivity|].
  split; [exact Hn|]. rewrite Hg. reflexivity.
Defined.

(** ** The customer of a settlement *)

Lemma create_sale_customers employee_id cart payment_method amount_tendered coupon_code
    customer_phone number now s t s' :
  TransactionService.create_sale employee_id cart payment_method amount_tendered
    coupon_code customer_phone number now s = (inr t, s') ->
  exists cid s0,
    TransactionService.sale_customer customer_phone s = inr (cid, s0) /\
    Transaction.customer_id t = cid /\
    customers s' = customers s0.
Proof.
  intros H. apply create_sale_inv in H
    as (cid & s0 & t0 & s2 & t1 & s3 & Hcust & Ht0 & Hloop & Hcoupon & Hsettle).
  exists cid, s0. split; [exact Hcust|].
  apply sale_loop_frame in Hloop as (Hc2 & _). simpl in Hc2.
  apply settle_inv in Hsettle as [-> ->].
  destruct (settled_customer_id t1 (Transaction_items_all s3 (Transaction.id t1))
              (Coupon_query_get s3) now Transaction.default_tax_rate amount_tendered)
    as (-> & _).
  apply apply_coupon_inv in Hcoupon
    as [[-> ->] | (c & c' & _ & _ & _ & _ & -> & ->)]; simpl; rewrite Ht0; auto.
Qed.

(** The customer of a sale. Without a phone the sale is anonymous. A
    phone on file links the sale to its customer. A phone not yet on
    file creates the customer, but the sale itself is stored without a
    customer: the transaction is built before the new row has its id. *)
Theorem create_sale_customer_link
    (employee_id : Z) (cart : list CartLine.t) (payment_method : string)
    (amount_tendered : Q) (coupon_code customer_phone : option string)
    (number : string) (now : Z) (s : Db) (t : Transaction.t) (s' : Db) :
  TransactionService.create_sale employee_id cart payment_method amount_tendered
    coupon_code customer_phone number now s = (inr t, s') ->
  (truthy_str customer_phone = false ->
   Transaction.customer_id t = None /\ customers s' = customers s) /\
  (forall phone c,
      customer_phone = Some phone -> phone <> EmptyString ->
      Customer_by_phone s phone = Some c ->
      Transaction.customer_id t = Some (Customer.id c) /\
      customers s' = customers s) /\
  (forall phone,
      customer_phone = Some phone -> phone <> EmptyString ->
      Customer_by_phone s phone = None ->
      Transaction.customer_id t = None /\
      customers s'
        = customers s ++ [Customer.mk (next_id (map Customer.id (customers s))) phone] /\
      Customer_by_phone s' phone
        = Some (Customer.mk (next_id (map Customer.id (customers s))) phone) /\
      (forall c, Customer_by_phone s' phone = Some c ->
                 ~ In t (filter (fun x => match Transaction.customer_id x with
                                          | Some k => k =? Customer.id c
                                          | None => false
                                          end) (transactions s')))).
Proof.
  intros H. apply create_sale_customers in H as (cid & s0 & Hcust & Hcid & Hcs).
  unfold TransactionService.sale_customer in Hcust.
  split; [|split].
  - intros Hf. rewrite Hf in Hcust. apply ret_inr in Hcust as [-> ->]. auto.
  - intros phone c -> Hne Hc. simpl in Hcust.
    apply String.eqb_neq in Hne. rewrite Hne in Hcust. simpl in Hcust.
    unfold bind, gets in Hcust. rewrite Hc in Hcust.
    apply ret_inr in Hcust as [-> ->]. auto.
  - intros phone -> Hne Hc. simpl in Hcust.
    apply String.eqb_neq in Hne. rewrite Hne in Hcust. simpl in Hcust.
    unfold bind, gets in Hcust. rewrite Hc in Hcust.
    unfold add_customer, ret in Hcust. injection Hcust as Ecid Es0.
    rewrite <- Ecid in Hcid. rewrite <- Es0 in Hcs. simpl in Hcs.
    assert (Hfound : Customer_by_phone s' phone
                     = Some (Customer.mk (next_id (map Customer.id (customers s))) phone)).
    { unfold Customer_by_phone in *. rewrite Hcs, (find_app_none _ _ _ Hc). simpl.
      now rewrite String.eqb_refl. }
    split; [exact Hcid|]. split; [exact Hcs|]. split; [exact Hfound|].
    intros c _ Hin. apply filter_In in Hin as [_ Hin]. now rewrite Hcid in Hin.
Qed.

Lemma create_sale_customer_link_witness :
  exists t s',
    TransactionService.create_sale 7 Sample.sale_cart PaymentMethod.CASH 60 None
      (Some "5550000001"%string) Sample.sale_number Sample.T Sample.db = (inr t, s') /\
    Customer_by_phone s' "5550000001" = Some (Customer.mk 2 "5550000001") /\
    Transaction.customer_id t = None.
Proof.
  eexists. eexists. split; [vm_compute; reflexivity|].
  match goal with
  | |- Customer_by_phone ?s' _ = _ /\ Transaction.customer_id ?t = _ =>
      destruct (create_sale_customer_link 7 Sample.sale_cart PaymentMethod.CASH 60
                  None (Some "5550000001"%string) Sample.sale_number Sample.T
                  Sample.db t s') as (_ & _ & Hnew); [vm_compute; reflexivity|]
  end.
  destruct (Hnew "5550000001"%string eq_refl) as (Hid & _ & Hfound & _);
    [discriminate | reflexivity |].
  split; [exact Hfound | exact Hid].
Defined.

(** ** Rentals through the engine *)

Lemma set_stock_item_type pk q r : Item.item_type (set_stock pk q r) = Item.item_type r.
Proof. unfold set_stock. now destruct (Item.id r =? pk). Qed.

Lemma rental_line_items tid cid days now l s u s' :
  items_pk_unique s ->
  TransactionService.rental_line tid cid days now l s = inr (u, s') ->
  exists item,
    InventoryService.get_item_by_id s (CartLine.item_id l) = Some item /\
    In item (items s) /\
    Item.item_type item = ItemType.RENTAL /\
    0 <= CartLine.quantity l <= Item.quantity item /\
    items s' = map (set_stock (Item.id item)
                      (Item.quantity item - CartLine.quantity l)) (items s).
Proof.
  intros Hnd H. apply rental_line_inv in H as (item & Hget & Hty & Hq & ->).
  exists item. pose proof Hget as Hin. apply find_some in Hin as [Hin _].
  repeat split; try assumption; try lia. simpl.
  now apply replace_row_set_stock.
Qed.

Lemma unrentable_mono s s1 item q l :
  items_pk_unique s -> In item (items s) -> q <= Item.quantity item ->
  items s1 = map (set_stock (Item.id item) q) (items s) ->
  unrentable s l -> unrentable s1 l.
Proof.
  intros Hnd Hin Hq Hitems. unfold unrentable.
  rewrite (get_item_stable s s1 _ _ Hitems).
  destruct (InventoryService.get_item_by_id s (CartLine.item_id l)) as [r|] eqn:E;
    simpl; [|trivial].
  rewrite set_stock_item_type. intros [Hty | Hlt]; [now left|]. right.
  apply find_some in E as [Hr _]. unfold set_stock.
  destruct (Item.id r =? Item.id item) eqn:Eid; [|assumption].
  apply Z.eqb_eq in Eid. rewrite (pk_inj Item.id _ r item Hnd Hr Hin Eid) in *.
  simpl. lia.
Qed.

Lemma rental_loop_rentable tid cid days now cart : forall s u s',
  items_pk_unique s ->
  for_each (TransactionService.rental_line tid cid days now) cart s = inr (u, s') ->
  Forall (fun l => ~ unrentable s l) cart.
Proof.
  induction cart as [|l cart IH]; intros s u s' Hnd H; [constructor|].
  simpl in H. split_bind H.
  destruct (rental_line_items _ _ _ _ _ _ _ _ Hnd Hstep)
    as (item & Hget & Hin & Hty & Hq & Hitems).
  constructor.
  - unfold unrentable. rewrite Hget. intros [Hne | Hlt]; [contradiction | lia].
  - pose proof (pk_unique_stable _ _ _ _ Hitems Hnd) as Hnd1.
    specialize (IH _ _ _ Hnd1 H).
    eapply Forall_impl; [|exact IH]. intros l' Hl' Hbad. apply Hl'.
    eapply (unrentable_mono s _ item _ l' Hnd Hin); [|exact Hitems|exact Hbad].
    lia.
Qed.

(** A rental is settled as a whole or not at all: without a customer
    phone, or when some line of the cart names a missing item, an item
    that is not a rental item, or more units than the item has,
    [create_rental] raises a [TransactionError] and leaves the database
    as it was: no customer created, no stock taken, no rental stored. *)
Theorem create_rental_rolls_back
    (employee_id : Z) (customer_phone : option string) (cart : list CartLine.t)
    (rental_days : Z) (payment_method : string) (amount_tendered : Q)
    (number : string) (now : Z) (s : Db) :
  items_pk_unique s ->
  truthy_str customer_phone = false \/ Exists (unrentable s) cart ->
  exists m,
    TransactionService.create_rental employee_id customer_phone cart rental_days
      payment_method amount_tendered number now s = (inl (TransactionError m), s) /\
    (truthy_str customer_phone = false -> m = CustomerPhoneRequired).
Proof.
  intros Hnd Hbad. unfold TransactionService.create_rental.
  destruct (truthy_str customer_phone) eqn:Etr; simpl.
  2:{ exists CustomerPhoneRequired. auto. }
  destruct Hbad as [Hf | Hbad]; [discriminate|].
  destruct customer_phone as [phone|]; [|discriminate].
  unfold atomically.
  destruct (TransactionService.create_rental_body _ _ _ _ _ _ _ _ s)
    as [e | [t s']] eqn:Hbody.
  - exists (str e). split; [reflexivity | discriminate].
  - exfalso. unfold TransactionService.create_rental_body in Hbody.
    split_bind Hbody. apply rental_customer_frame in Hstep as (Hi & _).
    split_bind Hbody. apply add_transaction_inv in Hstep as [_ ->].
    split_bind Hbody.
    apply rental_loop_rentable in Hstep;
      [|unfold items_pk_unique; simpl; rewrite Hi; exact Hnd].
    apply Exists_exists in Hbad as (l & Hl & Hbad).
    rewrite Forall_forall in Hstep. apply (Hstep l Hl).
    unfold unrentable, InventoryService.get_item_by_id in *. simpl.
    now rewrite Hi.
Qed.

Lemma create_rental_rolls_back_witness :
  exists m,
    TransactionService.create_rental 7 (Some "5551234567"%string)
      [CartLine.mk "RNT001" 1; CartLine.mk "SAL001" 1] 7 PaymentMethod.CASH 100
      "TXN20240101120000777" Sample.T Sample.db
    = (inl (TransactionError m), Sample.db) /\
    (truthy_str (Some "5551234567"%string) = false -> m = CustomerPhoneRequired).
Proof.
  apply (create_rental_rolls_back 7 (Some "5551234567"%string)
           [CartLine.mk "RNT001" 1; CartLine.mk "SAL001" 1] 7 PaymentMethod.CASH 100
           "TXN20240101120000777" Sample.T Sample.db).
  - unfold items_pk_unique. simpl.
    repeat constructor; simpl; intuition discriminate.
  - right. apply Exists_cons_tl, Exists_cons_hd. unfold unrentable. simpl.
    left. discriminate.
Defined.

Lemma rented_stable s s1 pk q tid cid days now l r :
  items s1 = map (set_stock pk q) (items s) ->
  rented s1 tid cid days now l r -> rented s tid cid days now l r.
Proof.
  intros Hitems. unfold rented.
  now rewrite (resolve_stable s s1 pk q Hitems), (price_of_stable s s1 pk q Hitems).
Qed.

(** The loop of [create_rental] over a cart: the stock of every item
    goes down by the units rented of it; one line item and one rental
    are stored per cart line, in order. *)
Lemma rental_loop_inv tid cid days now cart : forall s u s',
  items_pk_unique s ->
  for_each (TransactionService.rental_line tid cid days now) cart s = inr (u, s') ->
  items s' = map (fun r => Item.set_quantity r
                    (Item.quantity r - units_of s cart (Item.id r))) (items s) /\
  (exists new,
      transaction_items s' = transaction_items s ++ new /\
      Forall2 (snapshot s tid) cart new) /\
  (exists newr,
      rentals s' = rentals s ++ newr /\
      Forall2 (rented s tid cid days now) cart newr).
Proof.
  induction cart as [|l cart IH]; intros s u s' Hnd H.
  - apply ret_inr in H as [_ ->]. split; [|split].
    + rewrite <- (map_id (items s)) at 1. apply map_ext. intros r. simpl.
      now rewrite Z.sub_0_r, set_quantity_same.
    + exists []. rewrite app_nil_r. split; [reflexivity | constructor].
    + exists []. rewrite app_nil_r. split; [reflexivity | constructor].
  - simpl in H. split_bind H.
    destruct (rental_line_items _ _ _ _ _ _ _ _ Hnd Hstep)
      as (item & Hget & Hin & _ & Hq & Hitems).
    pose proof (pk_unique_stable _ _ _ _ Hitems Hnd) as Hnd1.
    destruct (IH _ _ _ Hnd1 H) as (Hi & (new & Hnew & Hsnap) & (newr & Hnewr & Hrent)).
    apply rental_line_inv in Hstep as (item' & Hget' & _ & _ & Hs0).
    rewrite Hget in Hget'. inversion Hget'; subst item'; clear Hget'.
    assert (Hres : resolve s l = Some (Item.id item))
      by (unfold resolve; now rewrite Hget).
    assert (Hprice : price_of s l = Item.price item)
      by (unfold price_of; now rewrite Hget).
    rewrite Hs0 in Hnew, Hnewr. simpl in Hnew, Hnewr.
    split; [|split].
    + rewrite Hi, Hitems, map_map. apply map_ext_in. intros r Hr'.
      rewrite set_stock_id, (units_of_stable s _ _ _ Hitems). simpl units_of.
      rewrite Hres. unfold set_stock.
      destruct (Item.id r =? Item.id item) eqn:E.
      * apply Z.eqb_eq in E.
        rewrite (pk_inj Item.id _ r item Hnd Hr' Hin E), Z.eqb_refl.
        unfold Item.set_quantity. simpl. f_equal; lia.
      * rewrite Z.eqb_sym, E. f_equal; lia.
    + eexists (_ :: new). split.
      * rewrite Hnew, <- app_assoc. reflexivity.
      * constructor.
        -- unfold snapshot. simpl. auto.
        -- eapply Forall2_impl; [|exact Hsnap]. intros l' ti'.
           apply (snapshot_stable _ _ _ _ _ _ _ Hitems).
    + eexists (_ :: newr). split.
      * rewrite Hnewr, <- app_assoc. reflexivity.
      * constructor.
        -- unfold rented, Rental.init. simpl. auto 12.
        -- eapply Forall2_impl; [|exact Hrent]. intros l' r'.
           apply (rented_stable _ _ _ _ _ _ _ _ _ _ Hitems).
Qed.

(** ** The tax of a settlement *)

(** What [settle] stores, on a transaction that has no discount yet: the
    subtotal is the sum of the stored lines of the transaction, the
    discount is zero or the percentage of a valid coupon, and the tax
    is 0.08 times the discounted subtotal. *)
Lemma settle_totals t1 tendered now s3 t s' :
  In (Transaction.id t1) (map Transaction.id (transactions s3)) ->
  Transaction.discount_amount t1 = 0%Q ->
  TransactionService.settle t1 tendered now s3 = inr (t, s') ->
  In t (transactions s') /\
  Transaction.id t = Transaction.id t1 /\
  Transaction.coupon_id t = Transaction.coupon_id t1 /\
  Transaction_items_all s' (Transaction.id t)
  = Transaction_items_all s3 (Transaction.id t1) /\
  Transaction.subtotal t
  = Transaction.sum_lines (Transaction_items_all s' (Transaction.id t)) /\
  ((Transaction.discount_amount t == 0)%Q \/
   exists c,
     Transaction.coupon_id t = Some (Coupon.id c) /\
     Coupon_query_get s' (Coupon.id c) = Some c /\
     Coupon.is_valid c now = true /\
     (Transaction.discount_amount t
      == Transaction.subtotal t * (Coupon.discount_percent c / 100))%Q) /\
  (Transaction.coupon_id t1 = None -> (Transaction.discount_amount t == 0)%Q) /\
  (Transaction.tax_amount t
   == 0.08 * (Transaction.subtotal t - Transaction.discount_amount t))%Q /\
  (Transaction.total t
   == Transaction.subtotal t - Transaction.discount_amount t
      + Transaction.tax_amount t)%Q.
Proof.
  intros Hin Hd0 H.
  destruct (settle_tax t1 tendered now s3 t s' Hin H) as (Hint & Hid & Htax & Htot).
  apply settle_inv in H as [Hfin ->].
  destruct (calculate_totals_fields t1 (Transaction_items_all s3 (Transaction.id t1))
              (Coupon_query_get s3) now Transaction.default_tax_rate)
    as (_ & Hcid & Hsub & _).
  set (c := Transaction.calculate_totals t1 _ _ _ _) in *.
  destruct (apply_payment_fields c tendered) as (_ & Pc & Ps & Pd & _).
  cbv zeta in *. rewrite <- Hfin in Pc, Ps, Pd.
  assert (Hall : Transaction_items_all (save_transaction t s3) (Transaction.id t)
                 = Transaction_items_all s3 (Transaction.id t1))
    by (rewrite Hid; reflexivity).
  assert (Hdisc : Transaction.discount_amount c = 0%Q \/
                  exists k, Transaction.coupon_id t1 = Some (Coupon.id k) /\
                            Coupon_query_get s3 (Coupon.id k) = Some k /\
                            Coupon.is_valid k now = true /\
                            Transaction.discount_amount c
                            = (Transaction.sum_lines
                                 (Transaction_items_all s3 (Transaction.id t1))
                               * (Coupon.discount_percent k / 100))%Q).
  { unfold c, Transaction.calculate_totals. simpl.
    destruct (truthy_int (Transaction.coupon_id t1)); [|now left].
    destruct (Transaction.coupon_id t1) as [cid|]; [|now left].
    destruct (Coupon_query_get s3 cid) as [k|] eqn:Ek; [|now left].
    destruct (Coupon.is_valid k now) eqn:Ev; [|now left].
    right. exists k.
    assert (Ecid : Coupon.id k = cid).
    { unfold Coupon_query_get in Ek. apply find_some in Ek as [_ Ek].
      now apply Z.eqb_eq. }
    rewrite Ecid. auto. }
  split; [exact Hint|]. split; [exact Hid|].
  split; [rewrite Pc, Hcid; reflexivity|].
  split; [exact Hall|].
  split; [rewrite Hall, Ps, Hsub; reflexivity|].
  split.
  { destruct Hdisc as [E | (k & Ek & Hget & Hv & E)].
    - left. rewrite Pd, E. reflexivity.
    - right. exists k. split; [rewrite Pc, Hcid; exact Ek|].
      split; [exact Hget|]. split; [exact Hv|].
      rewrite Pd, Ps, Hsub, E. reflexivity. }
  split.
  { intros Hnone. rewrite Pd. unfold c, Transaction.calculate_totals.
    rewrite Hnone. simpl. rewrite Hd0. reflexivity. }
  split; [exact Htax | exact Htot].
Qed.

(** C9. Every transaction that [create_sale] or [create_rental] settles
    is stored with a tax of 0.08 times the discounted subtotal, for all
    arguments of the two operations: none of them carries a tax rate,
    and [calculate_totals] is called with its default. The amounts the
    tax is taken of are those of the settlement: the subtotal is the sum
    of quantity times unit price over the stored lines of the
    transaction, which in a database with unique item keys and owned
    lines is the total of the cart at the prices of the items; the
    discount is zero, or the percentage of the valid coupon attached to
    the transaction, and zero for every rental; and the total is the
    discounted subtotal plus the tax. *)
Theorem engine_tax_is_eight_percent
    (employee_id : Z) (cart : list CartLine.t) (payment_method : string)
    (amount_tendered : Q) (number : string) (now : Z)
    (s : Db) (t : Transaction.t) (s' : Db) :
  (exists coupon_code customer_phone,
      TransactionService.create_sale employee_id cart payment_method
        amount_tendered coupon_code customer_phone number now s = (inr t, s')) \/
  (exists customer_phone rental_days,
      TransactionService.create_rental employee_id customer_phone cart rental_days
        payment_method amount_tendered number now s = (inr t, s')) ->
  In t (transactions s') /\
  Transaction.subtotal t
  = Transaction.sum_lines (Transaction_items_all s' (Transaction.id t)) /\
  (items_pk_unique s -> lines_owned s ->
   (Transaction.subtotal t == cart_total s cart)%Q) /\
  ((Transaction.discount_amount t == 0)%Q \/
   exists c,
     Transaction.coupon_id t = Some (Coupon.id c) /\
     Coupon_query_get s' (Coupon.id c) = Some c /\
     Coupon.is_valid c now = true /\
     (Transaction.discount_amount t
      == Transaction.subtotal t * (Coupon.discount_percent c / 100))%Q) /\
  (Transaction.transaction_type t = TransactionType.RENTAL ->
   (Transaction.discount_amount t == 0)%Q) /\
  (Transaction.tax_amount t
   == 0.08 * (Transaction.subtotal t - Transaction.discount_amount t))%Q /\
  (Transaction.total t
   == Transaction.subtotal t - Transaction.discount_amount t
      + Transaction.tax_amount t)%Q.
Proof.
  intros [(coupon_code & customer_phone & H) | (customer_phone & rental_days & H)].
  - pose proof (create_sale_appends _ _ _ _ _ _ _ _ _ _ _ H) as (_ & Hty & _).
    apply create_sale_inv in H
      as (cid & s0 & t0 & s2 & t1 & s3 & Hcust & Ht0 & Hloop & Hcoupon & Hsettle).
    apply sale_customer_frame in Hcust as (Hi & _ & Htr & Hti & _).
    set (s1 := mkDb (items s0) (customers s0) (coupons s0) (transactions s0 ++ [t0])
                 (transaction_items s0) (rentals s0)) in *.
    pose proof (sale_loop_frame _ _ _ _ _ Hloop) as (_ & _ & Htr2 & _).
    pose proof (apply_coupon_frame _ _ _ _ _ _ Hcoupon) as (Hid1 & _ & Htr3 & Hti3 & _).
    assert (Hd1 : Transaction.discount_amount t1 = 0%Q).
    { apply apply_coupon_inv in Hcoupon
        as [[-> _] | (k & k' & _ & _ & _ & _ & -> & _)]; rewrite Ht0; reflexivity. }
    assert (Hin1 : In (Transaction.id t1) (map Transaction.id (transactions s3))).
    { rewrite Hid1, Htr3, Htr2. simpl. rewrite map_app. apply in_or_app. right.
      left. reflexivity. }
    destruct (settle_totals t1 amount_tendered now s3 t s' Hin1 Hd1 Hsettle)
      as (Hint & Hid & _ & Hall & Hsub & Hdisc & _ & Htax & Htot).
    split; [exact Hint|]. split; [exact Hsub|]. split; [|split; [exact Hdisc|split]].
    + intros Hnd Hown.
      apply sale_loop_inv in Hloop;
        [|unfold items_pk_unique, s1; simpl; now rewrite Hi].
      destruct Hloop as (_ & _ & _ & _ & _ & new & Hnew & Hsnap).
      simpl in Hnew.
      destruct (same_items s1 s Hi) as (_ & _ & _ & _ & Hsn).
      set (tid := Transaction.id t0) in *.
      assert (Etid : tid = next_id (map Transaction.id (transactions s)))
        by (unfold tid; rewrite Ht0, Htr; reflexivity).
      assert (Hsnap' : Forall2 (snapshot s tid) cart new).
      { eapply Forall2_impl; [|exact Hsnap]. intros l ti. apply Hsn. }
      assert (Hall2 : Transaction_items_all s3 tid = new).
      { apply (items_all_fresh s s3 tid new Hown).
        - rewrite Etid. apply next_id_fresh.
        - now rewrite Hti3, Hnew, Hti.
        - clear - Hsnap'.
          induction Hsnap' as [|? ? ? ? (E & _) _ IH]; constructor; auto. }
      rewrite Hsub, Hall, Hid1, Hall2.
      now apply sum_lines_snapshot with (tid := tid).
    + intros Hrent. rewrite Hty in Hrent. discriminate.
    + split; [exact Htax | exact Htot].
  - apply create_rental_inv in H
      as (phone & customer & s0 & t0 & s2 & _ & Hcust & Ht0 & Hloop & Hsettle).
    apply rental_customer_frame in Hcust as (Hi & _ & Htr & Hti & _).
    set (s1 := mkDb (items s0) (customers s0) (coupons s0) (transactions s0 ++ [t0])
                 (transaction_items s0) (rentals s0)) in *.
    pose proof (rental_loop_frame _ _ _ _ _ _ _ _ Hloop) as (_ & _ & Htr2 & _).
    assert (Hd0 : Transaction.discount_amount t0 = 0%Q) by (rewrite Ht0; reflexivity).
    assert (Hc0 : Transaction.coupon_id t0 = None) by (rewrite Ht0; reflexivity).
    assert (Hin0 : In (Transaction.id t0) (map Transaction.id (transactions s2))).
    { rewrite Htr2. simpl. rewrite map_app. apply in_or_app. right.
      left. reflexivity. }
    destruct (settle_totals t0 amount_tendered now s2 t s' Hin0 Hd0 Hsettle)
      as (Hint & Hid & _ & Hall & Hsub & Hdisc & Hnone & Htax & Htot).
    split; [exact Hint|]. split; [exact Hsub|]. split; [|split; [exact Hdisc|split]].
    + intros Hnd Hown.
      apply rental_loop_inv in Hloop;
        [|unfold items_pk_unique, s1; simpl; now rewrite Hi].
      destruct Hloop as (_ & (new & Hnew & Hsnap) & _).
      simpl in Hnew.
      destruct (same_items s1 s Hi) as (_ & _ & _ & _ & Hsn).
      set (tid := Transaction.id t0) in *.
      assert (Etid : tid = next_id (map Transaction.id (transactions s)))
        by (unfold tid; rewrite Ht0, Htr; reflexivity).
      assert (Hsnap' : Forall2 (snapshot s tid) cart new).
      { eapply Forall2_impl; [|exact Hsnap]. intros l ti. apply Hsn. }
      assert (Hall2 : Transaction_items_all s2 tid = new).
      { apply (items_all_fresh s s2 tid new Hown).
        - rewrite Etid. apply next_id_fresh.
        - now rewrite Hnew, Hti.
        - clear - Hsnap'.
          induction Hsnap' as [|? ? ? ? (E & _) _ IH]; constructor; auto. }
      rewrite Hsub, Hall, Hall2.
      now apply sum_lines_snapshot with (tid := tid).
    + intros _. exact (Hnone Hc0).
    + split; [exact Htax | exact Htot].
Qed.

Lemma engine_tax_is_eight_percent_witness :
  ((Transaction.subtotal Sample.sale_transaction == 49.95)%Q /\
   (Transaction.discount_amount Sample.sale_transaction == 0)%Q /\
   (Transaction.tax_amount Sample.sale_transaction == 0.08 * (49.95 - 0))%Q /\
   (Transaction.tax_amount Sample.sale_transaction == 3.996)%Q /\
   (Transaction.total Sample.sale_transaction == 53.946)%Q) /\
  ((Transaction.subtotal Sample.coupon_sale_transaction == 49.95)%Q /\
   (Transaction.discount_amount Sample.coupon_sale_transaction == 4.995)%Q /\
   (Transaction.tax_amount Sample.coupon_sale_transaction
    == 0.08 * (49.95 - 4.995))%Q /\
   (Transaction.tax_amount Sample.coupon_sale_transaction == 3.5964)%Q /\
   (Transaction.total Sample.coupon_sale_transaction == 48.5514)%Q) /\
  ((Transaction.subtotal Sample.rent_transaction == 45)%Q /\
   (Transaction.discount_amount Sample.rent_transaction == 0)%Q /\
   (Transaction.tax_amount Sample.rent_transaction == 0.08 * (45 - 0))%Q /\
   (Transaction.tax_amount Sample.rent_transaction == 3.6)%Q /\
   (Transaction.total Sample.rent_transaction == 48.6)%Q).
Proof.
  assert (Hnd : items_pk_unique Sample.db).
  { unfold items_pk_unique. simpl.
    repeat constructor; simpl; intuition discriminate. }
  assert (Hown : lines_owned Sample.db).
  { intros ti Hti. simpl in Hti. contradiction. }
  split; [|split].
  - destruct (engine_tax_is_eight_percent 7 Sample.sale_cart PaymentMethod.CASH 60
                Sample.sale_number Sample.T Sample.db Sample.sale_transaction
                Sample.db_sold)
      as (_ & _ & Hcart & _ & _ & Htax & Htot).
    { left. exists None, None. vm_compute. reflexivity. }
    assert (Hsub : (Transaction.subtotal Sample.sale_transaction == 49.95)%Q)
      by (rewrite (Hcart Hnd Hown); reflexivity).
    assert (Hd : (Transaction.discount_amount Sample.sale_transaction == 0)%Q)
      by reflexivity.
    split; [exact Hsub|]. split; [exact Hd|].
    split; [rewrite Htax, Hsub, Hd; reflexivity|].
    split; [rewrite Htax, Hsub, Hd; reflexivity|].
    rewrite Htot, Htax, Hsub, Hd. reflexivity.
  - destruct (engine_tax_is_eight_percent 7 Sample.sale_cart PaymentMethod.CASH 60
                Sample.sale_number Sample.T Sample.db Sample.coupon_sale_transaction
                Sample.db_coupon_sold)
      as (_ & _ & Hcart & Hdisc & _ & Htax & Htot).
    { left. exists (Some "SAVE10"%string), None. vm_compute. reflexivity. }
    assert (Hsub : (Transaction.subtotal Sample.coupon_sale_transaction == 49.95)%Q)
      by (rewrite (Hcart Hnd Hown); reflexivity).
    assert (Hd : (Transaction.discount_amount Sample.coupon_sale_transaction
                  == 4.995)%Q).
    { destruct Hdisc as [E | (c & Hc & Hget & _ & E)]; [discriminate E|].
      rewrite E, Hsub.
      assert (Ec : c = Coupon.use Sample.SAVE10).
      { injection Hc as Hc. rewrite <- Hc in Hget. vm_compute in Hget.
        now injection Hget. }
      rewrite Ec. reflexivity. }
    split; [exact Hsub|]. split; [exact Hd|].
    split; [rewrite Htax, Hsub, Hd; reflexivity|].
    split; [rewrite Htax, Hsub, Hd; reflexivity|].
    rewrite Htot, Htax, Hsub, Hd. reflexivity.
  - destruct (engine_tax_is_eight_percent 7 Sample.rental_cart PaymentMethod.CASH 100
                Sample.rental_number Sample.T Sample.db Sample.rent_transaction
                Sample.db_rent)
      as (_ & _ & Hcart & _ & Hrent & Htax & Htot).
    { right. exists (Some "5559990000"%string), 7. vm_compute. reflexivity. }
    assert (Hsub : (Transaction.subtotal Sample.rent_transaction == 45)%Q)
      by (rewrite (Hcart Hnd Hown); reflexivity).
    assert (Hd : (Transaction.discount_amount Sample.rent_transaction == 0)%Q)
      by (apply Hrent; reflexivity).
    split; [exact Hsub|]. split; [exact Hd|].
    split; [rewrite Htax, Hsub, Hd; reflexivity|].
    split; [rewrite Htax, Hsub, Hd; reflexivity|].
    rewrite Htot, Htax, Hsub, Hd. reflexivity.
Defined.

Lemma rental_customer_found phone s c s0 :
  TransactionService.rental_customer phone s = inr (c, s0) ->
  Customer_by_phone s0 phone = Some c /\
  (Customer_by_phone s phone = Some c /\ customers s0 = customers s \/
   Customer_by_phone s phone = None /\ customers s0 = customers s ++ [c] /\
   c = Customer.mk (next_id (map Customer.id (customers s))) phone).
Proof.
  unfold TransactionService.rental_customer. intros H.
  split_bind H. apply gets_inr in Hstep as [-> ->].
  destruct (Customer_by_phone s phone) as [c0|] eqn:E.
  - apply ret_inr in H as [-> ->]. auto.
  - apply add_customer_inv in H as [-> ->]. split.
    + unfold Customer_by_phone in *. simpl. rewrite (find_app_none _ _ _ E). simpl.
      now rewrite String.eqb_refl.
    + right. auto.
Qed.

(** What a settled rental stores: a rental transaction without discount
    for a customer that is on file under the phone, created if need be;
    for every cart line, in order, a rental of the line's quantity at
    the item's price, made at [now], due [rental_days] days later, not
    returned and without fee; every item of the cart is a rental item,
    and the stock of every item is down by the units rented. *)
Theorem create_rental_records
    (employee_id : Z) (customer_phone : option string) (cart : list CartLine.t)
    (rental_days : Z) (payment_method : string) (amount_tendered : Q)
    (number : string) (now : Z) (s : Db) (t : Transaction.t) (s' : Db) :
  items_pk_unique s ->
  lines_owned s ->
  TransactionService.create_rental employee_id customer_phone cart rental_days
    payment_method amount_tendered number now s = (inr t, s') ->
  exists phone customer newr,
    customer_phone = Some phone /\
    Customer_by_phone s' phone = Some customer /\
    Transaction.customer_id t = Some (Customer.id customer) /\
    Transaction.transaction_type t = TransactionType.RENTAL /\
    rentals s' = rentals s ++ newr /\
    Forall2 (rented s (Transaction.id t) (Customer.id customer) rental_days now)
      cart newr /\
    Forall (fun l => ~ unrentable s l) cart /\
    (Transaction.subtotal t == cart_total s cart)%Q /\
    (Transaction.discount_amount t == 0)%Q /\
    items s' = map (fun r => Item.set_quantity r
                      (Item.quantity r - units_of s cart (Item.id r))) (items s).
Proof.
  intros Hnd Hown H.
  apply create_rental_inv in H
    as (phone & customer & s0 & t0 & s2 & -> & Hcust & Ht0 & Hloop & Hsettle).
  pose proof (rental_customer_frame _ _ _ _ Hcust) as (Hi & _ & Htr & Hti & Hre).
  apply rental_customer_found in Hcust as [Hfound _].
  set (s1 := mkDb (items s0) (customers s0) (coupons s0) (transactions s0 ++ [t0])
               (transaction_items s0) (rentals s0)) in *.
  assert (Hnd1 : items_pk_unique s1)
    by (unfold items_pk_unique; simpl; now rewrite Hi).
  pose proof (rental_loop_rentable _ _ _ _ _ _ _ _ Hnd1 Hloop) as Hrentable.
  pose proof (rental_loop_frame _ _ _ _ _ _ _ _ Hloop) as (Hc2 & _ & Htr2 & _).
  apply rental_loop_inv in Hloop as (Hi2 & (new & Hnew & Hsnap) & (newr & Hnewr & Hrent));
    [|exact Hnd1].
  simpl in Hi2, Hnew, Hnewr, Hc2, Htr2.
  destruct (same_items s1 s Hi) as (_ & _ & Hu & Hct & Hsn).
  apply settle_inv in Hsettle as [Hfin ->].
  set (tid := Transaction.id t0) in *.
  assert (Etid : tid = next_id (map Transaction.id (transactions s)))
    by (unfold tid; rewrite Ht0, Htr; reflexivity).
  assert (Hsnap' : Forall2 (snapshot s tid) cart new).
  { eapply Forall2_impl; [|exact Hsnap]. intros l ti. apply Hsn. }
  assert (Hall : Transaction_items_all s2 tid = new).
  { apply (items_all_fresh s s2 tid new Hown).
    - rewrite Etid. apply next_id_fresh.
    - now rewrite Hnew, Hti.
    - clear - Hsnap'. induction Hsnap' as [|? ? ? ? (E & _) _ IH]; constructor; auto. }
  destruct (calculate_totals_fields t0 (Transaction_items_all s2 tid)
              (Coupon_query_get s2) now Transaction.default_tax_rate)
    as (Hid & _ & Hsub & _).
  destruct (settled_customer_id t0 (Transaction_items_all s2 tid)
              (Coupon_query_get s2) now Transaction.default_tax_rate amount_tendered)
    as (Hcid & Hty & _).
  set (c := Transaction.calculate_totals t0 _ _ _ _) in *.
  destruct (apply_payment_fields c amount_tendered) as (Pid & _ & Ps & Pd & _).
  cbv zeta in *. rewrite <- Hfin in Pid, Ps, Pd, Hcid, Hty.
  assert (Eid : Transaction.id t = tid) by (rewrite Pid, Hid; reflexivity).
  assert (Ed : Transaction.discount_amount c = 0%Q).
  { unfold c, Transaction.calculate_totals. rewrite Ht0. reflexivity. }
  exists phone, customer, newr.
  split; [reflexivity|].
  split; [unfold Customer_by_phone in *; simpl; now rewrite Hc2|].
  split; [rewrite Hcid, Ht0; reflexivity|].
  split; [rewrite Hty, Ht0; reflexivity|].
  split; [simpl; now rewrite Hnewr, Hre|].
  split.
  { rewrite Eid. eapply Forall2_impl; [|exact Hrent]. intros l r.
    unfold rented. destruct (same_items s1 s Hi) as (Hr & Hp & _).
    now rewrite Hr, Hp. }
  split.
  { eapply Forall_impl; [|exact Hrentable]. intros l Hl Hbad. apply Hl.
    unfold unrentable, InventoryService.get_item_by_id in *. simpl. now rewrite Hi. }
  split; [rewrite Ps, Hsub, Hall; now apply sum_lines_snapshot with (tid := tid)|].
  split; [rewrite Pd, Ed; reflexivity|].
  simpl. rewrite Hi2, <- Hi. apply map_ext. intros r. now rewrite Hu.
Qed.

Lemma create_rental_records_witness :
  exists t s' customer newr,
    TransactionService.create_rental 7 (Some "5559990000"%string)
      [CartLine.mk "RNT001" 3] 7 PaymentMethod.CASH 100 "TXN20240101120000888"
      Sample.T Sample.db = (inr t, s') /\
    Customer_by_phone s' "5559990000" = Some customer /\
    rentals s' = rentals Sample.db ++ newr /\
    Forall2 (rented Sample.db (Transaction.id t) (Customer.id customer) 7 Sample.T)
      [CartLine.mk "RNT001" 3] newr /\
    (Transaction.subtotal t == 45)%Q.
Proof.
  eexists. eexists.
  match goal with
  | |- exists customer newr, ?call = (inr ?t, ?s') /\ _ =>
      assert (Hcall : call = (inr t, s')) by (vm_compute; reflexivity)
  end.
  match type of Hcall with
  | _ = (inr ?t, ?s') =>
      destruct (create_rental_records 7 (Some "5559990000"%string)
                  [CartLine.mk "RNT001" 3] 7 PaymentMethod.CASH 100
                  "TXN20240101120000888" Sample.T Sample.db t s')
        as (phone & customer & newr & Hp & Hc & _ & _ & Hr & Hf & _ & Hsub & _)
  end.
  - unfold items_pk_unique. simpl.
    repeat constructor; simpl; intuition discriminate.
  - intros ti Hti. simpl in Hti. contradiction.
  - exact Hcall.
  - inversion Hp; subst phone. exists customer, newr.
    split; [exact Hcall|]. split; [exact Hc|]. split; [exact Hr|].
    split; [exact Hf|]. rewrite Hsub. reflexivity.
Defined.

(** ** Renting, then returning *)

(** When the customer, the item and an active rental with a quantity
    that is not negative are on file, the engine's return goes
    through. *)
Lemma engine_return_run employee_id phone item_id quantity number now s
    customer item rental :
  Customer_by_phone s phone = Some customer ->
  InventoryService.get_item_by_id s item_id = Some item ->
  active_rental s (Customer.id customer) (Item.id item) = Some rental ->
  0 <= Rental.quantity rental ->
  TransactionService.process_return employee_id phone item_id quantity number now s
  = (inr (ReturnResult.mk
            (returned_rental rental now Rental.default_fee_per_day)
            (Rental.late_fee (returned_rental rental now Rental.default_fee_per_day))
            None (restocked_item item rental)),
     save_item (restocked_item item rental)
       (save_rental (returned_rental rental now Rental.default_fee_per_day) s)).
Proof.
  intros Hc Hi Hr Hq.
  unfold TransactionService.process_return, atomically,
    TransactionService.process_return_body, bind, gets.
  rewrite Hc, Hi, Hr.
  assert (Hp : Rental.process_return rental (Some item) now Rental.default_fee_per_day
               = inr (returned_rental rental now Rental.default_fee_per_day,
                      Some (restocked_item item rental),
                      Rental.late_fee
                        (returned_rental rental now Rental.default_fee_per_day))).
  { unfold Rental.process_return, Item.add_stock. simpl.
    destruct (Rental.quantity rental <? 0) eqn:E; [apply Z.ltb_lt in E; lia|].
    reflexivity. }
  rewrite Hp. unfold lift, ret, modify. cbn iota beta.
  unfold TransactionService.late_fee_transaction.
  assert (Hfee : Qgtb (Rental.late_fee
                         (returned_rental rental now Rental.default_fee_per_day)) 0
                 = false).
  { unfold returned_rental, Rental.calculate_late_fee. simpl.
    apply zero_fee_not_positive. }
  rewrite Hfee. reflexivity.
Qed.

Lemma find_none_all {A} (p : A -> bool) (l : list A) :
  (forall x, In x l -> p x = false) -> find p l = None.
Proof.
  induction l as [|a l IH]; simpl; intros H; [reflexivity|].
  rewrite (H a) by auto. apply IH. auto.
Qed.

(** Renting one line and returning it: when no unit of the item is out
    on an unreturned rental, the return that follows a settled rental of
    a single line finds that rental, returns its whole quantity, and
    puts the item back to the stock it had before the rental. *)
Theorem rent_then_return_restores_stock
    (employee_id : Z) (phone : string) (l : CartLine.t) (rental_days : Z)
    (payment_method : string) (amount_tendered : Q) (number : string) (now : Z)
    (s : Db) (item : Item.t) (t : Transaction.t) (s1 : Db) :
  InventoryService.get_item_by_id s (CartLine.item_id l) = Some item ->
  Forall (fun r => Rental.item_id r = Item.id item -> Rental.returned r = true)
    (rentals s) ->
  TransactionService.create_rental employee_id (Some phone) [l] rental_days
    payment_method amount_tendered number now s = (inr t, s1) ->
  forall employee2 quantity number2 now2,
  exists res s2,
    TransactionService.process_return employee2 phone (CartLine.item_id l) quantity
      number2 now2 s1 = (inr res, s2) /\
    Rental.quantity (ReturnResult.rental res) = CartLine.quantity l /\
    Rental.transaction_id (ReturnResult.rental res) = Some (Transaction.id t) /\
    InventoryService.get_item_by_id s1 (CartLine.item_id l)
      = Some (Item.set_quantity item (Item.quantity item - CartLine.quantity l)) /\
    InventoryService.get_item_by_id s2 (CartLine.item_id l) = Some item.
Proof.
  intros Hitem Hout H employee2 quantity number2 now2.
  apply create_rental_inv in H
    as (phone' & customer & s0 & t0 & s2 & Hp & Hcust & Ht0 & Hloop & Hsettle).
  inversion Hp; subst phone'; clear Hp.
  pose proof (rental_customer_frame _ _ _ _ Hcust) as (Hi & _ & _ & _ & Hre).
  apply rental_customer_found in Hcust as [Hfound _].
  simpl in Hloop. split_bind Hloop. apply ret_inr in Hloop as [_ <-].
  apply rental_line_inv in Hstep as (item' & Hget' & _ & Hq & Hs2).
  unfold InventoryService.get_item_by_id in Hget'. simpl in Hget'.
  rewrite Hi in Hget'. unfold InventoryService.get_item_by_id in Hitem.
  rewrite Hitem in Hget'. inversion Hget'; subst item'; clear Hget'.
  simpl in Hs2. apply settle_inv in Hsettle as [Hfin ->].
  destruct (settle_tax t0 amount_tendered now s2 t (save_transaction t s2))
    as (_ & Hid & _).
  { rewrite Hs2. simpl. rewrite map_app. apply in_or_app. right. simpl. auto. }
  { unfold TransactionService.settle, bind, gets, modify, ret. rewrite <- Hfin.
    reflexivity. }
  set (item1 := Item.set_quantity item (Item.quantity item - CartLine.quantity l)).
  set (rnew := Rental.init (next_id (map Rental.id (rentals s0))) (Customer.id customer)
                 (Item.id item) (Item.price item) (CartLine.quantity l) rental_days
                 (Some (Transaction.id t0)) now) in *.
  assert (Hc1 : Customer_by_phone (save_transaction t s2) phone = Some customer)
    by (rewrite Hs2; exact Hfound).
  assert (Hi1 : InventoryService.get_item_by_id (save_transaction t s2)
                  (CartLine.item_id l) = Some item1).
  { rewrite Hs2. unfold InventoryService.get_item_by_id. simpl. rewrite Hi.
    apply find_replace_row_hit with (x := item); [exact Hitem| |reflexivity].
    apply find_some in Hitem as [_ Hk]. exact Hk. }
  assert (Ha1 : active_rental (save_transaction t s2) (Customer.id customer)
                  (Item.id item1) = Some rnew).
  { rewrite Hs2. unfold active_rental. simpl. rewrite Hre.
    rewrite find_app_none.
    - simpl. now rewrite !Z.eqb_refl.
    - apply find_none_all. intros r Hr. rewrite Forall_forall in Hout.
      specialize (Hout r Hr).
      destruct (Rental.item_id r =? Item.id item) eqn:E.
      + apply Z.eqb_eq in E. rewrite (Hout E). now rewrite andb_false_r.
      + now rewrite andb_false_r. }
  exists (ReturnResult.mk
            (returned_rental rnew now2 Rental.default_fee_per_day)
            (Rental.late_fee (returned_rental rnew now2 Rental.default_fee_per_day))
            None (restocked_item item1 rnew)).
  eexists. split.
  - apply engine_return_run with (customer := customer); try assumption.
    simpl. lia.
  - simpl. split; [reflexivity|]. split; [now rewrite Hid|].
    split; [exact Hi1|].
    assert (Eback : restocked_item item1 rnew = item).
    { unfold restocked_item, item1, Item.set_quantity. simpl.
      destruct item; simpl. f_equal. lia. }
    transitivity (Some (restocked_item item1 rnew)); [|now rewrite Eback].
    apply restocked_item_found with (s := save_transaction t s2); [exact Hi1|].
    reflexivity.
Qed.

Lemma rent_then_return_restores_stock_witness :
  exists t s1 res s2,
    TransactionService.create_rental 7 (Some "5551234567"%string)
      [CartLine.mk "RNT001" 3] 7 PaymentMethod.CASH 100 "TXN20240101120000888"
      Sample.T Sample.db = (inr t, s1) /\
    TransactionService.process_return 7 "5551234567" "RNT001" 1
      "TXN20240105120000999" (Sample.T + 4 * day) s1 = (inr res, s2) /\
    Rental.quantity (ReturnResult.rental res) = 3 /\
    InventoryService.get_item_by_id s2 "RNT001" = Some Sample.RNT001.
Proof.
  eexists. eexists.
  match goal with
  | |- exists res s2, ?call = (inr ?t, ?s') /\ _ =>
      assert (Hcall : call = (inr t, s')) by (vm_compute; reflexivity)
  end.
  match type of Hcall with
  | _ = (inr ?t, ?s') =>
      destruct (rent_then_return_restores_stock 7 "5551234567"
                  (CartLine.mk "RNT001" 3) 7 PaymentMethod.CASH 100
                  "TXN20240101120000888" Sample.T Sample.db Sample.RNT001 t s'
                  eq_refl (Forall_nil _) Hcall 7 1 "TXN20240105120000999"
                  (Sample.T + 4 * day))
        as (res & s2 & Hret & Hq & _ & _ & Hback)
  end.
  exists res, s2. auto.
Defined.

(** ** Due dates *)

Lemma delta_days_sign (a b : Z) :
  (a <= b -> delta_days a b <= 0) /\ (b < a -> 0 <= delta_days a b) /\
  (a < b -> delta_days a b < 0).
Proof.
  unfold delta_days, day.
  pose proof (Z.div_mod (a - b) 86400000000 ltac:(lia)) as Hdm.
  pose proof (Z.mod_pos_bound (a - b) 86400000000 ltac:(lia)) as Hmod.
  set (q := (a - b) / 86400000000) in *.
  set (r := (a - b) mod 86400000000) in *.
  repeat split; intros; lia.
Qed.

Lemma days_overdue_nonneg (r : Rental.t) (now : Z) : 0 <= Rental.days_overdue r now.
Proof.
  unfold Rental.days_overdue.
  destruct (negb (Rental.is_overdue r now)); lia.
Qed.

(** The two day counts of a rental are never negative and never both
    positive; both are zero once the rental is returned; an unreturned
    rental is [d > 0] days overdue exactly from [d] whole days after its
    due date until the next day starts. *)
Theorem rental_day_counts (r : Rental.t) (now : Z) :
  0 <= Rental.days_overdue r now /\
  0 <= Rental.days_remaining r now /\
  (0 < Rental.days_overdue r now -> Rental.days_remaining r now = 0) /\
  (Rental.returned r = true ->
   Rental.days_overdue r now = 0 /\ Rental.days_remaining r now = 0) /\
  (forall d, 0 < d ->
     (Rental.days_overdue r now = d <->
      Rental.returned r = false /\
      Rental.due_date r + d * day <= now < Rental.due_date r + (d + 1) * day)).
Proof.
  unfold Rental.days_overdue, Rental.days_remaining, Rental.is_overdue.
  destruct (Rental.returned r) eqn:Eret; simpl.
  - split; [lia|]. split; [lia|]. split; [lia|]. split; [auto|].
    intros d Hd. split; [lia|]. intros [H _]. discriminate.
  - destruct (delta_days_sign now (Rental.due_date r)) as (H1 & H2 & H3).
    destruct (delta_days_sign (Rental.due_date r) now) as (G1 & G2 & G3).
    destruct (now >? Rental.due_date r) eqn:E; simpl.
    + apply Z.gtb_lt in E.
      split; [lia|]. split; [lia|]. split; [lia|]. split; [discriminate|].
      intros d Hd. unfold delta_days, day in *.
      pose proof (Z.div_mod (now - Rental.due_date r) 86400000000 ltac:(lia)) as Hdm.
      pose proof (Z.mod_pos_bound (now - Rental.due_date r) 86400000000 ltac:(lia))
        as Hmod.
      set (q := (now - Rental.due_date r) / 86400000000) in *.
      set (m := (now - Rental.due_date r) mod 86400000000) in *.
      split.
      * intros Hq. split; [reflexivity|]. lia.
      * intros [_ Hb]. assert (q = d) by nia. lia.
    + assert (Hle : now <= Rental.due_date r)
        by (destruct (Z_le_gt_dec now (Rental.due_date r)) as [|G];
            [assumption | apply Z.gt_lt, Z.gtb_lt in G; congruence]).
      split; [lia|]. split; [lia|]. split; [lia|]. split; [discriminate|].
      intros d Hd. split; [lia|]. intros [_ Hb]. unfold day in Hb. lia.
Qed.

(** ** Extending a rental *)

Lemma small_days_fit_c_int (days : Z) :
  0 < days <= timedelta_max_days -> fits_c_int days = true.
Proof.
  unfold timedelta_max_days, fits_c_int. intros H.
  apply andb_true_iff. split; apply Z.leb_le; lia.
Qed.

(** [RentalService.extend_rental]: a returned rental is refused first
    ('Cannot extend a returned rental'), a number of days that is not
    positive next ('Extension days must be positive'); more than
    999999999 days, or a due date past the last [datetime], raise an
    [OverflowError]; nothing is written in any of these cases. Otherwise
    the rental is stored with its due date moved by that many days and
    every other column as it was. Two extensions give what one
    extension by the sum gives, and an overdue rental extended past the
    clock is no longer overdue. *)
Theorem extend_rental_behaviour (r : Rental.t) (days : Z) (s : Db) :
  (Rental.returned r = true ->
   RentalService.extend_rental r days s
   = (inl RentalService.CannotExtendReturned, s)) /\
  (Rental.returned r = false -> days <= 0 ->
   RentalService.extend_rental r days s
   = (inl RentalService.ExtensionDaysNotPositive, s)) /\
  (Rental.returned r = false -> timedelta_max_days < days ->
   RentalService.extend_rental r days s
   = (inl (RentalService.Uncaught
             (OverflowError (if fits_c_int days
                             then TimedeltaDaysOutOfRange days
                             else IntTooLargeForC))), s)) /\
  (Rental.returned r = false -> 0 < days <= timedelta_max_days ->
   datetime_max < Rental.due_date r + days * day ->
   RentalService.extend_rental r days s
   = (inl (RentalService.Uncaught (OverflowError DateValueOutOfRange)), s)) /\
  (Rental.returned r = false -> 0 < days <= timedelta_max_days ->
   datetime_min <= Rental.due_date r ->
   Rental.due_date r + days * day <= datetime_max ->
   exists r',
     r' = Rental.mk (Rental.id r) (Rental.customer_id r) (Rental.item_id r)
            (Rental.transaction_id r) (Rental.quantity r) (Rental.rental_price r)
            (Rental.rental_date r) (Rental.due_date r + days * day)
            false (Rental.return_date r) (Rental.late_fee r) /\
     RentalService.extend_rental r days s = (inr r', save_rental r' s) /\
     (In r (rentals s) ->
      Rental_query_get (save_rental r' s) (Rental.id r) = Some r') /\
     (forall more, 0 < more -> days + more <= timedelta_max_days ->
        fst (RentalService.extend_rental r' more (save_rental r' s))
        = fst (RentalService.extend_rental r (days + more) s)) /\
     (forall now, now <= Rental.due_date r + days * day ->
        Rental.is_overdue r' now = false /\ Rental.days_overdue r' now = 0)).
Proof.
  unfold RentalService.extend_rental.
  split; [|split; [|split; [|split]]].
  - now intros ->.
  - intros -> Hd. apply Z.leb_le in Hd. now rewrite Hd.
  - intros Hret Hd. rewrite Hret.
    assert (E : (days <=? 0) = false)
      by (apply Z.leb_gt; unfold timedelta_max_days in Hd; lia).
    rewrite E. unfold Rental.extend_rental. rewrite Hret. simpl.
    assert (E1 : (timedelta_max_days <? Z.abs days) = true)
      by (apply Z.ltb_lt; lia).
    destruct (fits_c_int days); simpl; [now rewrite E1 | reflexivity].
  - intros Hret [Hd Hmax] Hbig. rewrite Hret.
    assert (E : (days <=? 0) = false) by (apply Z.leb_gt; lia).
    rewrite E. unfold Rental.extend_rental. rewrite Hret. simpl.
    assert (E0 : fits_c_int days = true) by (now apply small_days_fit_c_int).
    assert (E1 : (timedelta_max_days <? Z.abs days) = false)
      by (apply Z.ltb_ge; lia).
    assert (E2 : (datetime_max <? Rental.due_date r + days * day) = true)
      by (apply Z.ltb_lt; lia).
    rewrite E0, E1, E2, orb_true_r. reflexivity.
  - intros Hret [Hd Hmax] Hmin Hfit. rewrite Hret.
    assert (E : (days <=? 0) = false) by (apply Z.leb_gt; lia).
    assert (Hday : 0 < day) by (unfold day; lia).
    assert (E0 : fits_c_int days = true) by (now apply small_days_fit_c_int).
    assert (E1 : (timedelta_max_days <? Z.abs days) = false)
      by (apply Z.ltb_ge; lia).
    assert (E2 : (Rental.due_date r + days * day <? datetime_min) = false)
      by (apply Z.ltb_ge; nia).
    assert (E3 : (datetime_max <? Rental.due_date r + days * day) = false)
      by (apply Z.ltb_ge; lia).
    rewrite E. unfold Rental.extend_rental at 1. rewrite Hret. simpl.
    rewrite E0, E1, E2, E3. simpl.
    eexists. split; [reflexivity|]. split; [reflexivity|]. split; [|split].
    + intros Hin. now apply saved_rental_found.
    + intros more Hm Hsum. simpl.
      assert (F1 : (more <=? 0) = false) by (apply Z.leb_gt; lia).
      assert (F2 : (days + more <=? 0) = false) by (apply Z.leb_gt; lia).
      rewrite F1, F2. unfold Rental.extend_rental. rewrite Hret. simpl.
      assert (G1 : (timedelta_max_days <? Z.abs more) = false)
        by (apply Z.ltb_ge; lia).
      assert (G2 : (timedelta_max_days <? Z.abs (days + more)) = false)
        by (apply Z.ltb_ge; lia).
      rewrite (small_days_fit_c_int more), (small_days_fit_c_int (days + more))
        by lia.
      simpl. rewrite G1, G2.
      replace (Rental.due_date r + days * day + more * day)
        with (Rental.due_date r + (days + more) * day) by lia.
      destruct ((Rental.due_date r + (days + more) * day <? datetime_min)
                || (datetime_max <? Rental.due_date r + (days + more) * day));
        reflexivity.
    + intros now Hnow. unfold Rental.days_overdue, Rental.is_overdue. simpl.
      assert (E4 : (now >? Rental.due_date r + days * day) = false).
      { destruct (now >? Rental.due_date r + days * day) eqn:G; [|reflexivity].
        apply Z.gtb_lt in G. lia. }
      now rewrite E4.
Qed.

Lemma extend_rental_behaviour_witness :
  (exists r',
      RentalService.extend_rental Sample.rental 5 Sample.db_rented
        = (inr r', save_rental r' Sample.db_rented) /\
      Rental.due_date r' = Sample.T + 12 * day /\
      Rental.is_overdue Sample.rental (Sample.T + 10 * day) = true /\
      Rental.is_overdue r' (Sample.T + 10 * day) = false) /\
  RentalService.extend_rental Sample.rental 3000000 Sample.db_rented
  = (inl (RentalService.Uncaught (OverflowError DateValueOutOfRange)),
     Sample.db_rented).
Proof.
  split.
  - destruct (extend_rental_behaviour Sample.rental 5 Sample.db_rented)
      as (_ & _ & _ & _ & H).
    destruct (H eq_refl ltac:(unfold timedelta_max_days; lia)
                ltac:(vm_compute; discriminate) ltac:(vm_compute; discriminate))
      as (r' & Hr' & Hcall & _ & _ & Hres).
    exists r'. split; [exact Hcall|]. split; [rewrite Hr'; reflexivity|].
    split; [reflexivity|].
    apply (Hres (Sample.T + 10 * day)). vm_compute. discriminate.
  - destruct (extend_rental_behaviour Sample.rental 3000000 Sample.db_rented)
      as (_ & _ & _ & H & _).
    apply H; [reflexivity | unfold timedelta_max_days; lia | vm_compute; reflexivity].
Defined.

(** ** Rental reports *)

Lemma insert_by_in {A} (key : A -> Z) (x y : A) (l : list A) :
  In y (insert_by key x l) <-> y = x \/ In y l.
Proof.
  induction l as [|a l IH]; simpl.
  - intuition.
  - destruct (key x <=? key a); simpl; [intuition|].
    rewrite IH. intuition.
Qed.

Lemma order_by_in {A} (key : A -> Z) (y : A) (l : list A) :
  In y (order_by key l) <-> In y l.
Proof.
  unfold order_by. induction l as [|a l IH]; simpl; [tauto|].
  rewrite insert_by_in, IH. intuition.
Qed.

Lemma insert_by_ascending {A} (key : A -> Z) (x : A) (l : list A) :
  ascending key l -> ascending key (insert_by key x l).
Proof.
  induction l as [|a l IH]; simpl.
  - intros _. split; [intros y []|exact I].
  - intros [Ha Hl]. destruct (key x <=? key a) eqn:E.
    + apply Z.leb_le in E. simpl. split; [|split; assumption].
      intros y [<- | Hy]; [assumption|]. specialize (Ha y Hy). lia.
    + apply Z.leb_gt in E. simpl. split; [|now apply IH].
      intros y Hy. apply insert_by_in in Hy as [-> | Hy]; [lia | now apply Ha].
Qed.

Lemma order_by_ascending {A} (key : A -> Z) (l : list A) :
  ascending key (order_by key l).
Proof.
  unfold order_by. induction l as [|a l IH]; simpl; [exact I|].
  now apply insert_by_ascending.
Qed.

Lemma order_by_length {A} (key : A -> Z) (l : list A) :
  List.length (order_by key l) = List.length l.
Proof.
  assert (H : forall x l', List.length (insert_by key x l') = S (List.length l')).
  { intros x l'. induction l' as [|a l' IH]; simpl; [reflexivity|].
    destruct (key x <=? key a); simpl; [reflexivity | now rewrite IH]. }
  unfold order_by. induction l as [|a l IH]; simpl; [reflexivity|].
  now rewrite H, IH.
Qed.

(** The overdue report lists, by ascending due date, exactly the stored
    rentals for which [is_overdue] holds. No rental is both overdue and
    due soon, whatever the horizon; and a customer "has overdue" exactly
    when the report holds a rental of the customer on file under the
    phone. *)
Theorem overdue_report_agrees_with_model (now : Z) (s : Db) :
  (forall r, In r (RentalService.get_overdue_rentals now s) <->
             In r (rentals s) /\ Rental.is_overdue r now = true) /\
  ascending Rental.due_date (RentalService.get_overdue_rentals now s) /\
  (forall days r, In r (RentalService.get_overdue_rentals now s) ->
                  ~ In r (RentalService.get_due_soon_rentals days now s)) /\
  (forall phone,
      RentalService.check_customer_has_overdue phone now s = true <->
      exists customer r,
        Customer_by_phone s phone = Some customer /\
        In r (RentalService.get_overdue_rentals now s) /\
        Rental.customer_id r = Customer.id customer).
Proof.
  assert (Hmem : forall r, In r (RentalService.get_overdue_rentals now s) <->
                           In r (rentals s) /\ Rental.is_overdue r now = true).
  { intros r. unfold RentalService.get_overdue_rentals, Rental.is_overdue.
    rewrite order_by_in, filter_In.
    destruct (Rental.returned r); simpl; [intuition discriminate|].
    rewrite Z.gtb_ltb. tauto. }
  split; [exact Hmem|]. split; [apply order_by_ascending|]. split.
  - intros days r Hr Hsoon. apply Hmem in Hr as [_ Hov].
    unfold RentalService.get_due_soon_rentals in Hsoon.
    apply order_by_in, filter_In in Hsoon as [_ Hsoon].
    apply andb_true_iff in Hsoon as [_ Hge]. apply Z.geb_le in Hge.
    unfold Rental.is_overdue in Hov.
    destruct (Rental.returned r); [discriminate|]. apply Z.gtb_lt in Hov. lia.
  - intros phone. unfold RentalService.check_customer_has_overdue.
    destruct (Customer_by_phone s phone) as [customer|].
    + destruct (find _ (rentals s)) as [r|] eqn:E.
      * split; [|reflexivity]. intros _. exists customer, r.
        apply find_some in E as [Hin Hp].
        apply andb_true_iff in Hp as [Hp Hdue].
        apply andb_true_iff in Hp as [Hc Hret].
        split; [reflexivity|]. split; [|now apply Z.eqb_eq].
        apply Hmem. split; [exact Hin|]. unfold Rental.is_overdue.
        apply negb_true_iff in Hret. rewrite Hret, Z.gtb_ltb. exact Hdue.
      * split; [discriminate|]. intros (c & r & Hc & Hr & Hid).
        inversion Hc; subst c. apply Hmem in Hr as [Hin Hov].
        apply (find_none _ _ E) in Hin. unfold Rental.is_overdue in Hov.
        destruct (Rental.returned r); [discriminate|].
        rewrite Z.gtb_ltb in Hov. apply Z.eqb_eq in Hid.
        rewrite Hid, Hov in Hin. discriminate.
    + split; [discriminate|]. intros (c & r & Hc & _). discriminate.
Qed.

Lemma filter_length_split {A} (p : A -> bool) (l : list A) :
  (List.length (filter p l) + List.length (filter (fun x => negb (p x)) l))%nat
  = List.length l.
Proof.
  induction l as [|a l IH]; simpl; [reflexivity|].
  destruct (p a); simpl; lia.
Qed.

Lemma filter_length_le {A} (p q : A -> bool) (l : list A) :
  (forall x, p x = true -> q x = true) ->
  (List.length (filter p l) <= List.length (filter q l))%nat.
Proof.
  intros H. induction l as [|a l IH]; simpl; [lia|].
  destruct (p a) eqn:Ep.
  - rewrite (H a Ep). simpl. lia.
  - destruct (q a); simpl; lia.
Qed.

(** The rental statistics are consistent: active and returned rentals
    add up to all rentals, the overdue ones are among the active ones,
    and the pending late fees, two per day overdue and unit, are not
    negative when no overdue rental has a negative quantity. *)
Theorem rental_stats_consistent (now : Z) (s : Db) :
  let st := RentalService.get_rental_stats now s in
  (RentalService.active_rentals st + RentalService.returned_rentals st)%nat
    = List.length (rentals s) /\
  (RentalService.overdue_rentals st <= RentalService.active_rentals st)%nat /\
  (RentalService.pending_late_fees st
   == sum_of (fun r => inject_Z (Rental.days_overdue r now) * 2
                       * inject_Z (Rental.quantity r))
        (RentalService.get_overdue_rentals now s))%Q /\
  (Forall (fun r => 0 <= Rental.quantity r) (rentals s) ->
   (0 <= RentalService.pending_late_fees st)%Q).
Proof.
  cbv zeta. unfold RentalService.get_rental_stats.
  cbn [RentalService.active_rentals RentalService.returned_rentals
       RentalService.overdue_rentals RentalService.pending_late_fees].
  assert (Hfold : forall l acc,
             (fold_left (fun a r => a + Rental.calculate_late_fee r now
                                          Rental.default_fee_per_day) l acc
              == acc + sum_of (fun r => inject_Z (Rental.days_overdue r now) * 2
                                        * inject_Z (Rental.quantity r)) l)%Q).
  { induction l as [|r l IH]; intros acc; simpl; [ring|].
    rewrite IH. unfold Rental.calculate_late_fee, Rental.default_fee_per_day. ring. }
  split; [|split; [|split]].
  - rewrite Nat.add_comm. rewrite <- (filter_length_split Rental.returned (rentals s)).
    reflexivity.
  - unfold RentalService.get_overdue_rentals. rewrite order_by_length.
    apply filter_length_le. intros r Hr. now apply andb_true_iff in Hr as [Hr _].
  - rewrite Hfold. ring.
  - intros Hq. rewrite Hfold.
    assert (Hin : forall r, In r (RentalService.get_overdue_rentals now s) ->
                            0 <= Rental.quantity r).
    { intros r Hr. unfold RentalService.get_overdue_rentals in Hr.
      apply order_by_in, filter_In in Hr as [Hr _].
      rewrite Forall_forall in Hq. now apply Hq. }
    induction (RentalService.get_overdue_rentals now s) as [|r l IH]; simpl.
    + lra.
    + assert (H0 : (0 <= sum_of (fun r0 => inject_Z (Rental.days_overdue r0 now) * 2
                                           * inject_Z (Rental.quantity r0)) l)%Q).
      { assert (G : (0 + sum_of (fun r0 => inject_Z (Rental.days_overdue r0 now) * 2
                                           * inject_Z (Rental.quantity r0)) l
                     == sum_of (fun r0 => inject_Z (Rental.days_overdue r0 now) * 2
                                           * inject_Z (Rental.quantity r0)) l)%Q) by ring.
        rewrite <- G. apply IH. intros r0 Hr0. apply Hin. now right. }
      assert (H1 : (0 <= inject_Z (Rental.days_overdue r now) * 2
                         * inject_Z (Rental.quantity r))%Q).
      { pose proof (days_overdue_nonneg r now) as Hd.
        assert (Hqr : 0 <= Rental.quantity r) by (apply Hin; now left).
        apply Qmult_le_0_compat; [apply Qmult_le_0_compat|].
        - change 0%Q with (inject_Z 0). now rewrite <- Zle_Qle.
        - discriminate.
        - change 0%Q with (inject_Z 0). now rewrite <- Zle_Qle. }
      lra.
Qed.

Lemma rental_stats_consistent_witness :
  (RentalService.pending_late_fees
     (RentalService.get_rental_stats (Sample.T + 10 * day) Sample.db_rented)
   == 12)%Q /\
  (0 <= RentalService.pending_late_fees
          (RentalService.get_rental_stats (Sample.T + 10 * day) Sample.db_rented))%Q.
Proof.
  destruct (rental_stats_consistent (Sample.T + 10 * day) Sample.db_rented)
    as (_ & _ & Hsum & Hpos).
  split.
  - rewrite Hsum. reflexivity.
  - apply Hpos. repeat constructor. simpl. lia.
Defined.

(** ** Inventory management *)






(** The stock reports. Both list active items only; an override
    threshold of 0 is dropped like no override, so that call reports by
    the items' own thresholds; an item out of stock is also low in
    stock unless its threshold is negative; and a deactivated item
    leaves both reports while staying on file under its key. *)
Theorem stock_reports (s : Db) :
  InventoryService.get_low_stock_items (Some 0) s
    = InventoryService.get_low_stock_items None s /\
  (forall th r, In r (InventoryService.get_low_stock_items th s) ->
                Item.is_active r = true) /\
  (forall th r, th <> 0 ->
     (In r (InventoryService.get_low_stock_items (Some th) s) <->
      In r (items s) /\ Item.quantity r <= th /\ Item.is_active r = true)) /\
  (forall r, In r (InventoryService.get_out_of_stock_items s) ->
             0 <= Item.low_stock_threshold r ->
             In r (InventoryService.get_low_stock_items None s)) /\
  (forall item k,
      InventoryService.get_item_by_id s k = Some item ->
      let s' := snd (InventoryService.deactivate_item item s) in
      InventoryService.get_item_by_id s' k
        = Some (InventoryService.set_active item false) /\
      ~ In (InventoryService.set_active item false)
          (InventoryService.get_low_stock_items None s') /\
      ~ In (InventoryService.set_active item false)
          (InventoryService.get_out_of_stock_items s')).
Proof.
  unfold InventoryService.get_low_stock_items, InventoryService.get_out_of_stock_items.
  split; [reflexivity|]. split; [|split; [|split]].
  - intros th r. destruct (truthy_int th); [destruct th|]; simpl;
      try (intros Hr; apply filter_In in Hr as [_ Hr];
           now apply andb_true_iff in Hr as [_ Hr]).
    intros [].
  - intros th r Hth. simpl. apply Z.eqb_neq in Hth. rewrite Hth. simpl.
    rewrite filter_In, andb_true_iff, Z.leb_le. tauto.
  - intros r Hr Hth. simpl. apply filter_In in Hr as [Hin Hr].
    apply andb_true_iff in Hr as [Hz Ha]. apply Z.eqb_eq in Hz.
    apply filter_In. split; [exact Hin|]. rewrite Ha, andb_true_r.
    apply Z.leb_le. lia.
  - intros item k Hget. cbv zeta. unfold InventoryService.deactivate_item. cbn [snd].
    split; [|split].
    + unfold InventoryService.get_item_by_id, save_item in *. simpl.
      apply find_replace_row_hit with (x := item); [exact Hget| |reflexivity].
      apply find_some in Hget as [_ Hp]. exact Hp.
    + simpl. intros Hin. apply filter_In in Hin as [_ Hin].
      simpl in Hin. now rewrite andb_false_r in Hin.
    + intros Hin. apply filter_In in Hin as [_ Hin].
      simpl in Hin. now rewrite andb_false_r in Hin.
Qed.

Lemma stock_reports_witness :
  InventoryService.get_item_by_id
    (snd (InventoryService.deactivate_item Sample.SAL001 Sample.db)) "SAL001"
  = Some (InventoryService.set_active Sample.SAL001 false) /\
  (In Sample.RNT001 (InventoryService.get_low_stock_items (Some 5) Sample.db) <->
   In Sample.RNT001 (items Sample.db) /\ Item.quantity Sample.RNT001 <= 5 /\
   Item.is_active Sample.RNT001 = true).
Proof.
  destruct (stock_reports Sample.db) as (_ & _ & Hth & _ & Hde).
  split.
  - exact (proj1 (Hde Sample.SAL001 "SAL001"%string eq_refl)).
  - apply (Hth 5 Sample.RNT001). discriminate.
Defined.

Lemma validate_coupon_agrees_with_model_witness :
  CouponService.discount_of
    (CouponService.validate_coupon "flat5" (Fin 3) Sample.T Sample.db)
  = Some (Fin (Coupon.calculate_discount Sample.FLAT5 3 Sample.T)) /\
  CouponService.valid
    (CouponService.validate_coupon "save10" NaN Sample.T Sample.db) = true /\
  Coupon.can_apply_to_float Sample.SAVE10 NaN Sample.T = false.
Proof.
  split.
  - destruct (validate_coupon_agrees_with_model "flat5" (Fin 3) Sample.T Sample.db)
      as (_ & _ & _ & _ & _ & H & _).
    exact (H Sample.FLAT5 3%Q eq_refl eq_refl eq_refl).
  - destruct (validate_coupon_agrees_with_model "save10" NaN Sample.T Sample.db)
      as (_ & _ & _ & H & _).
    destruct (H eq_refl Sample.SAVE10 eq_refl eq_refl) as (Hv & Hno & _).
    split; [exact Hv | exact Hno].
Defined.

(** ** The ledger and the value of the inventory *)

Lemma replace_row_restore {A} (pk : A -> Z) (x x' : A) (l : list A) :
  NoDup (map pk l) -> In x l -> pk x' = pk x ->
  replace_row pk x (replace_row pk x' l) = l.
Proof.
  intros Hnd Hin Hpk. unfold replace_row. rewrite map_map.
  rewrite <- (map_id l) at 2. apply map_ext_in. intros r Hr.
  destruct (pk r =? pk x') eqn:E.
  - rewrite Hpk, Z.eqb_refl. apply Z.eqb_eq in E.
    symmetry. apply (pk_inj pk l r x Hnd Hr Hin). congruence.
  - rewrite <- Hpk, E. reflexivity.
Qed.

(** Adding stock and removing the same amount again, through the
    service, gives back the item and the database one started from, as
    long as the raised quantity fits the [Integer] column; when it does
    not, [add_stock] raises [OverflowError] and nothing is written. *)
Theorem add_then_remove_restores (item : Item.t) (n : Z) (s : Db) :
  items_pk_unique s -> In item (items s) -> 0 < n -> 0 <= Item.quantity item ->
  (Item.quantity item + n <= integer_max ->
   exists item1 s1,
     InventoryService.add_stock item n s = (inr item1, s1) /\
     Item.quantity item1 = Item.quantity item + n /\
     InventoryService.remove_stock item1 n s1 = (inr item, s)) /\
  (integer_max < Item.quantity item + n ->
   InventoryService.add_stock item n s = (inl (OverflowError IntegerTooLarge), s)).
Proof.
  intros Hnd Hin Hn Hq.
  unfold InventoryService.add_stock, InventoryService.remove_stock,
    Item.add_stock, Item.remove_stock.
  assert (E1 : (n <=? 0) = false) by (apply Z.leb_gt; lia).
  assert (E2 : (n <? 0) = false) by (apply Z.ltb_ge; lia).
  rewrite E1, E2. cbn [Item.quantity Item.set_quantity].
  split.
  - intros Hfit.
    assert (E0 : fits_integer (Item.quantity item + n) = true).
    { unfold fits_integer, integer_min in *. apply andb_true_iff.
      split; apply Z.leb_le; lia. }
    rewrite E0. eexists. eexists. split; [reflexivity|]. split; [reflexivity|].
    simpl. rewrite ?E1, ?E2.
    assert (E3 : (n >? Item.quantity item + n) = false).
    { destruct (n >? Item.quantity item + n) eqn:G; [|reflexivity].
      apply Z.gtb_lt in G. lia. }
    rewrite E3.
    assert (Eback : Item.set_quantity
                      (Item.set_quantity item (Item.quantity item + n))
                      (Item.quantity item + n - n) = item).
    { destruct item; unfold Item.set_quantity; simpl. f_equal. lia. }
    rewrite Eback. f_equal. unfold save_item. simpl.
    rewrite (replace_row_restore Item.id item
               (Item.set_quantity item (Item.quantity item + n)) (items s)
               Hnd Hin eq_refl).
    now destruct s.
  - intros Hbig.
    assert (E0 : fits_integer (Item.quantity item + n) = false).
    { unfold fits_integer. apply andb_false_iff. right. apply Z.leb_gt. lia. }
    now rewrite E0.
Qed.

Lemma add_then_remove_restores_witness :
  (exists item1 s1,
      InventoryService.add_stock Sample.SAL001 25 Sample.db = (inr item1, s1) /\
      Item.quantity item1 = 75 /\
      InventoryService.remove_stock item1 25 s1 = (inr Sample.SAL001, Sample.db)) /\
  InventoryService.add_stock Sample.SAL001 (2 ^ 63) Sample.db
  = (inl (OverflowError IntegerTooLarge), Sample.db).
Proof.
  assert (Hnd : items_pk_unique Sample.db).
  { unfold items_pk_unique. simpl.
    repeat constructor; simpl; intuition discriminate. }
  assert (Hin : In Sample.SAL001 (items Sample.db)) by (simpl; auto).
  split.
  - destruct (proj1 (add_then_remove_restores Sample.SAL001 25 Sample.db Hnd Hin
                       ltac:(lia) ltac:(simpl; lia)))
      as (item1 & s1 & H1 & Hq & H2); [vm_compute; discriminate|].
    exists item1, s1. split; [exact H1|]. split; [rewrite Hq; reflexivity | exact H2].
  - apply (proj2 (add_then_remove_restores Sample.SAL001 (2 ^ 63) Sample.db Hnd Hin
                    ltac:(lia) ltac:(simpl; lia))).
    vm_compute. reflexivity.
Defined.

Lemma value_set_stock (item : Item.t) (q : Z) (l : list Item.t) :
  NoDup (map Item.id l) -> In item l ->
  (sum_of (fun r => Item.price r * inject_Z (Item.quantity r))
     (filter Item.is_active (map (set_stock (Item.id item) q) l))
   == sum_of (fun r => Item.price r * inject_Z (Item.quantity r))
        (filter Item.is_active l)
      + (if Item.is_active item
         then Item.price item * inject_Z (q - Item.quantity item) else 0))%Q.
Proof.
  intros Hnd Hin. induction l as [|a l IH]; [contradiction|].
  simpl in Hnd. inversion Hnd as [|? ? Ha Hl]; subst.
  simpl map. unfold set_stock at 1.
  destruct (Item.id a =? Item.id item) eqn:E.
  - apply Z.eqb_eq in E.
    assert (Ea : a = item).
    { apply (pk_inj Item.id (a :: l) a item Hnd); simpl; auto. }
    subst a.
    assert (Hrest : map (set_stock (Item.id item) q) l = l).
    { rewrite <- (map_id l) at 2. apply map_ext_in. intros r Hr. unfold set_stock.
      destruct (Item.id r =? Item.id item) eqn:G; [|reflexivity].
      apply Z.eqb_eq in G. exfalso. apply Ha. rewrite <- G. now apply in_map. }
    rewrite Hrest. simpl.
    destruct (Item.is_active item); simpl; [|ring].
    unfold Z.sub. rewrite inject_Z_plus, inject_Z_opp. ring.
  - destruct Hin as [-> | Hin]; [rewrite Z.eqb_refl in E; discriminate|].
    simpl. destruct (Item.is_active a); simpl; rewrite (IH Hl Hin); ring.
Qed.

(** A ledger call that succeeds on an active item moves the value of
    the inventory by the item's price times the amount, up for
    [add_stock] and down for [remove_stock]; on a deactivated item it
    leaves the value as it is. *)
Theorem ledger_moves_inventory_value (item : Item.t) (n : Z) (s : Db) :
  items_pk_unique s -> In item (items s) ->
  (forall item' s',
      InventoryService.add_stock item n s = (inr item', s') ->
      (InventoryService.get_inventory_value s'
       == InventoryService.get_inventory_value s
          + (if Item.is_active item then Item.price item * inject_Z n else 0))%Q) /\
  (forall item' s',
      InventoryService.remove_stock item n s = (inr item', s') ->
      (InventoryService.get_inventory_value s'
       == InventoryService.get_inventory_value s
          - (if Item.is_active item then Item.price item * inject_Z n else 0))%Q).
Proof.
  intros Hnd Hin. unfold InventoryService.get_inventory_value. split.
  - intros item' s' H.
    apply ledger_add_stock_inv in H as [(e & He & _) | (_ & _ & ->)]; [discriminate|].
    unfold save_item. simpl. rewrite (replace_row_set_stock item _ _ Hnd Hin).
    rewrite (value_set_stock item _ _ Hnd Hin).
    destruct (Item.is_active item); [|ring].
    replace (Item.quantity item + n - Item.quantity item) with n by lia. ring.
  - intros item' s' H.
    apply ledger_remove_stock_inv in H as [(e & He & _) | (_ & _ & ->)]; [discriminate|].
    unfold save_item. simpl. rewrite (replace_row_set_stock item _ _ Hnd Hin).
    rewrite (value_set_stock item _ _ Hnd Hin).
    destruct (Item.is_active item); [|ring].
    replace (Item.quantity item - n - Item.quantity item) with (- n) by lia.
    rewrite inject_Z_opp. ring.
Qed.

Lemma ledger_moves_inventory_value_witness :
  (InventoryService.get_inventory_value Sample.db == 559.5)%Q /\
  (forall item' s',
      InventoryService.remove_stock Sample.SAL001 10 Sample.db = (inr item', s') ->
      (InventoryService.get_inventory_value s' == 559.5 - 99.9)%Q).
Proof.
  split; [reflexivity|]. intros item' s' H.
  destruct (ledger_moves_inventory_value Sample.SAL001 10 Sample.db) as [_ Hrem].
  - unfold items_pk_unique. simpl.
    repeat constructor; simpl; intuition discriminate.
  - simpl. auto.
  - rewrite (Hrem item' s' H). reflexivity.
Defined.

(** ** Looking a settlement up again *)

(** A settled sale is found again under its transaction number, which
    was not on file before; a sale under a number that is on file raises
    and leaves the database as it was. *)
Theorem create_sale_number_round_trip
    (employee_id : Z) (cart : list CartLine.t) (payment_method : string)
    (amount_tendered : Q) (coupon_code customer_phone : option string)
    (number : string) (now : Z) (s : Db) :
  (forall old,
      TransactionService.get_transaction number s = Some old ->
      exists m,
        TransactionService.create_sale employee_id cart payment_method
          amount_tendered coupon_code customer_phone number now s
        = (inl (TransactionError m), s)) /\
  (forall t s',
      TransactionService.create_sale employee_id cart payment_method
        amount_tendered coupon_code customer_phone number now s = (inr t, s') ->
      TransactionService.get_transaction number s = None /\
      TransactionService.get_transaction number s' = Some t).
Proof.
  split.
  - intros old Hold.
    unfold TransactionService.create_sale, atomically.
    destruct (TransactionService.create_sale_body _ _ _ _ _ _ _ _ s)
      as [e | [t s']] eqn:Hbody; [eauto|].
    exfalso. unfold TransactionService.create_sale_body in Hbody.
    split_bind Hbody. apply sale_customer_frame in Hstep as (_ & _ & Htr & _).
    split_bind Hbody. unfold add_transaction in Hstep. rewrite Htr in Hstep.
    unfold TransactionService.get_transaction in Hold.
    apply find_some in Hold as [Hin Hp].
    assert (E : existsb (fun r => String.eqb (Transaction.transaction_number r) number)
                  (transactions s) = true)
      by (apply existsb_exists; eauto).
    rewrite E in Hstep. discriminate.
  - intros t s' H.
    pose proof (create_sale_appends _ _ _ _ _ _ _ _ _ _ _ H) as (Htr & _ & _ & Hnum & _).
    assert (Hnone : TransactionService.get_transaction number s = None).
    { apply atomically_inr in H.
      unfold TransactionService.create_sale_body in H.
      split_bind H. apply sale_customer_frame in Hstep as (_ & _ & Htr0 & _).
      split_bind H. unfold add_transaction in Hstep. rewrite Htr0 in Hstep.
      destruct (existsb _ (transactions s)) eqn:Ex; [discriminate|].
      unfold TransactionService.get_transaction.
      destruct (find _ (transactions s)) as [old|] eqn:E; [|reflexivity].
      apply find_some in E as [Hin Hp].
      assert (Ex' : existsb (fun r => String.eqb (Transaction.transaction_number r)
                                        number) (transactions s) = true)
        by (apply existsb_exists; eauto).
      congruence. }
    split; [exact Hnone|].
    unfold TransactionService.get_transaction in *. rewrite Htr.
    rewrite (find_app_none _ _ _ Hnone). simpl. now rewrite Hnum, String.eqb_refl.
Qed.

Lemma create_sale_number_round_trip_witness :
  TransactionService.get_transaction Sample.sale_number Sample.db = None /\
  TransactionService.get_transaction Sample.sale_number Sample.db_sold
  = Some Sample.sale_transaction.
Proof.
  apply (proj2 (create_sale_number_round_trip 7 Sample.sale_cart PaymentMethod.CASH 60
                  None None Sample.sale_number Sample.T Sample.db)).
  vm_compute; reflexivity.
Defined.

(** ** Returns through the engine *)



Lemma sum_returned_fees (r r' : Rental.t) (l : list Rental.t) :
  NoDup (map Rental.id l) -> In r l ->
  Rental.returned r = false -> Rental.returned r' = true ->
  Rental.id r' = Rental.id r ->
  (sum_of Rental.late_fee (filter Rental.returned (replace_row Rental.id r' l))
   == sum_of Rental.late_fee (filter Rental.returned l) + Rental.late_fee r')%Q /\
  List.length (filter Rental.returned (replace_row Rental.id r' l))
  = S (List.length (filter Rental.returned l)).
Proof.
  intros Hnd Hin Hr Hr' Hid. induction l as [|a l IH]; [contradiction|].
  inversion Hnd as [|? ? Ha Hl]; subst. simpl.
  destruct Hin as [-> | Hin].
  - rewrite Hid, Z.eqb_refl, Hr, Hr'. simpl.
    rewrite replace_row_fresh by (now rewrite Hid).
    split; [ring | reflexivity].
  - destruct (Rental.id a =? Rental.id r') eqn:E.
    + exfalso. apply Z.eqb_eq in E. apply Ha. rewrite E, Hid. now apply in_map.
    + destruct (IH Hl Hin) as [IH1 IH2].
      destruct (Rental.returned a); simpl.
      * rewrite IH1, IH2. split; [ring | reflexivity].
      * split; assumption.
Qed.

(** A return through the engine never collects a late fee, however late
    it is: the fee it reports is zero, it writes no transaction, every
    daily report is what it was, and in the rental statistics one more
    rental is returned while the late fees collected stay the same. *)
Theorem return_collects_no_fee
    (employee_id : Z) (phone item_id : string) (quantity : Z) (number : string)
    (now : Z) (s : Db) (res : ReturnResult.t) (s' : Db) :
  TransactionService.process_return employee_id phone item_id quantity number now s
    = (inr res, s') ->
  (ReturnResult.late_fee res == 0)%Q /\
  ReturnResult.transaction res = None /\
  transactions s' = transactions s /\
  (forall date clock,
      TransactionService.get_daily_sales date clock s'
      = TransactionService.get_daily_sales date clock s) /\
  (NoDup (map Rental.id (rentals s)) ->
   forall clock,
     RentalService.returned_rentals (RentalService.get_rental_stats clock s')
     = S (RentalService.returned_rentals (RentalService.get_rental_stats clock s)) /\
     (RentalService.total_late_fees_collected (RentalService.get_rental_stats clock s')
      == RentalService.total_late_fees_collected
           (RentalService.get_rental_stats clock s))%Q).
Proof.
  intros H. apply engine_return_inv in H
    as (customer & item & rental & Hc & Hi & Hr & Hq & -> & ->).
  assert (Hfee : (Rental.late_fee
                    (returned_rental rental now Rental.default_fee_per_day) == 0)%Q).
  { unfold returned_rental, Rental.calculate_late_fee, Rental.days_overdue. simpl.
    ring. }
  split; [exact Hfee|]. split; [reflexivity|]. split; [reflexivity|].
  split; [reflexivity|].
  intros Hnd clock. unfold RentalService.get_rental_stats. simpl.
  unfold active_rental in Hr. apply find_some in Hr as [Hin Hp].
  apply andb_true_iff in Hp as [_ Hret]. apply negb_true_iff in Hret.
  destruct (sum_returned_fees rental
              (returned_rental rental now Rental.default_fee_per_day)
              (rentals s) Hnd Hin Hret eq_refl eq_refl) as [Hsum Hlen].
  split; [exact Hlen|]. rewrite Hsum, Hfee. ring.
Qed.

Lemma return_collects_no_fee_witness :
  (ReturnResult.late_fee Sample.return_result == 0)%Q /\
  transactions Sample.db_returned = transactions Sample.db_rented /\
  RentalService.returned_rentals
    (RentalService.get_rental_stats (Sample.T + 10 * day) Sample.db_returned) = 1%nat.
Proof.
  destruct (return_collects_no_fee 7 "5551234567" "RNT001" 1 Sample.return_number
              (Sample.T + 10 * day) Sample.db_rented Sample.return_result
              Sample.db_returned)
    as (Hfee & _ & Htr & _ & Hst); [vm_compute; reflexivity|].
  split; [exact Hfee|]. split; [exact Htr|].
  destruct (Hst ltac:(vm_compute; repeat constructor; simpl; intuition discriminate)
              (Sample.T + 10 * day)) as [Hn _].
  rewrite Hn. reflexivity.
Defined.

(** ** The list of active rentals *)

(** [RentalService.get_active_rentals]: without a phone, and with the
    empty phone, it lists every unreturned rental; with a phone that is
    not on file it lists nothing; with a phone on file it lists the
    unreturned rentals of that customer, the ones
    [Customer.get_active_rentals] gives. The list is by ascending due
    date, and every overdue rental is on it. *)
Theorem active_rentals_report (now : Z) (s : Db) :
  (forall r, In r (RentalService.get_active_rentals None s) <->
             In r (rentals s) /\ Rental.returned r = false) /\
  RentalService.get_active_rentals (Some EmptyString) s
  = RentalService.get_active_rentals None s /\
  (forall phone,
      phone <> EmptyString -> Customer_by_phone s phone = None ->
      RentalService.get_active_rentals (Some phone) s = []) /\
  (forall phone customer,
      phone <> EmptyString -> Customer_by_phone s phone = Some customer ->
      forall r, In r (RentalService.get_active_rentals (Some phone) s) <->
                In r (Customer_get_active_rentals s customer)) /\
  (forall phone, ascending Rental.due_date (RentalService.get_active_rentals phone s)) /\
  (forall r, In r (RentalService.get_overdue_rentals now s) ->
             In r (RentalService.get_active_rentals None s)).
Proof.
  assert (Hall : forall r, In r (RentalService.get_active_rentals None s) <->
                           In r (rentals s) /\ Rental.returned r = false).
  { intros r. unfold RentalService.get_active_rentals. simpl.
    rewrite order_by_in, filter_In, negb_true_iff. tauto. }
  split; [exact Hall|]. split; [reflexivity|]. split; [|split; [|split]].
  - intros phone Hne Hc. unfold RentalService.get_active_rentals. simpl.
    apply String.eqb_neq in Hne. now rewrite Hne, Hc.
  - intros phone customer Hne Hc r.
    unfold RentalService.get_active_rentals, Customer_get_active_rentals. simpl.
    apply String.eqb_neq in Hne. rewrite Hne, Hc. simpl.
    rewrite order_by_in, !filter_In. tauto.
  - intros phone. unfold RentalService.get_active_rentals.
    destruct (truthy_str phone); [|apply order_by_ascending].
    destruct phone as [phone|]; [|apply order_by_ascending].
    destruct (Customer_by_phone s phone); [apply order_by_ascending | exact I].
  - intros r Hr. apply Hall.
    unfold RentalService.get_overdue_rentals in Hr.
    apply order_by_in, filter_In in Hr as [Hin Hp].
    apply andb_true_iff in Hp as [Hret _]. apply negb_true_iff in Hret. auto.
Qed.

Lemma active_rentals_report_witness :
  RentalService.get_active_rentals (Some "5550000001"%string) Sample.db_rented = [] /\
  (In Sample.rental
      (RentalService.get_active_rentals (Some "5551234567"%string) Sample.db_rented)).
Proof.
  destruct (active_rentals_report Sample.T Sample.db_rented)
    as (_ & _ & Hnone & Hsome & _).
  split.
  - apply Hnone; [discriminate | reflexivity].
  - apply (Hsome "5551234567"%string Sample.alice); [discriminate | reflexivity |].
    vm_compute. left. reflexivity.
Defined.

(** ** What a customer has spent *)

(** The customer id a sale is stored with. *)
Lemma create_sale_customer_link_aux employee_id cart payment_method amount_tendered
    coupon_code customer_phone number now s t s' :
  TransactionService.create_sale employee_id cart payment_method amount_tendered
    coupon_code customer_phone number now s = (inr t, s') ->
  (truthy_str customer_phone = false -> Transaction.customer_id t = None) /\
  (forall phone c,
      customer_phone = Some phone -> phone <> EmptyString ->
      Customer_by_phone s phone = Some c ->
      Transaction.customer_id t = Some (Customer.id c)) /\
  (forall phone,
      customer_phone = Some phone -> phone <> EmptyString ->
      Customer_by_phone s phone = None ->
      Transaction.customer_id t = None).
Proof.
  intros H. apply create_sale_customers in H as (cid & s0 & Hcust & Hcid & Hcs).
  unfold TransactionService.sale_customer in Hcust.
  split; [|split].
  - intros Hf. rewrite Hf in Hcust. apply ret_inr in Hcust as [-> ->]. auto.
  - intros phone c -> Hne Hc. simpl in Hcust.
    apply String.eqb_neq in Hne. rewrite Hne in Hcust. simpl in Hcust.
    unfold bind, gets in Hcust. rewrite Hc in Hcust.
    apply ret_inr in Hcust as [-> ->]. auto.
  - intros phone -> Hne Hc. simpl in Hcust.
    apply String.eqb_neq in Hne. rewrite Hne in Hcust. simpl in Hcust.
    unfold bind, gets in Hcust. rewrite Hc in Hcust.
    unfold add_customer, ret in Hcust. injection Hcust as Ecid Es0.
    now rewrite <- Ecid in Hcid.
Qed.


(** [Customer.get_total_spent] after a sale: the total of the sale is
    added to what its customer on file had spent, and to nobody else's
    spending; a sale without a phone, and the sale that creates its
    customer, add to nobody's spending. *)
Theorem sale_total_spent
    (employee_id : Z) (cart : list CartLine.t) (payment_method : string)
    (amount_tendered : Q) (coupon_code customer_phone : option string)
    (number : string) (now : Z) (s : Db) (t : Transaction.t) (s' : Db) :
  TransactionService.create_sale employee_id cart payment_method amount_tendered
    coupon_code customer_phone number now s = (inr t, s') ->
  (forall phone c,
      customer_phone = Some phone -> phone <> EmptyString ->
      Customer_by_phone s phone = Some c ->
      (Customer_get_total_spent s' c
       == Customer_get_total_spent s c + Transaction.total t)%Q /\
      (forall other, Customer.id other <> Customer.id c ->
         (Customer_get_total_spent s' other == Customer_get_total_spent s other)%Q)) /\
  (truthy_str customer_phone = false ->
   forall c, (Customer_get_total_spent s' c == Customer_get_total_spent s c)%Q) /\
  (forall phone,
      customer_phone = Some phone -> phone <> EmptyString ->
      Customer_by_phone s phone = None ->
      forall c, (Customer_get_total_spent s' c == Customer_get_total_spent s c)%Q).
Proof.
  intros H.
  pose proof (create_sale_appends _ _ _ _ _ _ _ _ _ _ _ H) as (Htr & _).
  pose proof (create_sale_customer_link_aux _ _ _ _ _ _ _ _ _ _ _ H)
    as (Hanon & Hknown & Hnew).
  assert (Hspent : forall c,
             (Customer_get_total_spent s' c
              == Customer_get_total_spent s c
                 + match Transaction.customer_id t with
                   | Some k => if k =? Customer.id c then Transaction.total t else 0
                   | None => 0
                   end)%Q).
  { intros c. unfold Customer_get_total_spent. rewrite Htr, filter_app, sum_of_app.
    simpl. destruct (Transaction.customer_id t) as [k|]; simpl; [|reflexivity].
    destruct (k =? Customer.id c); simpl; [ring | reflexivity]. }
  split; [|split].
  - intros phone c Hp Hne Hc. pose proof (Hknown phone c Hp Hne Hc) as Hid.
    split.
    + rewrite (Hspent c), Hid, Z.eqb_refl. reflexivity.
    + intros other Hother. rewrite (Hspent other), Hid.
      assert (E : (Customer.id c =? Customer.id other) = false)
        by (apply Z.eqb_neq; congruence).
      rewrite E. ring.
  - intros Hf c. rewrite (Hspent c), (Hanon Hf). ring.
  - intros phone Hp Hne Hc c. rewrite (Hspent c), (Hnew phone Hp Hne Hc). ring.
Qed.

Lemma sale_total_spent_witness :
  exists t s',
    TransactionService.create_sale 7 Sample.sale_cart PaymentMethod.CASH 60 None
      (Some "5551234567"%string) Sample.sale_number Sample.T Sample.db = (inr t, s') /\
    (Customer_get_total_spent s' Sample.alice
     == Customer_get_total_spent Sample.db Sample.alice + Transaction.total t)%Q.
Proof.
  eexists. eexists. split; [vm_compute; reflexivity|].
  match goal with
  | |- (Customer_get_total_spent ?s' _ == _ + Transaction.total ?t)%Q =>
      destruct (sale_total_spent 7 Sample.sale_cart PaymentMethod.CASH 60
                  None (Some "5551234567"%string) Sample.sale_number Sample.T
                  Sample.db t s') as (Hknown & _); [vm_compute; reflexivity|]
  end.
  apply (Hknown "5551234567"%string Sample.alice);
    [reflexivity | discriminate | reflexivity].
Defined.

Lemma rental_day_counts_witness :
  Rental.days_overdue Sample.rental (Sample.T + 10 * day) = 3 /\
  Rental.days_remaining Sample.rental (Sample.T + 10 * day) = 0.
Proof.
  destruct (rental_day_counts Sample.rental (Sample.T + 10 * day))
    as (_ & _ & Hrem & _ & Hd).
  assert (H3 : Rental.days_overdue Sample.rental (Sample.T + 10 * day) = 3).
  { apply (Hd 3); [lia|]. split; [reflexivity|]. vm_compute.
    split; [discriminate | reflexivity]. }
  split; [exact H3|]. apply Hrem. rewrite H3. lia.
Defined.

Lemma overdue_report_agrees_with_model_witness :
  In Sample.rental
    (RentalService.get_overdue_rentals (Sample.T + 10 * day) Sample.db_rented) /\
  RentalService.check_customer_has_overdue "5551234567" (Sample.T + 10 * day)
    Sample.db_rented = true.
Proof.
  destruct (overdue_report_agrees_with_model (Sample.T + 10 * day) Sample.db_rented)
    as (Hmem & _ & _ & Hhas).
  assert (Hin : In Sample.rental
                  (RentalService.get_overdue_rentals (Sample.T + 10 * day)
                     Sample.db_rented)).
  { apply Hmem. split; [left; reflexivity | reflexivity]. }
  split; [exact Hin|].
  apply Hhas. exists Sample.alice, Sample.rental.
  split; [reflexivity|]. split; [exact Hin | reflexivity].
Defined.
